(** * E-commerce analytics dashboard: the cleaning, segmentation and trend core

    A shallow embedding of [src/app.py]: [clean_data] (lines 83-106), the
    RFM segmentation of tab 2 (lines 212-238) and the weekly revenue trend
    of tab 1 (line 190), together with the pandas operations they call.

    Conventions of the embedding.
    - A DataFrame is an ordered list of named, typed columns, as pandas
      stores it: [object] columns hold strings or NaN, numeric columns hold
      numbers or NaN, [datetime64] columns hold timestamps or NaT.
    - Numbers are integers ([Z]): amounts are taken in an exact unit, for
      which the float64 arithmetic of pandas is exact.  Timestamps are
      nanoseconds since the epoch, as in [datetime64[ns]].
    - A Python exception is a value [Raise e] of the type [result].
    - The text parsers behind [pd.to_datetime] and [pd.to_numeric] are
      parameters of the development: every theorem holds for any parser. *)

From Stdlib Require Import ZArith String Ascii Bool List Lia Permutation Sorted.
From Stdlib Require Import DecimalString.
Import ListNotations.
Local Open Scope string_scope.
Local Open Scope list_scope.
Local Open Scope Z_scope.

(** ** Exceptions *)

Inductive exn : Type :=
| KeyError (missing : list string)
| ValueError (msg : string).

Inductive result (A : Type) : Type :=
| Ok (a : A)
| Raise (e : exn).

Arguments Ok {A} a.
Arguments Raise {A} e.

Definition bind {A B : Type} (r : result A) (k : A -> result B) : result B :=
  match r with
  | Ok a => k a
  | Raise e => Raise e
  end.

Notation "x <- r ;; k" := (bind r (fun x => k))
  (at level 61, r at next level, right associativity).

(** ** DataFrames *)

Inductive column : Type :=
| ObjectCol (xs : list (option string))
| NumberCol (xs : list (option Z))
| DatetimeCol (xs : list (option Z)).

Definition DataFrame : Type := list (string * column).

(** A value read at one position of a column; [NaN] also stands for NaT. *)
Inductive cell : Type :=
| NaN
| StrCell (s : string)
| NumCell (z : Z)
| TimeCell (t : Z).

Definition cell_eq_dec (a b : cell) : {a = b} + {a <> b}.
Proof.
  decide equality; first [apply string_dec | apply Z.eq_dec].
Defined.

Definition row_eq_dec : forall r1 r2 : list cell, {r1 = r2} + {r1 <> r2} :=
  list_eq_dec cell_eq_dec.

Definition opt_cell {A : Type} (f : A -> cell) (o : option A) : cell :=
  match o with
  | Some a => f a
  | None => NaN
  end.

Definition cells (c : column) : list cell :=
  match c with
  | ObjectCol xs => map (opt_cell StrCell) xs
  | NumberCol xs => map (opt_cell NumCell) xs
  | DatetimeCol xs => map (opt_cell TimeCell) xs
  end.

Definition col_length (c : column) : nat := length (cells c).

Definition nrows (df : DataFrame) : nat :=
  match df with
  | [] => 0%nat
  | (_, c) :: _ => col_length c
  end.

(** Every column of a DataFrame has the length of its index. *)
Definition wf (df : DataFrame) : Prop :=
  Forall (fun nc => col_length (snd nc) = nrows df) df.

(** The rows of a frame, each the list of its cells in column order. *)
Fixpoint rows (df : DataFrame) : list (list cell) :=
  match df with
  | [] => []
  | (_, c) :: df' =>
      match df' with
      | [] => map (fun x => [x]) (cells c)
      | _ :: _ => map (fun p => fst p :: snd p) (combine (cells c) (rows df'))
      end
  end.

(** [df[name]] and [name in df.columns]. *)
Fixpoint get_col (name : string) (df : DataFrame) : option column :=
  match df with
  | [] => None
  | (n, c) :: df' => if String.eqb n name then Some c else get_col name df'
  end.

Definition has_col (name : string) (df : DataFrame) : bool :=
  match get_col name df with
  | Some _ => true
  | None => false
  end.

(** [df[name] = c] for a column that exists. *)
Fixpoint set_col (name : string) (c : column) (df : DataFrame) : DataFrame :=
  match df with
  | [] => []
  | (n, c0) :: df' =>
      if String.eqb n name then (n, c) :: df' else (n, c0) :: set_col name c df'
  end.

(** Boolean indexing [xs[mask]]. *)
Fixpoint mask_select {A : Type} (m : list bool) (xs : list A) : list A :=
  match m, xs with
  | b :: m', x :: xs' =>
      if b then x :: mask_select m' xs' else mask_select m' xs'
  | _, _ => []
  end.

Definition select_col (m : list bool) (c : column) : column :=
  match c with
  | ObjectCol xs => ObjectCol (mask_select m xs)
  | NumberCol xs => NumberCol (mask_select m xs)
  | DatetimeCol xs => DatetimeCol (mask_select m xs)
  end.

Definition select_rows (m : list bool) (df : DataFrame) : DataFrame :=
  map (fun nc => (fst nc, select_col m (snd nc))) df.

(** [df.duplicated()]: a row is marked when an identical row precedes it
    (NaN equal to NaN, as pandas compares rows here). *)
Fixpoint duplicated_from (seen rs : list (list cell)) : list bool :=
  match rs with
  | [] => []
  | r :: rs' =>
      (if in_dec row_eq_dec r seen then true else false)
        :: duplicated_from (r :: seen) rs'
  end.

Definition duplicated (df : DataFrame) : list bool :=
  duplicated_from [] (rows df).

Definition drop_duplicates (df : DataFrame) : DataFrame :=
  select_rows (map negb (duplicated df)) df.

(** [notna] of a column, and the mask of [dropna(subset=...)]. *)
Definition is_some {A : Type} (o : option A) : bool :=
  match o with
  | Some _ => true
  | None => false
  end.

Definition notna (c : column) : list bool :=
  match c with
  | ObjectCol xs => map is_some xs
  | NumberCol xs => map is_some xs
  | DatetimeCol xs => map is_some xs
  end.

Fixpoint zip_and (m1 m2 : list bool) : list bool :=
  match m1, m2 with
  | a :: m1', b :: m2' => (a && b)%bool :: zip_and m1' m2'
  | _, _ => []
  end.

Fixpoint subset_mask (n : nat) (cs : list column) : list bool :=
  match cs with
  | [] => repeat true n
  | c :: cs' => zip_and (notna c) (subset_mask n cs')
  end.

Fixpoint subset_cols (subset : list string) (df : DataFrame)
  : list string * list column :=
  match subset with
  | [] => ([], [])
  | name :: subset' =>
      let (missing, cs) := subset_cols subset' df in
      match get_col name df with
      | Some c => (missing, c :: cs)
      | None => (name :: missing, cs)
      end
  end.

(** [df.dropna(subset=subset)]: KeyError when a name of [subset] is not a
    column, else the rows without a missing value in those columns. *)
Definition dropna (subset : list string) (df : DataFrame) : result DataFrame :=
  match subset_cols subset df with
  | ([], cs) => Ok (select_rows (subset_mask (nrows df) cs) df)
  | (missing, _) => Raise (KeyError missing)
  end.

(** [Series.astype(str)] on an object column: NaN prints as "nan". *)
Definition astype_str (c : column) : column :=
  match c with
  | ObjectCol xs =>
      ObjectCol (map (fun o => Some (match o with Some s => s | None => "nan" end)) xs)
  | _ => c
  end.

(** [Series.str.replace(r'[$,]', '', regex=True)]. *)
Fixpoint strip_currency (s : string) : string :=
  match s with
  | EmptyString => EmptyString
  | String a s' =>
      if (Ascii.eqb a "$" || Ascii.eqb a ",")%bool
      then strip_currency s'
      else String a (strip_currency s')
  end.

Definition str_replace_currency (c : column) : column :=
  match c with
  | ObjectCol xs => ObjectCol (map (option_map strip_currency) xs)
  | _ => c
  end.

Definition is_object (c : column) : bool :=
  match c with
  | ObjectCol _ => true
  | _ => false
  end.

(** The int64 pattern of NaT. *)
Definition iNaT : Z := - 2 ^ 63.

Section Clean.

(** [pd.to_datetime(..., dayfirst=True, errors='coerce')] on one string of
    an object column; the column is passed since pandas infers the
    format from it.  [None] is NaT. *)
Variable parse_datetime : list (option string) -> string -> option Z.

(** [pd.to_numeric(..., errors='coerce')] on one string; [None] is NaN. *)
Variable parse_number : string -> option Z.

Definition to_datetime (c : column) : column :=
  match c with
  | DatetimeCol xs => DatetimeCol xs
  | ObjectCol xs =>
      DatetimeCol
        (map (fun o => match o with
                       | Some s => parse_datetime xs s
                       | None => None
                       end) xs)
  | NumberCol xs =>
      DatetimeCol
        (map (fun o => match o with
                       | Some z => if z =? iNaT then None else Some z
                       | None => None
                       end) xs)
  end.

Definition to_numeric (c : column) : column :=
  match c with
  | NumberCol xs => NumberCol xs
  | ObjectCol xs =>
      NumberCol
        (map (fun o => match o with
                       | Some s => parse_number s
                       | None => None
                       end) xs)
  | DatetimeCol xs =>
      NumberCol
        (map (fun o => Some (match o with Some t => t | None => iNaT end)) xs)
  end.

(** Step 2 of [clean_data]. *)
Definition convert_order_date (df : DataFrame) : DataFrame :=
  match get_col "OrderDate" df with
  | Some c => set_col "OrderDate" (to_datetime c) df
  | None => df
  end.

(** The body of the loop of step 3, for one column name. *)
Definition ensure_numeric (df : DataFrame) (col : string) : DataFrame :=
  match get_col col df with
  | Some c =>
      let df1 :=
        if is_object c
        then set_col col (str_replace_currency (astype_str c)) df
        else df in
      match get_col col df1 with
      | Some c1 => set_col col (to_numeric c1) df1
      | None => df1
      end
  | None => df
  end.

Definition numeric_cols : list string := ["TotalSales"; "Quantity"].

(** Steps 2 and 3 together. *)
Definition coerce_columns (df : DataFrame) : DataFrame :=
  fold_left ensure_numeric numeric_cols (convert_order_date df).

Definition clean_data (df : DataFrame) : result DataFrame :=
  let df := drop_duplicates df in
  let df := coerce_columns df in
  dropna ["OrderDate"; "TotalSales"] df.

End Clean.

(** ** Sorting, as [groupby(sort=True)] and the quantile computation use it *)

Section Sort.

Variable A : Type.
Variable leb : A -> A -> bool.

Fixpoint insert_sorted (x : A) (l : list A) : list A :=
  match l with
  | [] => [x]
  | y :: l' => if leb x y then x :: l else y :: insert_sorted x l'
  end.

Fixpoint sort_by (l : list A) : list A :=
  match l with
  | [] => []
  | x :: l' => insert_sorted x (sort_by l')
  end.

End Sort.

Arguments insert_sorted {A} leb x l.
Arguments sort_by {A} leb l.

(** ** Quartile binning: [pd.qcut(x, 4, labels=...)] *)

Definition count_lt (v : Z) (xs : list Z) : nat :=
  length (filter (fun x => x <? v) xs).

(** Four times the [k/4]-quantile of [xs] by linear interpolation: with
    [pos = k * (n - 1)], the value lies between the order statistics of
    index [pos / 4] and the next one, at the fraction [(pos mod 4) / 4].
    The factor 4 keeps the edges integral. *)
Definition quantile4 (xs : list Z) (k : Z) : Z :=
  let a := sort_by Z.leb xs in
  let pos := k * (Z.of_nat (length xs) - 1) in
  let j := Z.to_nat (pos / 4) in
  let j' := Nat.min (S j) (length xs - 1) in
  4 * nth j a 0 + (pos mod 4) * (nth j' a 0 - nth j a 0).

(** The five bin edges (times 4) for the quantiles 0, 1/4, 1/2, 3/4, 1. *)
Definition quartile_edges (xs : list Z) : list Z :=
  map (quantile4 xs) [0; 1; 2; 3; 4].

(** [bins.searchsorted(x, side='left')] on the sorted edges, followed by
    [ids[x == bins[0]] = 1] of [include_lowest=True]. *)
Definition bin_id (bins : list Z) (x : Z) : nat :=
  if 4 * x =? nth 0 bins 0 then 1%nat else count_lt (4 * x) bins.

(** The label of a bin id; ids 0 and [len(bins)] are masked to NaN, which
    prints as "nan". *)
Definition bin_label (bins : list Z) (labels : list string) (id : nat) : string :=
  if ((id =? 0)%nat || (id =? length bins)%nat)%bool
  then "nan"
  else nth (id - 1) labels "nan".

(** The position of the [k/4]-quantile among [n] sorted values, rounded
    down, and the number of the five edges that lie at a position below [c]. *)
Definition quantile_index (n : nat) (k : Z) : nat :=
  Z.to_nat (k * (Z.of_nat n - 1) / 4).

Definition edges_below (n c : nat) : nat :=
  length (filter (fun k => (quantile_index n k <? c)%nat) [0; 1; 2; 3; 4]).

(** [pd.qcut(xs, 4, labels=labels)]: raises when two of the edges coincide
    (the default [duplicates='raise']); an empty [xs] has five NaN edges and
    raises the same way. *)
Definition qcut (xs : list Z) (labels : list string) : result (list string) :=
  let bins := quartile_edges xs in
  if (length (nodup Z.eq_dec bins) <? length bins)%nat
  then Raise (ValueError "Bin edges must be unique")
  else Ok (map (fun x => bin_label bins labels (bin_id bins x)) xs).

(** The number of values of [l] equal to [v]. *)
Definition count_eq (v : Z) (l : list Z) : nat := length (filter (Z.eqb v) l).

(** The ranks 1, ..., [n]. *)
Definition one_to (n : nat) : list Z := map (fun i => Z.of_nat i + 1) (seq 0 n).

(** [Series.rank(method='first')]: one plus the number of smaller values,
    ties ranked in order of appearance. *)
Definition rank_first (xs : list Z) : list Z :=
  map (fun i =>
         let x := nth i xs 0 in
         1 + Z.of_nat (count_lt x xs)
           + Z.of_nat (length (filter (Z.eqb x) (firstn i xs))))
      (seq 0 (length xs)).

(** ** Transactions: the rows of the cleaned, filtered frame

    After [clean_data] the date is a timestamp and the sales amount a
    number; the customer identifier may still be missing. *)

Record txn : Type := {
  OrderDate : Z;
  CustomerID : option string;
  TotalSales : Z
}.

(** [timedelta(days=1)] in nanoseconds. *)
Definition one_day : Z := 86400000000000.

Definition series_max (xs : list Z) : Z :=
  match xs with
  | [] => 0
  | x :: xs' => fold_left Z.max xs' x
  end.

Definition series_min (xs : list Z) : Z :=
  match xs with
  | [] => 0
  | x :: xs' => fold_left Z.min xs' x
  end.

Definition series_sum (xs : list Z) : Z := fold_right Z.add 0 xs.

(** ** Tab 2: RFM segmentation (lines 212-238) *)

Definition snapshot_date (filtered_df : list txn) : Z :=
  series_max (map OrderDate filtered_df) + one_day.

Definition customer_ids (filtered_df : list txn) : list string :=
  flat_map (fun r => match CustomerID r with
                     | Some c => [c]
                     | None => []
                     end) filtered_df.

(** The keys of [groupby('CustomerID')]: the distinct identifiers that are
    not missing, in sorted order. *)
Definition group_keys (filtered_df : list txn) : list string :=
  sort_by String.leb (nodup string_dec (customer_ids filtered_df)).

Definition is_customer (c : string) (r : txn) : bool :=
  match CustomerID r with
  | Some c' => String.eqb c' c
  | None => false
  end.

Record rfm_row : Type := {
  customer : string;
  Recency : Z;
  Frequency : Z;
  Monetary : Z
}.

(** [filtered_df.groupby('CustomerID').agg({...})], renamed. *)
Definition rfm (filtered_df : list txn) : list rfm_row :=
  map (fun c =>
         let x := filter (is_customer c) filtered_df in
         {| customer := c;
            Recency := (snapshot_date filtered_df - series_max (map OrderDate x)) / one_day;
            Frequency := Z.of_nat (length x);
            Monetary := series_sum (map TotalSales x) |})
      (group_keys filtered_df).

Definition r_labels : list string := ["4"; "3"; "2"; "1"].
Definition fm_labels : list string := ["1"; "2"; "3"; "4"].

(** The [try] block of lines 222-228 and its [except] branch. *)
Definition try_fm_scores (t : list rfm_row) : result (list string * list string) :=
  f <- qcut (rank_first (map Frequency t)) fm_labels ;;
  m <- qcut (map Monetary t) fm_labels ;;
  Ok (f, m).

Definition fm_scores (t : list rfm_row) : list string * list string :=
  match try_fm_scores t with
  | Ok fm => fm
  | Raise _ => (map (fun _ => "1") t, map (fun _ => "1") t)
  end.

Definition segment_customer (RFM_Score R_Score : string) : string :=
  if existsb (String.eqb RFM_Score) ["444"; "434"; "443"; "344"] then "Champions"
  else if String.eqb R_Score "4" then "New Users"
  else if String.eqb R_Score "1" then "At Risk"
  else "Regular".

Record scored_row : Type := {
  metrics : rfm_row;
  R_Score : string;
  F_Score : string;
  M_Score : string;
  RFM_Score : string;
  Segment : string
}.

Definition score_row (p : rfm_row * (string * (string * string))) : scored_row :=
  let '(row, (r, (f, m))) := p in
  let rfm_score := (r ++ f ++ m)%string in
  {| metrics := row;
     R_Score := r;
     F_Score := f;
     M_Score := m;
     RFM_Score := rfm_score;
     Segment := segment_customer rfm_score r |}.

(** Lines 221-238 on the per-customer table. *)
Definition score_rfm (t : list rfm_row) : result (list scored_row) :=
  r <- qcut (map Recency t) r_labels ;;
  let (f, m) := fm_scores t in
  Ok (map score_row (combine t (combine r (combine f m)))).

(** The segmentation of a filtered frame that is not empty. *)
Definition segmentation (filtered_df : list txn) : result (list scored_row) :=
  score_rfm (rfm filtered_df).

(** Tab 2 as a whole: skipped when the filtered frame is empty. *)
Definition tab2 (filtered_df : list txn) : option (result (list scored_row)) :=
  match filtered_df with
  | [] => None
  | _ :: _ => Some (segmentation filtered_df)
  end.

(** The per-customer table with the spend of the customer at position [i]
    replaced by [v], every other metric unchanged. *)
Fixpoint update_nth {A : Type} (i : nat) (f : A -> A) (l : list A) : list A :=
  match l, i with
  | [], _ => []
  | x :: l', O => f x :: l'
  | x :: l', S i' => x :: update_nth i' f l'
  end.

Definition with_monetary (v : Z) (row : rfm_row) : rfm_row :=
  {| customer := customer row;
     Recency := Recency row;
     Frequency := Frequency row;
     Monetary := v |}.

Definition set_monetary (i : nat) (v : Z) (t : list rfm_row) : list rfm_row :=
  update_nth i (with_monetary v) t.

(** The numeric value of a score label. *)
Definition score_value (s : string) : Z :=
  if String.eqb s "1" then 1
  else if String.eqb s "2" then 2
  else if String.eqb s "3" then 3
  else if String.eqb s "4" then 4
  else 0.

(** The first-matching-rule table of the specification, for comparison
    with [segment_customer]. *)
Definition spec_rules : list ((string -> string -> bool) * string) :=
  [ (fun score _ => existsb (String.eqb score) ["444"; "434"; "443"; "344"], "Champions");
    (fun _ r => String.eqb r "4", "New Users");
    (fun _ r => String.eqb r "1", "At Risk");
    (fun _ _ => true, "Regular") ].

Fixpoint first_match (rules : list ((string -> string -> bool) * string))
  (score r : string) : option string :=
  match rules with
  | [] => None
  | (p, label) :: rules' =>
      if p score r then Some label else first_match rules' score r
  end.

(** ** Tab 1: weekly revenue trend (line 190) *)

(** [Timestamp.normalize()]: midnight of the same day. *)
Definition normalize (t : Z) : Z := t / one_day * one_day.

(** [Timestamp.weekday()]: Monday is 0, Sunday 6; the epoch was a Thursday. *)
Definition weekday (t : Z) : Z := (t / one_day + 3) mod 7.

(** [other + n * Week(weekday=6)]: the offset of [resample('W')]. *)
Definition week_apply (n : Z) (other : Z) : Z :=
  let otherDay := weekday other in
  if otherDay =? 6
  then other + n * (7 * one_day)
  else
    let other' := other + ((6 - otherDay) mod 7) * one_day in
    let k := if n >? 0 then n - 1 else n in
    other' + k * (7 * one_day).

(** [count] weekly timestamps from [start]. *)
Fixpoint weekly (start : Z) (count : nat) : list Z :=
  match count with
  | O => []
  | S count' => start :: weekly (start + 7 * one_day) count'
  end.

(** [date_range(start, end, freq='W')] for a [start] that is a Sunday. *)
Definition date_range_weekly (first last : Z) : list Z :=
  weekly first (Z.to_nat ((last - first) / (7 * one_day) + 1)).

(** The bins of [resample('W')] (closed and labelled on the right): the
    edges are the ends of the Sundays of [binner]; the last edge is dropped
    when the one before it already lies after every value. *)
Definition week_binner (ax : list Z) : list Z :=
  let first := week_apply (-1) (normalize (series_min ax)) in
  let last := week_apply 1 (normalize (series_max ax)) in
  let binner := date_range_weekly first last in
  let bin_edges := map (fun t => t + one_day - 1) binner in
  if nth (length bin_edges - 2) bin_edges 0 >? series_max ax
  then removelast binner
  else binner.

(** The sum of a bin [(lo, hi]]; it is 0 for a bin without rows. *)
Definition bin_sum (filtered_df : list txn) (lo hi : Z) : Z :=
  series_sum
    (map TotalSales
       (filter (fun r => (lo <? OrderDate r) && (OrderDate r <=? hi))%bool
          filtered_df)).

(** [filtered_df.set_index('OrderDate').resample('W')['TotalSales'].sum()
    .reset_index()]: one pair (label, sum) per bin. *)
Definition sales_over_time (filtered_df : list txn) : list (Z * Z) :=
  match filtered_df with
  | [] => []
  | _ :: _ =>
      let binner := week_binner (map OrderDate filtered_df) in
      map (fun p =>
             (snd p, bin_sum filtered_df (fst p + one_day - 1) (snd p + one_day - 1)))
          (combine binner (tl binner))
  end.

(** ** Two concrete parsers, for the examples

    [integer_literal] reads a decimal integer as [pd.to_numeric] does;
    [iso_date] reads a date written YYYY-MM-DD, the format pandas infers
    for a column of such dates.  Every other string is a failed coercion. *)

Definition digit_of (a : ascii) : option Z :=
  let n := Z.of_nat (nat_of_ascii a) in
  if ((48 <=? n) && (n <=? 57))%bool then Some (n - 48) else None.

Fixpoint parse_digits (acc : Z) (s : string) : option Z :=
  match s with
  | EmptyString => Some acc
  | String a s' =>
      match digit_of a with
      | Some d => parse_digits (10 * acc + d) s'
      | None => None
      end
  end.

Definition natural_literal (s : string) : option Z :=
  match s with
  | EmptyString => None
  | String _ _ => parse_digits 0 s
  end.

Definition integer_literal (s : string) : option Z :=
  match s with
  | String "-" s' => option_map Z.opp (natural_literal s')
  | _ => natural_literal s
  end.

Definition is_leap (y : Z) : bool :=
  ((y mod 4 =? 0) && (negb (y mod 100 =? 0) || (y mod 400 =? 0)))%bool.

Definition days_in_month (y m : Z) : Z :=
  if m =? 2 then (if is_leap y then 29 else 28)
  else if ((m =? 4) || (m =? 6) || (m =? 9) || (m =? 11))%bool then 30
  else 31.

(** Days from 1970-01-01 to the civil date [y]-[m]-[d]. *)
Definition days_from_civil (y m d : Z) : Z :=
  let y' := if m <=? 2 then y - 1 else y in
  let era := y' / 400 in
  let yoe := y' - era * 400 in
  let doy := (153 * (if m >? 2 then m - 3 else m + 9) + 2) / 5 + d - 1 in
  let doe := yoe * 365 + yoe / 4 - yoe / 100 + doy in
  era * 146097 + doe - 719468.

Definition iso_date (_ : list (option string)) (s : string) : option Z :=
  if negb (String.length s =? 10)%nat then None
  else
    match natural_literal (substring 0 4 s),
          natural_literal (substring 5 2 s),
          natural_literal (substring 8 2 s) with
    | Some y, Some m, Some d =>
        if ((String.eqb (substring 4 1 s) "-") && (String.eqb (substring 7 1 s) "-")
            && (1 <=? m) && (m <=? 12) && (1 <=? d) && (d <=? days_in_month y m))%bool
        then Some (days_from_civil y m d * one_day)
        else None
    | _, _, _ => None
    end.

(** [clean_data] with these parsers. *)
Definition clean_data_example : DataFrame -> result DataFrame :=
  clean_data iso_date integer_literal.

(** The input frame is already coerced: the date column is [datetime64]
    and the numeric columns are numeric, where they exist. *)
Definition is_datetime (c : column) : bool :=
  match c with
  | DatetimeCol _ => true
  | _ => false
  end.

Definition is_number (c : column) : bool :=
  match c with
  | NumberCol _ => true
  | _ => false
  end.

Definition dtype_ok (name : string) (p : column -> bool) (df : DataFrame) : bool :=
  match get_col name df with
  | Some c => p c
  | None => true
  end.

Definition coerced (df : DataFrame) : bool :=
  (dtype_ok "OrderDate" is_datetime df
   && dtype_ok "TotalSales" is_number df
   && dtype_ok "Quantity" is_number df)%bool.

(** ** Example tables *)

(** 2023-01-01 00:00, a Sunday. *)
Definition jan_1_2023 : Z := 19358 * one_day.

(** A frame without the date column. *)
Definition frame_without_date : DataFrame :=
  [ ("CustomerID", ObjectCol [Some "CUST-1001"]);
    ("TotalSales", NumberCol [Some 120]) ].

(** Two orders that differ only in how the quantity is written. *)
Definition frame_currency_twins : DataFrame :=
  [ ("OrderDate", DatetimeCol [Some jan_1_2023; Some jan_1_2023]);
    ("CustomerID", ObjectCol [Some "CUST-1001"; Some "CUST-1001"]);
    ("Quantity", ObjectCol [Some "$1"; Some "1"]);
    ("TotalSales", NumberCol [Some 120; Some 120]) ].

(** A frame as [read_csv] returns it: text dates, amounts with currency
    signs, an unreadable quantity, an unreadable date, a repeated line. *)
Definition frame_raw_csv : DataFrame :=
  [ ("OrderDate",
      ObjectCol [Some "2023-01-01"; Some "2023-01-02"; Some "soon"; Some "2023-01-01"; None]);
    ("CustomerID",
      ObjectCol [Some "CUST-1001"; Some "CUST-1002"; Some "CUST-1003"; Some "CUST-1001"; Some "CUST-1004"]);
    ("Quantity",
      ObjectCol [Some "2"; Some "three"; Some "1"; Some "2"; Some "1"]);
    ("TotalSales",
      ObjectCol [Some "$1,234"; Some "60"; Some "45"; Some "$1,234"; Some "150"]) ].

(** What [clean_data] returns on [frame_raw_csv]. *)
Definition frame_raw_csv_cleaned : DataFrame :=
  [ ("OrderDate", DatetimeCol [Some jan_1_2023; Some (jan_1_2023 + one_day)]);
    ("CustomerID", ObjectCol [Some "CUST-1001"; Some "CUST-1002"]);
    ("Quantity", NumberCol [Some 2; None]);
    ("TotalSales", NumberCol [Some 1234; Some 60]) ].

(** What [clean_data] returns on [frame_currency_twins]. *)
Definition frame_currency_twins_cleaned : DataFrame :=
  [ ("OrderDate", DatetimeCol [Some jan_1_2023; Some jan_1_2023]);
    ("CustomerID", ObjectCol [Some "CUST-1001"; Some "CUST-1001"]);
    ("Quantity", NumberCol [Some 1; Some 1]);
    ("TotalSales", NumberCol [Some 120; Some 120]) ].

Definition order (day : Z) (c : string) (amount : Z) : txn :=
  {| OrderDate := jan_1_2023 + day * one_day; CustomerID := Some c; TotalSales := amount |}.

(** One customer, one order. *)
Definition one_customer : list txn := [order 0 "CUST-1001" 120].

(** One customer, two orders. *)
Definition one_customer_two_orders : list txn :=
  [order 0 "CUST-1001" 120; order 3 "CUST-1001" 60].

(** Five customers with recencies 5, 4, 3, 2, 1 and spends 1, 2, 3, 4, 5. *)
Definition five_customers : list txn :=
  [order 0 "A" 1; order 1 "B" 2; order 2 "C" 3; order 3 "D" 4; order 4 "E" 5].

(** The same, with the spend of customer D raised from 4 to 5. *)
Definition five_customers_raised : list txn :=
  [order 0 "A" 1; order 1 "B" 2; order 2 "C" 3; order 3 "D" 5; order 4 "E" 5].

(** Five customers with the four distinct recencies 4, 3, 2, 1, 1. *)
Definition five_customers_four_recencies : list txn :=
  [order 0 "A" 10; order 1 "B" 20; order 2 "C" 30; order 3 "D" 40; order 3 "E" 50].

(** The three customers of the end-to-end example of the specification. *)
Definition three_customers : list txn :=
  [order 100 "A" 100; order 90 "A" 100; order 80 "A" 50; order 70 "A" 50;
   order 10 "B" 50; order 40 "C" 100; order 39 "C" 100].

(** The scored table of a segmentation that returned. *)
Definition scored_rows (r : result (list scored_row)) : list scored_row :=
  match r with
  | Ok s => s
  | Raise _ => []
  end.

Definition three_customers_scored : list scored_row :=
  Eval vm_compute in scored_rows (segmentation three_customers).

(** Two orders three weeks apart, both on a Sunday. *)
Definition two_sundays : list txn := [order 0 "A" 100; order 21 "B" 7].

(** ** Loading a file (lines 109-117) *)

(** What [load_data] hands back: the frame or [None], and the exception it
    reported with [st.error] instead of raising. *)
Record loaded : Type := {
  frame : option DataFrame;
  reported : option exn
}.

Section Load.

Variable parse_datetime : list (option string) -> string -> option Z.
Variable parse_number : string -> option Z.

(** The uploaded file, and [pd.read_csv] on it. *)
Variable file : Type.
Variable read_csv : file -> result DataFrame.

Definition load_data (f : file) : loaded :=
  match (df <- read_csv f ;; clean_data parse_datetime parse_number df) with
  | Ok df => {| frame := Some df; reported := None |}
  | Raise e => {| frame := None; reported := Some e |}
  end.

End Load.

Arguments load_data parse_datetime parse_number {file} read_csv f.

(** ** Demo data (lines 63-80)

    The random choices of one row are an input of the model: the index of
    the date among the 365 days of 2023, the index of the product, the
    quantity and the customer number. *)

Definition products : list string :=
  ["Wireless Headphones"; "Gaming Mouse"; "Mechanical Keyboard"; "4K Monitor";
   "Laptop Stand"].

Definition prices : list (string * Z) :=
  [("Wireless Headphones", 120); ("Gaming Mouse", 60); ("Mechanical Keyboard", 150);
   ("4K Monitor", 350); ("Laptop Stand", 45)].

(** [d[key]] on a dict. *)
Fixpoint dict_get (d : list (string * Z)) (key : string) : result Z :=
  match d with
  | [] => Raise (KeyError [key])
  | (k, v) :: d' => if String.eqb k key then Ok v else dict_get d' key
  end.

Record draw : Type := {
  date_index : nat;
  product_index : nat;
  quantity : Z;
  customer_number : Z
}.

(** The ranges of [np.random.choice(dates)], [np.random.choice(products)],
    [np.random.randint(1, 4)] and [np.random.randint(1000, 1050)]. *)
Definition valid_draw (d : draw) : Prop :=
  (date_index d < 365)%nat
  /\ (product_index d < 5)%nat
  /\ 1 <= quantity d <= 3
  /\ 1000 <= customer_number d <= 1049.

Record mock_row : Type := {
  mock_date : Z;
  mock_customer : string;
  mock_product : string;
  mock_quantity : Z;
  mock_sales : Z
}.

(** One iteration of the loop of lines 70-79. *)
Definition generate_row (d : draw) : result mock_row :=
  let prod := nth (product_index d) products "" in
  price <- dict_get prices prod ;;
  Ok {| mock_date := jan_1_2023 + Z.of_nat (date_index d) * one_day;
        mock_customer := "CUST-" ++ NilZero.string_of_int (Z.to_int (customer_number d));
        mock_product := prod;
        mock_quantity := quantity d;
        mock_sales := price * quantity d |}.

Fixpoint generate_rows (draws : list draw) : result (list mock_row) :=
  match draws with
  | [] => Ok []
  | d :: draws' =>
      row <- generate_row d ;;
      rows <- generate_rows draws' ;;
      Ok (row :: rows)
  end.

(** [pd.DataFrame(data)] for a list of row dicts: no column at all when the
    list is empty. *)
Definition frame_of_rows (data : list mock_row) : DataFrame :=
  match data with
  | [] => []
  | _ :: _ =>
      [ ("OrderDate", DatetimeCol (map (fun r => Some (mock_date r)) data));
        ("CustomerID", ObjectCol (map (fun r => Some (mock_customer r)) data));
        ("ProductID", ObjectCol (map (fun r => Some (mock_product r)) data));
        ("Quantity", NumberCol (map (fun r => Some (mock_quantity r)) data));
        ("TotalSales", NumberCol (map (fun r => Some (mock_sales r)) data)) ]
  end.

Definition generate_mock_data (draws : list draw) : result DataFrame :=
  data <- generate_rows draws ;;
  Ok (frame_of_rows data).

(** ** From a cleaned frame to its transactions

    The rows of a frame whose date column is [datetime64], whose customer
    column is text and whose sales column is numeric; [None] when a date or
    an amount is missing or the columns do not have this shape. *)
Fixpoint txn_rows (ds : list (option Z)) (cs : list (option string))
  (xs : list (option Z)) : option (list txn) :=
  match ds, cs, xs with
  | [], [], [] => Some []
  | Some d :: ds', c :: cs', Some x :: xs' =>
      match txn_rows ds' cs' xs' with
      | Some rows => Some ({| OrderDate := d; CustomerID := c; TotalSales := x |} :: rows)
      | None => None
      end
  | _, _, _ => None
  end.

Definition transactions (df : DataFrame) : option (list txn) :=
  match get_col "OrderDate" df, get_col "CustomerID" df, get_col "TotalSales" df with
  | Some (DatetimeCol ds), Some (ObjectCol cs), Some (NumberCol xs) => txn_rows ds cs xs
  | _, _, _ => None
  end.

(** ** The date filter (lines 146-159)

    The date widget works with calendar dates, here day numbers since the
    epoch: it is given the dates of the earliest and the latest order and
    returns the two dates the user picked. *)

(** [Timestamp.date()] and [pd.to_datetime(date)]. *)
Definition date_of (t : Z) : Z := t / one_day.
Definition to_datetime_date (date : Z) : Z := date * one_day.

Definition min_date (df : list txn) : Z := series_min (map OrderDate df).
Definition max_date (df : list txn) : Z := series_max (map OrderDate df).

(** The range the widget shows before the user touches it. *)
Definition default_range (df : list txn) : Z * Z :=
  (date_of (min_date df), date_of (max_date df)).

(** [df.loc[mask]] for the mask of line 158. *)
Definition filter_dates (df : list txn) (start_date end_date : Z) : list txn :=
  filter (fun r => (to_datetime_date start_date <=? OrderDate r)
                   && (OrderDate r <=? to_datetime_date end_date))%bool df.

(** ** KPIs of tab 1 (lines 172-175) *)




(** ** Top products (line 200)

    The frame is read through its columns ProductID and TotalSales. *)

Definition product_keys (lines : list (option string * Z)) : list string :=
  flat_map (fun l => match fst l with
                     | Some p => [p]
                     | None => []
                     end) lines.

Definition is_product (p : string) (l : option string * Z) : bool :=
  match fst l with
  | Some p' => String.eqb p' p
  | None => false
  end.

(** [groupby('ProductID')['TotalSales'].sum()]. *)
Definition product_totals (lines : list (option string * Z)) : list (string * Z) :=
  map (fun p => (p, series_sum (map snd (filter (is_product p) lines))))
      (sort_by String.leb (nodup string_dec (product_keys lines))).

(** [Series.nlargest(n)]: the first [n] of the values in descending order,
    equal values in their order of appearance. *)
Definition nlargest (n : nat) (s : list (string * Z)) : list (string * Z) :=
  firstn n (sort_by (fun a b => snd b <=? snd a) s).

Definition top_products (lines : list (option string * Z)) : list (string * Z) :=
  nlargest 5 (product_totals lines).

(** ** Example inputs for the remaining functions *)

Definition example_draws : list draw :=
  [ {| date_index := 0; product_index := 0; quantity := 2; customer_number := 1001 |};
    {| date_index := 364; product_index := 3; quantity := 3; customer_number := 1049 |};
    {| date_index := 0; product_index := 0; quantity := 2; customer_number := 1001 |};
    {| date_index := 40; product_index := 4; quantity := 1; customer_number := 1000 |} ].

(** Two orders of one day, at 10:00 and at 15:00. *)
Definition one_day_with_times : list txn :=
  [ {| OrderDate := jan_1_2023 + 36000000000000; CustomerID := Some "A"; TotalSales := 10 |};
    {| OrderDate := jan_1_2023 + 54000000000000; CustomerID := Some "B"; TotalSales := 20 |} ].

Definition product_lines_example : list (option string * Z) :=
  [(Some "X", 100); (Some "Y", 300); (None, 5); (Some "Y", 50); (Some "Z", 100)].

(** [df[name] = f(df[name])] when the column exists. *)
Definition update_col (name : string) (f : column -> column) (df : DataFrame)
  : DataFrame :=
  match get_col name df with
  | Some c => set_col name (f c) df
  | None => df
  end.

(** What the loop body of step 3 makes of one column. *)
Definition numeric_of (parse_number : string -> option Z) (c : column) : column :=
  to_numeric parse_number
    (if is_object c then str_replace_currency (astype_str c) else c).

Definition all_some {A : Type} (xs : list (option A)) : Prop :=
  Forall (fun o => is_some o = true) xs.

(** * Facts about boolean indexing and rows *)

Lemma mask_select_nil (A : Type) (m : list bool) : mask_select m (@nil A) = [].
Proof. destruct m as [|[] m]; reflexivity. Qed.

Lemma mask_select_map (A B : Type) (f : A -> B) (m : list bool) (xs : list A) :
  mask_select m (map f xs) = map f (mask_select m xs).
Proof.
  revert xs; induction m as [|b m IH]; intros [|x xs]; simpl; trivial.
  destruct b; simpl; now rewrite IH.
Qed.

Lemma mask_select_combine (A B : Type) (m : list bool) (xs : list A) (ys : list B) :
  mask_select m (combine xs ys) = combine (mask_select m xs) (mask_select m ys).
Proof.
  revert xs ys; induction m as [|b m IH]; intros [|x xs] [|y ys]; simpl; trivial.
  all: destruct b; simpl; now rewrite ?IH, ?combine_nil.
Qed.

Lemma mask_select_length_eq (A B : Type) (m : list bool) (xs : list A) (ys : list B) :
  length xs = length ys ->
  length (mask_select m xs) = length (mask_select m ys).
Proof.
  revert xs ys; induction m as [|b m IH]; intros [|x xs] [|y ys]; simpl; try discriminate; trivial.
  intros H; injection H as H. destruct b; simpl; auto.
Qed.

Lemma mask_select_In (A : Type) (m : list bool) (xs : list A) (x : A) :
  In x (mask_select m xs) -> In x xs.
Proof.
  revert xs; induction m as [|b m IH]; intros [|y xs]; simpl; try tauto.
  destruct b; simpl; intros H; [destruct H|]; auto.
Qed.

Lemma mask_select_NoDup (A : Type) (m : list bool) (xs : list A) :
  NoDup xs -> NoDup (mask_select m xs).
Proof.
  revert xs; induction m as [|b m IH]; intros [|y xs] H; simpl; try constructor.
  inversion H; subst. destruct b; auto.
  constructor; auto. intros Hin; apply mask_select_In in Hin; contradiction.
Qed.

Lemma mask_select_all_true (A : Type) (n : nat) (xs : list A) :
  (length xs <= n)%nat -> mask_select (repeat true n) xs = xs.
Proof.
  revert xs; induction n as [|n IH]; intros [|x xs]; simpl; trivial.
  - lia.
  - intros H. f_equal. apply IH. lia.
Qed.

Lemma cells_select_col (m : list bool) (c : column) :
  cells (select_col m c) = mask_select m (cells c).
Proof. destruct c; simpl; now rewrite mask_select_map. Qed.

Lemma rows_select_rows (m : list bool) (df : DataFrame) :
  rows (select_rows m df) = mask_select m (rows df).
Proof.
  induction df as [|[n c] df IH].
  - simpl. now rewrite mask_select_nil.
  - destruct df as [|p df].
    + simpl. now rewrite cells_select_col, mask_select_map.
    + change (rows (select_rows m ((n, c) :: p :: df)))
        with (map (fun q => fst q :: snd q)
                (combine (cells (select_col m c)) (rows (select_rows m (p :: df))))).
      rewrite IH, cells_select_col, <- mask_select_combine, <- mask_select_map.
      reflexivity.
Qed.

Lemma get_col_select_rows (name : string) (m : list bool) (df : DataFrame) :
  get_col name (select_rows m df) = option_map (select_col m) (get_col name df).
Proof.
  induction df as [|[n c] df IH]; simpl; trivial.
  destruct (String.eqb n name); trivial.
Qed.

Lemma select_col_all_true (n : nat) (c : column) :
  (col_length c <= n)%nat -> select_col (repeat true n) c = c.
Proof.
  unfold col_length. destruct c; simpl; rewrite length_map; intros H;
    now rewrite mask_select_all_true.
Qed.

Lemma select_rows_all_true (n : nat) (df : DataFrame) :
  Forall (fun nc => (col_length (snd nc) <= n)%nat) df ->
  select_rows (repeat true n) df = df.
Proof.
  induction 1 as [|[name c] df H _ IH]; simpl; trivial.
  simpl in H. now rewrite select_col_all_true, IH.
Qed.

Lemma col_length_select_col (m : list bool) (c1 c2 : column) :
  col_length c1 = col_length c2 ->
  col_length (select_col m c1) = col_length (select_col m c2).
Proof.
  unfold col_length. rewrite !cells_select_col. apply mask_select_length_eq.
Qed.

Lemma wf_select_rows (m : list bool) (df : DataFrame) :
  wf df -> wf (select_rows m df).
Proof.
  unfold wf. destruct df as [|[n c] df]; simpl; trivial.
  intros H. apply Forall_forall. intros [n' c'] Hin.
  change ((n, select_col m c) :: select_rows m df)
    with (select_rows m ((n, c) :: df)) in Hin.
  apply in_map_iff in Hin. destruct Hin as [[n0 c0] [Heq Hin]].
  injection Heq as <- <-. simpl.
  apply col_length_select_col.
  rewrite Forall_forall in H. apply (H _ Hin).
Qed.

Lemma rows_length (k : nat) (df : DataFrame) :
  df <> [] ->
  Forall (fun nc => col_length (snd nc) = k) df ->
  length (rows df) = k.
Proof.
  induction df as [|[n c] df IH]; [congruence|].
  intros _ H. apply Forall_cons_iff in H. destruct H as [Hc Hdf]. simpl in Hc.
  destruct df as [|p df].
  - simpl. now rewrite length_map.
  - change (rows ((n, c) :: p :: df))
      with (map (fun q => fst q :: snd q) (combine (cells c) (rows (p :: df)))).
    rewrite length_map, length_combine, IH; [|congruence|assumption].
    unfold col_length in Hc. rewrite Hc. lia.
Qed.

Lemma wf_rows_length (df : DataFrame) : wf df -> length (rows df) = nrows df.
Proof.
  destruct df as [|p df]; [reflexivity|].
  intros H. apply rows_length; [congruence|exact H].
Qed.

(** * Facts about [drop_duplicates] *)

Lemma duplicated_from_spec (seen rs : list (list cell)) :
  let kept := mask_select (map negb (duplicated_from seen rs)) rs in
  NoDup kept
  /\ (forall r, In r kept -> ~ In r seen)
  /\ (forall r, In r rs -> In r seen \/ In r kept).
Proof.
  revert seen; induction rs as [|r rs IH]; intros seen; simpl.
  - split; [constructor|]. split; tauto.
  - destruct (IH (r :: seen)) as (Hnd & Hnot & Hin).
    destruct (in_dec row_eq_dec r seen) as [Hr|Hr]; simpl.
    + split; [exact Hnd|]. split.
      * intros r' H' Hs. apply (Hnot r' H'). now right.
      * intros r' [<-|H']; [now left|].
        destruct (Hin r' H') as [[<-|Hs]|Hk]; auto.
    + split; [|split].
      * constructor; trivial. intros H'. apply (Hnot r H'). now left.
      * intros r' [<-|H'] Hs; [contradiction|].
        apply (Hnot r' H'). now right.
      * intros r' [<-|H']; [right; now left|].
        destruct (Hin r' H') as [[<-|Hs]|Hk]; simpl; auto.
Qed.

Lemma rows_drop_duplicates (df : DataFrame) :
  rows (drop_duplicates df) = mask_select (map negb (duplicated df)) (rows df).
Proof. apply rows_select_rows. Qed.

Lemma drop_duplicates_NoDup (df : DataFrame) : NoDup (rows (drop_duplicates df)).
Proof.
  rewrite rows_drop_duplicates. apply (duplicated_from_spec [] (rows df)).
Qed.

Lemma drop_duplicates_keeps_values (df : DataFrame) (r : list cell) :
  In r (rows df) -> In r (rows (drop_duplicates df)).
Proof.
  intros H. rewrite rows_drop_duplicates.
  destruct (duplicated_from_spec [] (rows df)) as (_ & _ & Hin).
  destruct (Hin r H) as [[]|Hk]; exact Hk.
Qed.

Lemma duplicated_from_NoDup (seen rs : list (list cell)) :
  NoDup rs -> (forall r, In r rs -> ~ In r seen) ->
  duplicated_from seen rs = repeat false (length rs).
Proof.
  revert seen; induction rs as [|r rs IH]; intros seen Hnd Hs; simpl; trivial.
  inversion Hnd; subst.
  destruct (in_dec row_eq_dec r seen) as [Hr|Hr].
  - exfalso. apply (Hs r); simpl; auto.
  - f_equal. apply IH; trivial.
    intros r' H' [<-|Hin]; [contradiction|].
    apply (Hs r'); simpl; auto.
Qed.

Lemma drop_duplicates_id (df : DataFrame) :
  wf df -> NoDup (rows df) -> drop_duplicates df = df.
Proof.
  intros Hwf Hnd. unfold drop_duplicates, duplicated.
  rewrite duplicated_from_NoDup by (trivial; intros; tauto).
  rewrite wf_rows_length by assumption.
  replace (map negb (repeat false (nrows df))) with (repeat true (nrows df))
    by (induction (nrows df); simpl; congruence).
  apply select_rows_all_true.
  unfold wf in Hwf. eapply Forall_impl; [|exact Hwf].
  simpl. intros a H. rewrite H. lia.
Qed.

(** * Facts about column assignment *)

Lemma get_col_set_col_eq (name : string) (c : column) (df : DataFrame) :
  get_col name (set_col name c df)
  = match get_col name df with Some _ => Some c | None => None end.
Proof.
  induction df as [|[n c0] df IH]; simpl; trivial.
  destruct (String.eqb n name) eqn:E; simpl; now rewrite E.
Qed.

Lemma get_col_set_col_neq (name name' : string) (c : column) (df : DataFrame) :
  name <> name' -> get_col name (set_col name' c df) = get_col name df.
Proof.
  intros Hne. induction df as [|[n c0] df IH]; simpl; trivial.
  destruct (String.eqb n name') eqn:E; simpl.
  - apply String.eqb_eq in E. subst n.
    destruct (String.eqb name' name) eqn:E'; trivial.
    apply String.eqb_eq in E'. congruence.
  - now rewrite IH.
Qed.

Lemma set_col_set_col (name : string) (c1 c2 : column) (df : DataFrame) :
  set_col name c2 (set_col name c1 df) = set_col name c2 df.
Proof.
  induction df as [|[n c0] df IH]; simpl; trivial.
  destruct (String.eqb n name) eqn:E; simpl; rewrite E; congruence.
Qed.

Lemma set_col_same (name : string) (c : column) (df : DataFrame) :
  get_col name df = Some c -> set_col name c df = df.
Proof.
  induction df as [|[n c0] df IH]; simpl; trivial.
  destruct (String.eqb n name); intros H; [congruence|].
  now rewrite IH.
Qed.

Lemma Forall_set_col (P : column -> Prop) (name : string) (c : column) (df : DataFrame) :
  P c -> Forall (fun nc => P (snd nc)) df ->
  Forall (fun nc => P (snd nc)) (set_col name c df).
Proof.
  intros Hc. induction 1 as [|[n c0] df H0 Hdf IH]; simpl; [constructor|].
  destruct (String.eqb n name); constructor; trivial.
Qed.

Lemma wf_of_Forall (k : nat) (df : DataFrame) :
  Forall (fun nc => col_length (snd nc) = k) df -> wf df.
Proof.
  unfold wf. destruct df as [|[n c] df]; [constructor|].
  intros H. pose proof (Forall_inv H) as Hc. simpl in Hc. simpl. now rewrite Hc.
Qed.

Lemma get_col_Forall (P : column -> Prop) (name : string) (c : column) (df : DataFrame) :
  Forall (fun nc => P (snd nc)) df -> get_col name df = Some c -> P c.
Proof.
  induction 1 as [|[n c0] df H0 Hdf IH]; simpl; [discriminate|].
  destruct (String.eqb n name); [|exact IH].
  intros H; injection H as <-. exact H0.
Qed.

Lemma get_col_update_col_eq (name : string) (f : column -> column) (df : DataFrame) :
  get_col name (update_col name f df) = option_map f (get_col name df).
Proof.
  unfold update_col. destruct (get_col name df) as [c|] eqn:E; simpl.
  - now rewrite get_col_set_col_eq, E.
  - exact E.
Qed.

Lemma get_col_update_col_neq (name name' : string) (f : column -> column) (df : DataFrame) :
  name <> name' -> get_col name (update_col name' f df) = get_col name df.
Proof.
  intros Hne. unfold update_col. destruct (get_col name' df); trivial.
  now apply get_col_set_col_neq.
Qed.

Lemma update_col_id (name : string) (f : column -> column) (df : DataFrame) :
  (forall c, get_col name df = Some c -> f c = c) -> update_col name f df = df.
Proof.
  intros H. unfold update_col. destruct (get_col name df) as [c|] eqn:E; trivial.
  rewrite (H c eq_refl). now apply set_col_same.
Qed.

Lemma wf_update_col (name : string) (f : column -> column) (df : DataFrame) :
  (forall c, col_length (f c) = col_length c) -> wf df -> wf (update_col name f df).
Proof.
  intros Hf Hwf. unfold update_col.
  destruct (get_col name df) as [c|] eqn:E; trivial.
  apply (wf_of_Forall (nrows df)).
  apply (Forall_set_col (fun c => col_length c = nrows df)); [|exact Hwf].
  rewrite Hf.
  eapply (get_col_Forall (fun c => col_length c = nrows df)); [exact Hwf|exact E].
Qed.

Lemma nrows_update_col (name : string) (f : column -> column) (df : DataFrame) :
  (forall c, col_length (f c) = col_length c) ->
  nrows (update_col name f df) = nrows df.
Proof.
  intros Hf. unfold update_col.
  destruct (get_col name df) as [c|] eqn:E; trivial.
  destruct df as [|[n c0] df]; trivial. simpl in *.
  destruct (String.eqb n name); simpl; trivial.
  injection E as <-. apply Hf.
Qed.

(** * Facts about [clean_data] *)

Lemma all_some_mask_select (A : Type) (m : list bool) (xs : list (option A)) :
  all_some xs -> all_some (mask_select m xs).
Proof.
  unfold all_some. intros H. apply Forall_forall. intros o Hin.
  rewrite Forall_forall in H. apply H. eapply mask_select_In; eassumption.
Qed.

Lemma all_some_notna_mask (A : Type) (m1 m2 : list bool) (xs : list (option A)) :
  all_some (mask_select (zip_and m1 (zip_and (map is_some xs) m2)) xs).
Proof.
  unfold all_some.
  revert m1 m2; induction xs as [|o xs IH]; intros [|a m1] [|b m2]; simpl;
    try constructor.
  destruct a, (is_some o) eqn:E, b; simpl; try apply IH.
  constructor; [exact E|apply IH].
Qed.

Lemma all_some_notna_mask_head (A : Type) (m2 : list bool) (xs : list (option A)) :
  all_some (mask_select (zip_and (map is_some xs) m2) xs).
Proof.
  unfold all_some.
  revert m2; induction xs as [|o xs IH]; intros [|b m2]; simpl; try constructor.
  destruct (is_some o) eqn:E, b; simpl; try apply IH.
  constructor; [exact E|apply IH].
Qed.

Lemma all_some_map_is_some (A : Type) (xs : list (option A)) :
  all_some xs -> map is_some xs = repeat true (length xs).
Proof.
  induction 1 as [|o xs H _ IH]; simpl; trivial. now rewrite H, IH.
Qed.

Lemma zip_and_true (n : nat) : zip_and (repeat true n) (repeat true n) = repeat true n.
Proof. induction n; simpl; congruence. Qed.

Lemma zip_and_true_r (n : nat) (m : list bool) :
  (length m <= n)%nat -> zip_and m (repeat true n) = m.
Proof.
  revert m; induction n as [|n IH]; intros [|b m]; simpl; trivial; [lia|].
  intros H. rewrite andb_true_r, IH; trivial. lia.
Qed.

Lemma dropna_date_sales (df : DataFrame) (d s : column) :
  get_col "OrderDate" df = Some d ->
  get_col "TotalSales" df = Some s ->
  dropna ["OrderDate"; "TotalSales"] df
  = Ok (select_rows (zip_and (notna d) (zip_and (notna s) (repeat true (nrows df)))) df).
Proof. intros Hd Hs. unfold dropna. simpl. now rewrite Hd, Hs. Qed.

Lemma dropna_missing (df : DataFrame) :
  get_col "OrderDate" df = None \/ get_col "TotalSales" df = None ->
  exists missing, dropna ["OrderDate"; "TotalSales"] df = Raise (KeyError missing).
Proof.
  intros H. unfold dropna. simpl.
  destruct (get_col "OrderDate" df), (get_col "TotalSales" df);
    try (eexists; reflexivity).
  destruct H; discriminate.
Qed.

Lemma coerced_select_rows (m : list bool) (df : DataFrame) :
  coerced (select_rows m df) = coerced df.
Proof.
  unfold coerced, dtype_ok. rewrite !get_col_select_rows.
  destruct (get_col "OrderDate" df) as [[]|], (get_col "TotalSales" df) as [[]|],
    (get_col "Quantity" df) as [[]|]; reflexivity.
Qed.

Section CleanFacts.

Variable parse_datetime : list (option string) -> string -> option Z.
Variable parse_number : string -> option Z.

Lemma col_length_to_datetime (c : column) :
  col_length (to_datetime parse_datetime c) = col_length c.
Proof. destruct c; unfold col_length; simpl; now rewrite !length_map. Qed.

Lemma col_length_numeric_of (c : column) :
  col_length (numeric_of parse_number c) = col_length c.
Proof. destruct c; unfold col_length, numeric_of; simpl; now rewrite !length_map. Qed.

Lemma to_datetime_shape (c : column) :
  exists ds, to_datetime parse_datetime c = DatetimeCol ds.
Proof. destruct c; simpl; eexists; reflexivity. Qed.

Lemma numeric_of_shape (c : column) :
  exists xs, numeric_of parse_number c = NumberCol xs.
Proof. destruct c; unfold numeric_of; simpl; eexists; reflexivity. Qed.

Lemma ensure_numeric_update (df : DataFrame) (col : string) :
  ensure_numeric parse_number df col = update_col col (numeric_of parse_number) df.
Proof.
  unfold ensure_numeric, update_col, numeric_of.
  destruct (get_col col df) as [c|] eqn:E; trivial.
  destruct (is_object c).
  - rewrite get_col_set_col_eq, E, set_col_set_col. reflexivity.
  - rewrite E. reflexivity.
Qed.

Lemma coerce_columns_update (df : DataFrame) :
  coerce_columns parse_datetime parse_number df
  = update_col "Quantity" (numeric_of parse_number)
      (update_col "TotalSales" (numeric_of parse_number)
         (update_col "OrderDate" (to_datetime parse_datetime) df)).
Proof.
  unfold coerce_columns, numeric_cols, convert_order_date. simpl.
  rewrite !ensure_numeric_update. reflexivity.
Qed.

Lemma coerce_columns_cols (df : DataFrame) :
  let D := coerce_columns parse_datetime parse_number df in
  get_col "OrderDate" D = option_map (to_datetime parse_datetime) (get_col "OrderDate" df)
  /\ get_col "TotalSales" D = option_map (numeric_of parse_number) (get_col "TotalSales" df)
  /\ get_col "Quantity" D = option_map (numeric_of parse_number) (get_col "Quantity" df).
Proof.
  simpl. rewrite coerce_columns_update. repeat split.
  - rewrite !get_col_update_col_neq by discriminate. apply get_col_update_col_eq.
  - rewrite get_col_update_col_neq by discriminate.
    rewrite get_col_update_col_eq. now rewrite get_col_update_col_neq by discriminate.
  - rewrite get_col_update_col_eq.
    now rewrite !get_col_update_col_neq by discriminate.
Qed.

Lemma wf_coerce_columns (df : DataFrame) :
  wf df -> wf (coerce_columns parse_datetime parse_number df).
Proof.
  intros H. rewrite coerce_columns_update.
  repeat apply wf_update_col;
    auto using col_length_to_datetime, col_length_numeric_of.
Qed.

Lemma nrows_coerce_columns (df : DataFrame) :
  nrows (coerce_columns parse_datetime parse_number df) = nrows df.
Proof.
  rewrite coerce_columns_update.
  rewrite !nrows_update_col;
    auto using col_length_to_datetime, col_length_numeric_of.
Qed.

Lemma coerce_columns_id (df : DataFrame) :
  coerced df = true -> coerce_columns parse_datetime parse_number df = df.
Proof.
  unfold coerced, dtype_ok. intros H.
  apply andb_prop in H; destruct H as [H Hq].
  apply andb_prop in H; destruct H as [Hd Hs].
  rewrite coerce_columns_update.
  rewrite (update_col_id "OrderDate").
  2: { intros c E. rewrite E in Hd. destruct c; try discriminate. reflexivity. }
  rewrite (update_col_id "TotalSales").
  2: { intros c E. rewrite E in Hs. destruct c; try discriminate. reflexivity. }
  apply update_col_id.
  intros c E. rewrite E in Hq. destruct c; try discriminate. reflexivity.
Qed.

(** The shape of a successful run: both columns exist, and the result is
    the coerced, de-duplicated frame without the rows that miss a date or a
    sales amount. *)
Lemma clean_data_inv (df out : DataFrame) :
  clean_data parse_datetime parse_number df = Ok out ->
  let D := coerce_columns parse_datetime parse_number (drop_duplicates df) in
  exists ds xs,
    get_col "OrderDate" D = Some (DatetimeCol ds)
    /\ get_col "TotalSales" D = Some (NumberCol xs)
    /\ out = select_rows
               (zip_and (map is_some ds) (zip_and (map is_some xs) (repeat true (nrows D)))) D.
Proof.
  unfold clean_data. simpl.
  set (D := coerce_columns parse_datetime parse_number (drop_duplicates df)).
  destruct (coerce_columns_cols (drop_duplicates df)) as (Hd & Hs & _).
  fold D in Hd, Hs. intros H.
  destruct (get_col "OrderDate" D) as [d|] eqn:Ed.
  2: { destruct (dropna_missing D) as [k Hk]; [now left|]. congruence. }
  destruct (get_col "TotalSales" D) as [s|] eqn:Es.
  2: { destruct (dropna_missing D) as [k Hk]; [now right|]. congruence. }
  rewrite (dropna_date_sales D _ _ Ed Es) in H. injection H as <-.
  destruct (get_col "OrderDate" (drop_duplicates df)) as [d0|]; [|discriminate].
  destruct (get_col "TotalSales" (drop_duplicates df)) as [s0|]; [|discriminate].
  simpl in Hd, Hs. injection Hd as ->. injection Hs as ->.
  destruct (to_datetime_shape d0) as [ds Eds].
  destruct (numeric_of_shape s0) as [xs Exs].
  exists ds, xs. rewrite Eds, Exs. auto.
Qed.

Lemma clean_data_ok (df : DataFrame) :
  has_col "OrderDate" df = true -> has_col "TotalSales" df = true ->
  exists out, clean_data parse_datetime parse_number df = Ok out.
Proof.
  unfold has_col. intros Hd Hs. unfold clean_data. simpl.
  set (D := coerce_columns parse_datetime parse_number (drop_duplicates df)).
  destruct (coerce_columns_cols (drop_duplicates df)) as (Ed & Es & _).
  fold D in Ed, Es. unfold drop_duplicates in Ed, Es.
  rewrite get_col_select_rows in Ed, Es.
  destruct (get_col "OrderDate" df) as [d|]; [|discriminate].
  destruct (get_col "TotalSales" df) as [s|]; [|discriminate].
  simpl in Ed, Es. rewrite (dropna_date_sales D _ _ Ed Es). eexists; reflexivity.
Qed.

Lemma clean_data_raises (df : DataFrame) :
  has_col "OrderDate" df = false \/ has_col "TotalSales" df = false ->
  exists missing, clean_data parse_datetime parse_number df = Raise (KeyError missing).
Proof.
  unfold has_col. intros H. unfold clean_data. simpl.
  set (D := coerce_columns parse_datetime parse_number (drop_duplicates df)).
  destruct (coerce_columns_cols (drop_duplicates df)) as (Ed & Es & _).
  fold D in Ed, Es. unfold drop_duplicates in Ed, Es.
  rewrite get_col_select_rows in Ed, Es.
  apply dropna_missing.
  destruct (get_col "OrderDate" df) as [d|]; [|now left].
  destruct (get_col "TotalSales" df) as [s|]; [|now right].
  destruct H; discriminate.
Qed.

(** The columns of a cleaned frame: a [datetime64] date column and a
    numeric sales column without missing values, a numeric quantity. *)
Lemma clean_data_typed (df out : DataFrame) :
  clean_data parse_datetime parse_number df = Ok out ->
  exists ds xs,
    get_col "OrderDate" out = Some (DatetimeCol ds) /\ all_some ds
    /\ get_col "TotalSales" out = Some (NumberCol xs) /\ all_some xs
    /\ coerced out = true.
Proof.
  intros H. destruct (clean_data_inv _ _ H) as (ds & xs & Hd & Hs & ->).
  set (D := coerce_columns parse_datetime parse_number (drop_duplicates df)) in *.
  set (m := zip_and (map is_some ds) (zip_and (map is_some xs) (repeat true (nrows D)))).
  exists (mask_select m ds), (mask_select m xs).
  rewrite !get_col_select_rows, Hd, Hs. simpl.
  split; [reflexivity|]. split; [apply all_some_notna_mask_head|].
  split; [reflexivity|]. split; [apply all_some_notna_mask|].
  rewrite coerced_select_rows. unfold coerced, dtype_ok. rewrite Hd, Hs. simpl.
  destruct (coerce_columns_cols (drop_duplicates df)) as (_ & _ & Hq).
  fold D in Hq. rewrite Hq.
  destruct (get_col "Quantity" (drop_duplicates df)) as [q|]; trivial.
  simpl. destruct (numeric_of_shape q) as [qs ->]. reflexivity.
Qed.

Lemma clean_data_wf (df out : DataFrame) :
  wf df -> clean_data parse_datetime parse_number df = Ok out -> wf out.
Proof.
  intros Hwf H. destruct (clean_data_inv _ _ H) as (ds & xs & _ & _ & ->).
  apply wf_select_rows, wf_coerce_columns, wf_select_rows, Hwf.
Qed.

(** On a frame that is already coerced, [clean_data] removes the repeated
    rows and then the rows without a date or a sales amount. *)
Lemma clean_data_coerced (df : DataFrame) :
  coerced df = true ->
  clean_data parse_datetime parse_number df
  = dropna ["OrderDate"; "TotalSales"] (drop_duplicates df).
Proof.
  intros H. unfold clean_data. simpl.
  rewrite coerce_columns_id; trivial.
  unfold drop_duplicates. now rewrite coerced_select_rows.
Qed.

(** A cleaned frame is a fixed point of everything but the removal of
    repeated rows. *)
Lemma clean_data_cleaned (df : DataFrame) (ds xs : list (option Z)) :
  wf df ->
  get_col "OrderDate" df = Some (DatetimeCol ds) -> all_some ds ->
  get_col "TotalSales" df = Some (NumberCol xs) -> all_some xs ->
  coerced df = true ->
  clean_data parse_datetime parse_number df = Ok (drop_duplicates df).
Proof.
  intros Hwf Hd Hds Hs Hxs Hc.
  rewrite clean_data_coerced by assumption.
  set (D := drop_duplicates df).
  assert (HwfD : wf D) by (apply wf_select_rows, Hwf).
  set (m := map negb (duplicated df)).
  assert (Ed : get_col "OrderDate" D = Some (DatetimeCol (mask_select m ds))).
  { unfold D, drop_duplicates. now rewrite get_col_select_rows, Hd. }
  assert (Es : get_col "TotalSales" D = Some (NumberCol (mask_select m xs))).
  { unfold D, drop_duplicates. now rewrite get_col_select_rows, Hs. }
  rewrite (dropna_date_sales D _ _ Ed Es). f_equal. simpl.
  pose proof (get_col_Forall (fun c => col_length c = nrows D) _ _ _ HwfD Ed) as Ld.
  pose proof (get_col_Forall (fun c => col_length c = nrows D) _ _ _ HwfD Es) as Ls.
  unfold col_length in Ld, Ls. simpl in Ld, Ls. rewrite length_map in Ld, Ls.
  rewrite !all_some_map_is_some by (apply all_some_mask_select; assumption).
  rewrite Ld, Ls, !zip_and_true.
  apply select_rows_all_true.
  eapply Forall_impl; [|exact HwfD]. simpl. intros a Ha. rewrite Ha. lia.
Qed.

End CleanFacts.

(** * The claims about [clean_data] *)

(** C2 (the code departs from the claim).  [clean_data] is not total: step 4
    names the columns OrderDate and TotalSales without the guard that steps
    2 and 3 have, so a frame that lacks one of them raises KeyError.  The
    first part evaluates the code on a frame without the date column; the
    second says that, whatever the parsers do, [clean_data] returns exactly
    on the frames that have both columns. *)
Theorem clean_data_returns_iff_required_columns :
  clean_data_example frame_without_date = Raise (KeyError ["OrderDate"])
  /\ forall parse_datetime parse_number df,
       (exists out, clean_data parse_datetime parse_number df = Ok out)
       <-> (has_col "OrderDate" df = true /\ has_col "TotalSales" df = true).
Proof.
  split; [reflexivity|].
  intros pd pn df. split.
  - intros [out H].
    destruct (has_col "OrderDate" df) eqn:Ed.
    + destruct (has_col "TotalSales" df) eqn:Es; [auto|].
      destruct (clean_data_raises pd pn df) as [k Hk]; [now right|congruence].
    + destruct (clean_data_raises pd pn df) as [k Hk]; [now left|congruence].
  - intros [Hd Hs]. now apply clean_data_ok.
Qed.

(** C3, as stated, fails: two rows that differ only in the spelling of the
    quantity ("$1" and "1") are both kept, and are identical in the output. *)
Lemma clean_data_keeps_rows_made_equal_by_coercion :
  exists out r,
    clean_data_example frame_currency_twins = Ok out /\ rows out = [r; r].
Proof.
  exists frame_currency_twins_cleaned. eexists. split; reflexivity.
Qed.

(** C3, amended.  Every row of a cleaned frame has a date of type
    [datetime64] and a numeric sales amount, neither missing.  Repeated rows
    are removed before the coercions only: the de-duplicated input has no two
    identical rows, and neither has the output when the input was already
    coerced (the coercions then change no value). *)
Theorem clean_data_output_guarantee
  (parse_datetime : list (option string) -> string -> option Z)
  (parse_number : string -> option Z) (df out : DataFrame) :
  clean_data parse_datetime parse_number df = Ok out ->
  (exists ds xs,
      get_col "OrderDate" out = Some (DatetimeCol ds) /\ all_some ds
      /\ get_col "TotalSales" out = Some (NumberCol xs) /\ all_some xs)
  /\ NoDup (rows (drop_duplicates df))
  /\ (coerced df = true -> NoDup (rows out)).
Proof.
  intros H. split; [|split].
  - destruct (clean_data_typed _ _ _ _ H) as (ds & xs & Hd & Hds & Hs & Hxs & _).
    exists ds, xs. auto.
  - apply drop_duplicates_NoDup.
  - intros Hc. rewrite (clean_data_coerced _ _ _ Hc) in H.
    unfold dropna in H.
    destruct (subset_cols ["OrderDate"; "TotalSales"] (drop_duplicates df))
      as [[|k missing] cs]; [|discriminate].
    injection H as <-. rewrite rows_select_rows.
    apply mask_select_NoDup, drop_duplicates_NoDup.
Qed.

Lemma clean_data_output_guarantee_witness :
  clean_data_example frame_raw_csv = Ok frame_raw_csv_cleaned
  /\ (exists ds xs,
         get_col "OrderDate" frame_raw_csv_cleaned = Some (DatetimeCol ds) /\ all_some ds
         /\ get_col "TotalSales" frame_raw_csv_cleaned = Some (NumberCol xs) /\ all_some xs)
  /\ NoDup (rows (drop_duplicates frame_raw_csv))
  /\ (coerced frame_raw_csv = true -> NoDup (rows frame_raw_csv_cleaned)).
Proof.
  split; [reflexivity|].
  apply (clean_data_output_guarantee iso_date integer_literal frame_raw_csv).
  reflexivity.
Defined.

(** C4, as stated, fails: cleaning the frame of the two quantity spellings
    leaves two identical rows, and cleaning again removes one of them. *)
Lemma clean_data_not_idempotent :
  (out <- clean_data_example frame_currency_twins ;; clean_data_example out)
  <> clean_data_example frame_currency_twins.
Proof. discriminate. Qed.

(** C4, amended.  Cleaning a cleaned frame only removes the rows that the
    coercions of the first pass made identical:
    [clean(clean(T)) = drop_duplicates(clean(T))]; so [clean] is idempotent
    on every table whose cleaned frame has no two identical rows. *)
Theorem clean_data_twice
  (parse_datetime : list (option string) -> string -> option Z)
  (parse_number : string -> option Z) (df out : DataFrame) :
  wf df ->
  clean_data parse_datetime parse_number df = Ok out ->
  clean_data parse_datetime parse_number out = Ok (drop_duplicates out)
  /\ (NoDup (rows out) -> clean_data parse_datetime parse_number out = Ok out).
Proof.
  intros Hwf H.
  destruct (clean_data_typed _ _ _ _ H) as (ds & xs & Hd & Hds & Hs & Hxs & Hc).
  pose proof (clean_data_wf _ _ _ _ Hwf H) as Hwf'.
  assert (E : clean_data parse_datetime parse_number out = Ok (drop_duplicates out))
    by (eapply clean_data_cleaned; eassumption).
  split; [exact E|].
  intros Hnd. rewrite E. now rewrite drop_duplicates_id.
Qed.

Lemma clean_data_twice_witness :
  wf frame_raw_csv
  /\ clean_data_example frame_raw_csv = Ok frame_raw_csv_cleaned
  /\ clean_data_example frame_raw_csv_cleaned = Ok (drop_duplicates frame_raw_csv_cleaned)
  /\ (NoDup (rows frame_raw_csv_cleaned) ->
      clean_data_example frame_raw_csv_cleaned = Ok frame_raw_csv_cleaned).
Proof.
  assert (Hwf : wf frame_raw_csv) by (repeat constructor).
  split; [exact Hwf|]. split; [reflexivity|].
  apply (clean_data_twice iso_date integer_literal frame_raw_csv frame_raw_csv_cleaned Hwf).
  reflexivity.
Defined.

Lemma duplicated_from_nth (seen rs : list (list cell)) (i : nat) :
  nth i (duplicated_from seen rs) false = true
  <-> (i < length rs)%nat
      /\ (In (nth i rs []) seen
          \/ exists j, (j < i)%nat /\ nth j rs [] = nth i rs []).
Proof.
  revert seen i; induction rs as [|r rs IH]; intros seen i.
  - simpl. destruct i; split; [discriminate|intros [H _]; lia
                              |discriminate|intros [H _]; lia].
  - destruct i as [|i]; cbn [duplicated_from nth length].
    + destruct (in_dec row_eq_dec r seen) as [Hin|Hin]; split.
      * intros _. split; [lia|now left].
      * reflexivity.
      * discriminate.
      * intros [_ [H|(j & Hj & _)]]; [contradiction|lia].
    + rewrite IH. split.
      * intros [Hi [[E|H]|(j & Hj & E)]].
        -- split; [lia|]. right. exists 0%nat. split; [lia|exact E].
        -- split; [lia|]. now left.
        -- split; [lia|]. right. exists (S j). split; [lia|exact E].
      * intros [Hi [H|(j & Hj & E)]].
        -- split; [lia|]. left. now right.
        -- split; [lia|]. destruct j as [|j].
           ++ left. left. exact E.
           ++ right. exists j. split; [lia|exact E].
Qed.

(** C10, as stated, fails: in the frame of the raw CSV lines three rows
    (0, 1 and 3) have a readable date and sales amount, but the output has
    two rows; row 3 repeats row 0 exactly and is removed by step 1. *)
Lemma clean_data_drops_a_repeated_row :
  clean_data_example frame_raw_csv = Ok frame_raw_csv_cleaned
  /\ nrows frame_raw_csv = 5%nat
  /\ nrows frame_raw_csv_cleaned = 2%nat
  /\ nth 3 (rows frame_raw_csv) [] = nth 0 (rows frame_raw_csv) []
  /\ get_col "OrderDate" (coerce_columns iso_date integer_literal frame_raw_csv)
     = Some (DatetimeCol [Some jan_1_2023; Some (jan_1_2023 + one_day); None;
                          Some jan_1_2023; None])
  /\ get_col "TotalSales" (coerce_columns iso_date integer_literal frame_raw_csv)
     = Some (NumberCol [Some 1234; Some 60; Some 45; Some 1234; Some 150]).
Proof. repeat split; reflexivity. Qed.

(** C10, amended.  On a frame with the date and the sales column,
    [clean_data] returns, and it drops a row only for one of two reasons.
    Step 1 removes exactly the rows that repeat an earlier row (so no row
    value is lost).  Of the rows of the coerced, de-duplicated frame [D],
    which has a row for each row left by step 1, step 4 keeps exactly those
    whose date and sales amount are present, whatever their quantity.  A
    quantity that was text is replaced by what the number parser makes of
    it, a missing value when the coercion fails, and the row stays. *)
Theorem clean_data_drops_only_duplicates_or_missing
  (parse_datetime : list (option string) -> string -> option Z)
  (parse_number : string -> option Z) (df : DataFrame) :
  wf df ->
  has_col "OrderDate" df = true ->
  has_col "TotalSales" df = true ->
  let D := coerce_columns parse_datetime parse_number (drop_duplicates df) in
  exists out ds xs,
    clean_data parse_datetime parse_number df = Ok out
    /\ (forall i,
           nth i (duplicated df) false = true
           <-> (i < nrows df)%nat
               /\ exists j, (j < i)%nat /\ nth j (rows df) [] = nth i (rows df) [])
    /\ rows (drop_duplicates df) = mask_select (map negb (duplicated df)) (rows df)
    /\ (forall r, In r (rows df) -> In r (rows (drop_duplicates df)))
    /\ nrows D = nrows (drop_duplicates df)
    /\ get_col "OrderDate" D = Some (DatetimeCol ds)
    /\ get_col "TotalSales" D = Some (NumberCol xs)
    /\ rows out = mask_select (zip_and (map is_some ds) (map is_some xs)) (rows D)
    /\ (forall qs,
          get_col "Quantity" (drop_duplicates df) = Some (ObjectCol qs) ->
          get_col "Quantity" D
          = Some (NumberCol
                    (map (fun o => parse_number
                                     (strip_currency
                                        (match o with Some s => s | None => "nan" end)))
                         qs))).
Proof.
  intros Hwf Hd Hs D.
  destruct (clean_data_ok parse_datetime parse_number df Hd Hs) as [out H].
  destruct (clean_data_inv _ _ _ _ H) as (ds & xs & Ed & Es & ->).
  fold D in Ed, Es |- *.
  exists (select_rows
            (zip_and (map is_some ds) (zip_and (map is_some xs) (repeat true (nrows D)))) D),
    ds, xs.
  split; [exact H|].
  assert (HwfD : wf D) by (apply wf_coerce_columns, wf_select_rows, Hwf).
  split; [|split; [|split; [|split; [|split; [|split; [|split]]]]]].
  - intros i. unfold duplicated. rewrite duplicated_from_nth.
    rewrite (wf_rows_length df Hwf). cbn [In]. tauto.
  - apply rows_drop_duplicates.
  - apply drop_duplicates_keeps_values.
  - apply nrows_coerce_columns.
  - exact Ed.
  - exact Es.
  - rewrite rows_select_rows. f_equal. f_equal.
    apply zip_and_true_r.
    pose proof (get_col_Forall (fun c => col_length c = nrows D) _ _ _ HwfD Es) as Ls.
    unfold col_length in Ls. simpl in Ls. rewrite length_map in *. lia.
  - intros qs Hq.
    destruct (coerce_columns_cols parse_datetime parse_number (drop_duplicates df))
      as (_ & _ & Eq).
    fold D in Eq. rewrite Eq, Hq. simpl. unfold numeric_of. simpl.
    rewrite !map_map. reflexivity.
Qed.

Lemma clean_data_drops_only_duplicates_or_missing_witness :
  wf frame_raw_csv
  /\ has_col "OrderDate" frame_raw_csv = true
  /\ has_col "TotalSales" frame_raw_csv = true
  /\ let D := coerce_columns iso_date integer_literal (drop_duplicates frame_raw_csv) in
     exists out ds xs,
       clean_data iso_date integer_literal frame_raw_csv = Ok out
       /\ (forall i,
              nth i (duplicated frame_raw_csv) false = true
              <-> (i < nrows frame_raw_csv)%nat
                  /\ exists j, (j < i)%nat
                               /\ nth j (rows frame_raw_csv) []
                                  = nth i (rows frame_raw_csv) [])
       /\ rows (drop_duplicates frame_raw_csv)
          = mask_select (map negb (duplicated frame_raw_csv)) (rows frame_raw_csv)
       /\ (forall r, In r (rows frame_raw_csv) -> In r (rows (drop_duplicates frame_raw_csv)))
       /\ nrows D = nrows (drop_duplicates frame_raw_csv)
       /\ get_col "OrderDate" D = Some (DatetimeCol ds)
       /\ get_col "TotalSales" D = Some (NumberCol xs)
       /\ rows out = mask_select (zip_and (map is_some ds) (map is_some xs)) (rows D)
       /\ (forall qs,
             get_col "Quantity" (drop_duplicates frame_raw_csv) = Some (ObjectCol qs) ->
             get_col "Quantity" D
             = Some (NumberCol
                       (map (fun o => integer_literal
                                        (strip_currency
                                           (match o with Some s => s | None => "nan" end)))
                            qs))).
Proof.
  assert (Hwf : wf frame_raw_csv) by (repeat constructor).
  split; [exact Hwf|]. split; [reflexivity|]. split; [reflexivity|].
  apply (clean_data_drops_only_duplicates_or_missing iso_date integer_literal
           frame_raw_csv Hwf); reflexivity.
Defined.

(** The frame of the raw CSV lines, cleaned: the line with the unreadable
    quantity stays, with a missing quantity; the lines without a readable
    date and the repeated line are gone. *)
Example clean_data_raw_csv :
  clean_data_example frame_raw_csv = Ok frame_raw_csv_cleaned.
Proof. reflexivity. Qed.

(** * Facts about sorting and counting *)

Lemma insert_sorted_perm (A : Type) (leb : A -> A -> bool) (x : A) (l : list A) :
  Permutation (insert_sorted leb x l) (x :: l).
Proof.
  induction l as [|y l IH]; simpl; [reflexivity|].
  destruct (leb x y); [reflexivity|].
  rewrite IH. apply perm_swap.
Qed.

Lemma sort_by_perm (A : Type) (leb : A -> A -> bool) (l : list A) :
  Permutation (sort_by leb l) l.
Proof.
  induction l as [|x l IH]; simpl; [reflexivity|].
  rewrite insert_sorted_perm. now constructor.
Qed.

Lemma sort_by_In (A : Type) (leb : A -> A -> bool) (l : list A) (x : A) :
  In x (sort_by leb l) <-> In x l.
Proof.
  split; apply Permutation_in; [|symmetry]; apply sort_by_perm.
Qed.

Lemma sort_by_length (A : Type) (leb : A -> A -> bool) (l : list A) :
  length (sort_by leb l) = length l.
Proof. apply Permutation_length, sort_by_perm. Qed.

Lemma insert_sorted_Z (x : Z) (l : list Z) :
  StronglySorted Z.le l -> StronglySorted Z.le (insert_sorted Z.leb x l).
Proof.
  induction 1 as [|y l Hl IH Hy]; simpl.
  - repeat constructor.
  - destruct (Z.leb_spec x y) as [Hxy|Hxy].
    + constructor; [now constructor|].
      constructor; [exact Hxy|].
      eapply Forall_impl; [|exact Hy]. simpl. intros; lia.
    + constructor; [exact IH|].
      eapply Permutation_Forall; [symmetry; apply insert_sorted_perm|].
      constructor; [lia|exact Hy].
Qed.

Lemma sort_by_Z_sorted (l : list Z) : StronglySorted Z.le (sort_by Z.leb l).
Proof.
  induction l as [|x l IH]; simpl; [constructor|now apply insert_sorted_Z].
Qed.

Lemma sorted_nth_le (a : list Z) (i j : nat) :
  StronglySorted Z.le a -> (i <= j < length a)%nat -> nth i a 0 <= nth j a 0.
Proof.
  intros Hs. revert i j. induction Hs as [|y a Ha IH Hy]; intros i j Hij; simpl in *.
  - lia.
  - destruct i as [|i], j as [|j]; try lia.
    + rewrite Forall_forall in Hy. apply Hy, nth_In. lia.
    + apply IH. lia.
Qed.

Lemma count_lt_cons (x y : Z) (l : list Z) :
  count_lt x (y :: l) = ((if (y <? x)%Z then 1 else 0) + count_lt x l)%nat.
Proof. unfold count_lt. simpl. now destruct (y <? x). Qed.

Lemma count_lt_perm (x : Z) (l l' : list Z) :
  Permutation l l' -> count_lt x l = count_lt x l'.
Proof.
  induction 1; rewrite ?count_lt_cons; lia.
Qed.

Lemma count_lt_none (x : Z) (l : list Z) :
  Forall (fun z => x <= z) l -> count_lt x l = 0%nat.
Proof.
  induction 1 as [|z l Hz _ IH]; [reflexivity|].
  rewrite count_lt_cons, IH. destruct (Z.ltb_spec z x); lia.
Qed.

Lemma count_lt_le_length (x : Z) (l : list Z) : (count_lt x l <= length l)%nat.
Proof. apply filter_length_le. Qed.

Lemma count_lt_mono (x y : Z) (l : list Z) :
  x <= y -> (count_lt x l <= count_lt y l)%nat.
Proof.
  intros Hxy. induction l as [|z l IH]; [reflexivity|].
  rewrite !count_lt_cons.
  destruct (Z.ltb_spec z x), (Z.ltb_spec z y); lia.
Qed.

(** In a sorted list the values below [x] are the first [count_lt x a]. *)
Lemma sorted_nth_lt_count (a : list Z) (x : Z) (j : nat) :
  StronglySorted Z.le a -> (j < length a)%nat ->
  (nth j a 0 < x <-> (j < count_lt x a)%nat).
Proof.
  intros Hs. revert j. induction Hs as [|y a Ha IH Hy]; intros j Hj; simpl in Hj.
  - lia.
  - rewrite count_lt_cons. destruct (Z.ltb_spec y x) as [Hyx|Hyx].
    + destruct j as [|j]; simpl; [lia|].
      rewrite IH by lia. lia.
    + assert (Hall : Forall (fun z => x <= z) a).
      { eapply Forall_impl; [|exact Hy]. simpl. intros; lia. }
      rewrite (count_lt_none _ _ Hall).
      destruct j as [|j]; simpl; [lia|].
      rewrite Forall_forall in Hall.
      assert (x <= nth j a 0) by (apply Hall, nth_In; lia). lia.
Qed.

Lemma count_lt_update_nth (xs : list Z) (i : nat) (v : Z) :
  nth i xs 0 <= v -> (i < length xs)%nat ->
  (count_lt (nth i xs 0%Z) xs <= count_lt v (update_nth i (fun _ => v) xs))%nat.
Proof.
  revert i; induction xs as [|y xs IH]; intros i Hv Hi; simpl in Hi; [lia|].
  destruct i as [|i]; simpl in *.
  - rewrite !count_lt_cons. rewrite !Z.ltb_irrefl.
    pose proof (count_lt_mono y v xs Hv). lia.
  - rewrite !count_lt_cons. specialize (IH i Hv ltac:(lia)).
    destruct (Z.ltb_spec y (nth i xs 0)), (Z.ltb_spec y v); lia.
Qed.

Lemma update_nth_length (A : Type) (i : nat) (f : A -> A) (l : list A) :
  length (update_nth i f l) = length l.
Proof.
  revert i; induction l as [|x l IH]; intros [|i]; simpl; auto.
Qed.

Lemma nth_update_nth (A : Type) (i : nat) (f : A -> A) (l : list A) (d : A) :
  (i < length l)%nat -> nth i (update_nth i f l) d = f (nth i l d).
Proof.
  revert i; induction l as [|x l IH]; intros [|i] H; simpl in *; try lia; trivial.
  apply IH. lia.
Qed.

Lemma map_update_nth (A B : Type) (g : A -> B) (f : A -> A) (f' : B -> B)
  (i : nat) (l : list A) :
  (forall x, g (f x) = f' (g x)) ->
  map g (update_nth i f l) = update_nth i f' (map g l).
Proof.
  intros H. revert i; induction l as [|x l IH]; intros [|i]; simpl; trivial.
  - now rewrite H.
  - now rewrite IH.
Qed.

Lemma update_nth_id (A : Type) (i : nat) (l : list A) :
  update_nth i (fun x => x) l = l.
Proof.
  revert i; induction l as [|x l IH]; intros [|i]; simpl; trivial. now rewrite IH.
Qed.

(** * Facts about quartile binning *)

Lemma nodup_length_cases (l : list Z) :
  NoDup l \/ (length (nodup Z.eq_dec l) < length l)%nat.
Proof.
  induction l as [|x l IH]; [left; constructor|].
  simpl. destruct (in_dec Z.eq_dec x l) as [Hin|Hin].
  - right.
    assert (length (nodup Z.eq_dec l) <= length l)%nat.
    { apply NoDup_incl_length; [apply NoDup_nodup|].
      intros y Hy. now apply nodup_In in Hy. }
    lia.
  - destruct IH as [IH|IH]; [left; now constructor|right; simpl; lia].
Qed.

Lemma qcut_inv (xs : list Z) (labels r : list string) :
  qcut xs labels = Ok r ->
  NoDup (quartile_edges xs)
  /\ r = map (fun x => bin_label (quartile_edges xs) labels
                         (bin_id (quartile_edges xs) x)) xs.
Proof.
  unfold qcut.
  destruct (Nat.ltb_spec (length (nodup Z.eq_dec (quartile_edges xs)))
              (length (quartile_edges xs))) as [H|H]; [discriminate|].
  intros E; injection E as <-. split; [|reflexivity].
  destruct (nodup_length_cases (quartile_edges xs)); [assumption|lia].
Qed.

Lemma qcut_raises (xs : list Z) (labels : list string) :
  ~ NoDup (quartile_edges xs) ->
  qcut xs labels = Raise (ValueError "Bin edges must be unique").
Proof.
  intros H. unfold qcut.
  destruct (Nat.ltb_spec (length (nodup Z.eq_dec (quartile_edges xs)))
              (length (quartile_edges xs))) as [_|Hle]; [reflexivity|].
  exfalso. apply H.
  destruct (nodup_length_cases (quartile_edges xs)); [assumption|lia].
Qed.

Lemma qcut_length (xs : list Z) (labels r : list string) :
  qcut xs labels = Ok r -> length r = length xs.
Proof.
  intros H. apply qcut_inv in H. destruct H as [_ ->]. apply length_map.
Qed.

Lemma quantile_index_bounds (n : nat) (k : Z) :
  (1 <= n)%nat -> 0 <= k <= 4 ->
  let pos := k * (Z.of_nat n - 1) in
  (quantile_index n k <= n - 1)%nat
  /\ 0 <= pos mod 4 <= 3
  /\ (0 < pos mod 4 -> (S (quantile_index n k) <= n - 1)%nat).
Proof.
  intros Hn Hk pos. unfold quantile_index. fold pos.
  assert (Hpos : 0 <= pos <= 4 * (Z.of_nat n - 1)) by (unfold pos; nia).
  pose proof (Z.div_mod pos 4 ltac:(lia)) as Hdm.
  pose proof (Z.mod_pos_bound pos 4 ltac:(lia)) as Hm.
  assert (0 <= pos / 4) by (apply Z.div_pos; lia).
  repeat split; lia.
Qed.

Section Quantile.

Variable xs : list Z.

Let n : nat := length xs.
Let a : list Z := sort_by Z.leb xs.

Lemma sorted_values_length : length a = n.
Proof. apply sort_by_length. Qed.

Lemma sorted_values_sorted : StronglySorted Z.le a.
Proof. apply sort_by_Z_sorted. Qed.

Lemma sorted_values_nth_In (j : nat) : (j < n)%nat -> In (nth j a 0) xs.
Proof.
  intros H. apply (sort_by_In _ Z.leb). apply nth_In.
  fold a. now rewrite sorted_values_length.
Qed.

Lemma sorted_values_In_nth (x : Z) :
  In x xs -> exists i, (i < n)%nat /\ nth i a 0 = x.
Proof.
  intros H. apply (sort_by_In _ Z.leb) in H.
  destruct (In_nth _ _ 0 H) as (i & Hi & E).
  fold a in Hi, E. exists i. split; [now rewrite <- sorted_values_length|exact E].
Qed.

Lemma count_lt_sorted_values (x : Z) : count_lt x a = count_lt x xs.
Proof. apply count_lt_perm, sort_by_perm. Qed.

Lemma count_lt_In (x : Z) : In x xs -> (count_lt x xs < n)%nat.
Proof.
  intros H. destruct (sorted_values_In_nth x H) as (i & Hi & E).
  pose proof (sorted_nth_lt_count a x i sorted_values_sorted
                ltac:(now rewrite sorted_values_length)) as Hc.
  rewrite count_lt_sorted_values in Hc. lia.
Qed.

Lemma quantile4_unfold (k : Z) :
  quantile4 xs k
  = 4 * nth (quantile_index n k) a 0
    + (k * (Z.of_nat n - 1)) mod 4
      * (nth (Nat.min (S (quantile_index n k)) (n - 1)) a 0
         - nth (quantile_index n k) a 0).
Proof. reflexivity. Qed.

(** An edge lies below a value of the list exactly when its position lies
    below the number of smaller values. *)
Lemma quantile4_lt_iff (x k : Z) :
  In x xs -> 0 <= k <= 4 ->
  (quantile4 xs k < 4 * x <-> (quantile_index n k < count_lt x xs)%nat).
Proof.
  intros Hin Hk.
  assert (Hn : (1 <= n)%nat).
  { unfold n. destruct xs; [contradiction|simpl; lia]. }
  destruct (quantile_index_bounds n k Hn Hk) as (Hj & Hg & Hj').
  rewrite quantile4_unfold.
  set (j := quantile_index n k) in *.
  set (g := (k * (Z.of_nat n - 1)) mod 4) in *.
  pose proof sorted_values_sorted as Hs.
  pose proof sorted_values_length as Hl.
  pose proof (sorted_nth_lt_count a x j Hs ltac:(lia)) as Hc.
  rewrite count_lt_sorted_values in Hc.
  assert (Hmono : nth j a 0 <= nth (Nat.min (S j) (n - 1)) a 0)
    by (apply sorted_nth_le; [exact Hs|lia]).
  split.
  - intros H. apply Hc. nia.
  - intros H. apply Hc in H.
    destruct (Z.eq_dec g 0) as [E|E]; [rewrite E; lia|].
    assert (Hj1 : Nat.min (S j) (n - 1) = S j) by lia. rewrite Hj1.
    assert (Hx : nth (S j) a 0 <= x).
    { destruct (sorted_values_In_nth x Hin) as (i & Hi & Ei).
      pose proof (sorted_nth_lt_count a x i Hs ltac:(lia)) as Hci.
      rewrite count_lt_sorted_values in Hci.
      assert (count_lt x xs <= i)%nat by lia.
      rewrite <- Ei. apply sorted_nth_le; [exact Hs|lia]. }
    nia.
Qed.

Lemma quantile4_first : xs <> [] -> quantile4 xs 0 = 4 * nth 0 a 0.
Proof.
  intros _. rewrite quantile4_unfold. unfold quantile_index. simpl. lia.
Qed.

Lemma quantile4_last : xs <> [] -> quantile4 xs 4 = 4 * nth (n - 1) a 0.
Proof.
  intros H. rewrite quantile4_unfold. unfold quantile_index.
  assert (Hn : (1 <= n)%nat).
  { unfold n. destruct xs; [congruence|simpl; lia]. }
  replace (4 * (Z.of_nat n - 1)) with ((Z.of_nat n - 1) * 4) by lia.
  rewrite Z.div_mul, Z.mod_mul by lia.
  replace (Z.to_nat (Z.of_nat n - 1)) with (n - 1)%nat by lia. lia.
Qed.

Lemma quantile4_le_max (v k : Z) :
  xs <> [] -> (forall y, In y xs -> y <= v) -> 0 <= k <= 4 ->
  quantile4 xs k <= 4 * v.
Proof.
  intros Hne Hmax Hk.
  assert (Hn : (1 <= n)%nat).
  { unfold n. destruct xs; [congruence|simpl; lia]. }
  destruct (quantile_index_bounds n k Hn Hk) as (Hj & Hg & _).
  rewrite quantile4_unfold.
  pose proof (Hmax _ (sorted_values_nth_In (quantile_index n k) ltac:(lia))).
  pose proof (Hmax _ (sorted_values_nth_In
                        (Nat.min (S (quantile_index n k)) (n - 1)) ltac:(lia))).
  nia.
Qed.

Lemma sorted_values_first (v : Z) :
  In v xs -> (forall y, In y xs -> v <= y) -> nth 0 a 0 = v.
Proof.
  intros Hin Hmin.
  destruct (sorted_values_In_nth v Hin) as (i & Hi & E).
  pose proof (sorted_nth_le a 0 i sorted_values_sorted
                ltac:(rewrite sorted_values_length; lia)).
  pose proof (Hmin _ (sorted_values_nth_In 0 ltac:(lia))). lia.
Qed.

Lemma sorted_values_last (v : Z) :
  In v xs -> (forall y, In y xs -> y <= v) -> nth (n - 1) a 0 = v.
Proof.
  intros Hin Hmax.
  destruct (sorted_values_In_nth v Hin) as (i & Hi & E).
  pose proof (sorted_nth_le a i (n - 1) sorted_values_sorted
                ltac:(rewrite sorted_values_length; lia)).
  pose proof (Hmax _ (sorted_values_nth_In (n - 1) ltac:(lia))). lia.
Qed.

End Quantile.

(** * Facts about bin ids and labels *)

Lemma filter_map_length (A B : Type) (f : A -> B) (p : B -> bool) (l : list A) :
  length (filter p (map f l)) = length (filter (fun x => p (f x)) l).
Proof.
  induction l as [|x l IH]; simpl; trivial.
  destruct (p (f x)); simpl; now rewrite IH.
Qed.

Lemma filter_length_mono (A : Type) (p q : A -> bool) (l : list A) :
  (forall x, In x l -> p x = true -> q x = true) ->
  (length (filter p l) <= length (filter q l))%nat.
Proof.
  induction l as [|x l IH]; intros H; simpl; [lia|].
  assert (IH' : (length (filter p l) <= length (filter q l))%nat)
    by (apply IH; intros; apply H; simpl; auto).
  destruct (p x) eqn:Ep.
  - rewrite (H x (or_introl eq_refl) Ep). simpl. lia.
  - destruct (q x); simpl; lia.
Qed.

Lemma edges_below_mono (n c c' : nat) :
  (c <= c')%nat -> (edges_below n c <= edges_below n c')%nat.
Proof.
  intros H. apply filter_length_mono. intros k _ Hk.
  apply Nat.ltb_lt in Hk. apply Nat.ltb_lt. lia.
Qed.

Lemma edges_below_zero (n : nat) : edges_below n 0 = 0%nat.
Proof. reflexivity. Qed.

Lemma quantile_index_first (n : nat) : quantile_index n 0 = 0%nat.
Proof. reflexivity. Qed.

Lemma quantile_index_last (n : nat) :
  (1 <= n)%nat -> quantile_index n 4 = (n - 1)%nat.
Proof.
  intros H. unfold quantile_index.
  replace (4 * (Z.of_nat n - 1)) with ((Z.of_nat n - 1) * 4) by lia.
  rewrite Z.div_mul by lia. lia.
Qed.

Lemma edges_below_bounds (n c : nat) :
  (1 <= n)%nat -> (1 <= c <= n - 1)%nat -> (1 <= edges_below n c <= 4)%nat.
Proof.
  intros Hn Hc. unfold edges_below.
  cbn [filter]. rewrite quantile_index_first, (quantile_index_last n Hn).
  destruct (Nat.ltb_spec 0 c); [|lia].
  destruct (Nat.ltb_spec (n - 1) c); [lia|].
  destruct (quantile_index n 1 <? c)%nat, (quantile_index n 2 <? c)%nat,
    (quantile_index n 3 <? c)%nat; simpl; lia.
Qed.

Lemma count_lt_edges (xs : list Z) (x : Z) :
  In x xs ->
  count_lt (4 * x) (quartile_edges xs) = edges_below (length xs) (count_lt x xs).
Proof.
  intros Hin. unfold quartile_edges, edges_below. unfold count_lt at 1.
  rewrite filter_map_length. f_equal. apply filter_ext_in.
  intros k Hk.
  assert (0 <= k <= 4) by (simpl in Hk; lia).
  pose proof (quantile4_lt_iff xs x k Hin ltac:(lia)) as Hiff.
  destruct (Z.ltb_spec (quantile4 xs k) (4 * x)),
    (Nat.ltb_spec (quantile_index (length xs) k) (count_lt x xs)); trivial; lia.
Qed.

(** The bin of a value of the list is decided by how many values lie
    below it. *)
Lemma bin_id_In (xs : list Z) (x : Z) :
  In x xs ->
  bin_id (quartile_edges xs) x
  = Nat.max 1 (edges_below (length xs) (count_lt x xs)).
Proof.
  intros Hin. unfold bin_id. rewrite (count_lt_edges xs x Hin).
  assert (Hne : xs <> []) by (destruct xs; [contradiction|congruence]).
  assert (Hn : (1 <= length xs)%nat) by (destruct xs; [congruence|simpl; lia]).
  change (nth 0 (quartile_edges xs) 0) with (quantile4 xs 0).
  rewrite (quantile4_first xs Hne).
  pose proof (sorted_nth_lt_count (sort_by Z.leb xs) x 0 (sort_by_Z_sorted xs)
                ltac:(rewrite sort_by_length; lia)) as Hc.
  rewrite (count_lt_perm x _ _ (sort_by_perm _ Z.leb xs)) in Hc.
  destruct (Z.eqb_spec (4 * x) (4 * nth 0 (sort_by Z.leb xs) 0)) as [E|E].
  - assert (count_lt x xs = 0%nat) by lia.
    rewrite H, edges_below_zero. reflexivity.
  - destruct (sorted_values_In_nth xs x Hin) as (i & Hi & Ei).
    pose proof (sorted_nth_le (sort_by Z.leb xs) 0 i (sort_by_Z_sorted xs)
                  ltac:(rewrite sort_by_length; lia)).
    pose proof (count_lt_In xs x Hin).
    pose proof (edges_below_bounds (length xs) (count_lt x xs) Hn ltac:(lia)).
    lia.
Qed.

Lemma bin_id_bounds (xs : list Z) (x : Z) :
  In x xs -> (1 <= bin_id (quartile_edges xs) x <= 4)%nat.
Proof.
  intros Hin. rewrite (bin_id_In xs x Hin).
  assert (Hn : (1 <= length xs)%nat) by (destruct xs; [contradiction|simpl; lia]).
  pose proof (count_lt_In xs x Hin).
  destruct (Nat.eq_dec (count_lt x xs) 0) as [E|E].
  - rewrite E, edges_below_zero. simpl. lia.
  - pose proof (edges_below_bounds (length xs) (count_lt x xs) Hn ltac:(lia)). lia.
Qed.

(** Raising one value of the list never lowers its bin. *)
Lemma bin_id_raise (xs : list Z) (i : nat) (v : Z) :
  (i < length xs)%nat -> nth i xs 0 <= v ->
  (bin_id (quartile_edges xs) (nth i xs 0%Z)
   <= bin_id (quartile_edges (update_nth i (fun _ => v) xs)) v)%nat.
Proof.
  intros Hi Hv.
  set (xs' := update_nth i (fun _ => v) xs).
  assert (Hin : In (nth i xs 0) xs) by (apply nth_In; exact Hi).
  assert (Hin' : In v xs').
  { replace v with (nth i xs' 0).
    - apply nth_In. unfold xs'. now rewrite update_nth_length.
    - unfold xs'. now rewrite nth_update_nth. }
  rewrite (bin_id_In xs _ Hin), (bin_id_In xs' _ Hin').
  unfold xs' at 1. rewrite update_nth_length.
  pose proof (count_lt_update_nth xs i v Hv Hi) as Hc. fold xs' in Hc.
  pose proof (edges_below_mono (length xs) _ _ Hc). lia.
Qed.

Lemma quartile_edges_length (xs : list Z) : length (quartile_edges xs) = 5%nat.
Proof. reflexivity. Qed.

Lemma score_value_fm_label (xs : list Z) (id : nat) :
  (1 <= id <= 4)%nat ->
  score_value (bin_label (quartile_edges xs) fm_labels id) = Z.of_nat id.
Proof.
  intros H. unfold bin_label. rewrite quartile_edges_length.
  destruct id as [|[|[|[|[|id]]]]]; try lia; reflexivity.
Qed.

(** * Facts about the per-customer table *)

Lemma fold_left_max_ge (l : list Z) (acc : Z) :
  acc <= fold_left Z.max l acc /\ forall x, In x l -> x <= fold_left Z.max l acc.
Proof.
  revert acc; induction l as [|y l IH]; intros acc; simpl.
  - split; [lia|tauto].
  - destruct (IH (Z.max acc y)) as [H1 H2]. split; [lia|].
    intros x [<-|Hx]; [lia|auto].
Qed.

Lemma fold_left_max_In (l : list Z) (acc : Z) :
  fold_left Z.max l acc = acc \/ In (fold_left Z.max l acc) l.
Proof.
  revert acc; induction l as [|y l IH]; intros acc; simpl; [now left|].
  destruct (IH (Z.max acc y)) as [H|H]; [|now right; right].
  rewrite H. destruct (Z.max_spec acc y) as [[_ ->]|[_ ->]]; auto.
Qed.

Lemma series_max_ge (xs : list Z) (x : Z) : In x xs -> x <= series_max xs.
Proof.
  destruct xs as [|y xs]; [contradiction|]. simpl.
  destruct (fold_left_max_ge xs y) as [H1 H2].
  intros [<-|H]; auto.
Qed.

Lemma series_max_In (xs : list Z) : xs <> [] -> In (series_max xs) xs.
Proof.
  destruct xs as [|y xs]; [congruence|]. intros _. simpl.
  destruct (fold_left_max_In xs y) as [->|H]; auto.
Qed.

Lemma fold_left_min_le (l : list Z) (acc : Z) :
  fold_left Z.min l acc <= acc /\ forall x, In x l -> fold_left Z.min l acc <= x.
Proof.
  revert acc; induction l as [|y l IH]; intros acc; simpl.
  - split; [lia|tauto].
  - destruct (IH (Z.min acc y)) as [H1 H2]. split; [lia|].
    intros x [<-|Hx]; [lia|auto].
Qed.

Lemma series_min_le (xs : list Z) (x : Z) : In x xs -> series_min xs <= x.
Proof.
  destruct xs as [|y xs]; [contradiction|]. simpl.
  destruct (fold_left_min_le xs y) as [H1 H2].
  intros [<-|H]; auto.
Qed.

Lemma customer_ids_In (df : list txn) (c : string) :
  In c (customer_ids df) <-> exists r, In r df /\ CustomerID r = Some c.
Proof.
  unfold customer_ids. rewrite in_flat_map. split.
  - intros (r & Hr & Hc). exists r. split; [exact Hr|].
    destruct (CustomerID r) as [c'|]; simpl in Hc; [|contradiction].
    destruct Hc as [->|[]]. reflexivity.
  - intros (r & Hr & Hc). exists r. split; [exact Hr|].
    rewrite Hc. now left.
Qed.

Lemma group_keys_In (df : list txn) (c : string) :
  In c (group_keys df) <-> exists r, In r df /\ CustomerID r = Some c.
Proof.
  unfold group_keys. rewrite sort_by_In, nodup_In. apply customer_ids_In.
Qed.

Lemma group_keys_NoDup (df : list txn) : NoDup (group_keys df).
Proof.
  unfold group_keys.
  eapply Permutation_NoDup; [symmetry; apply sort_by_perm|apply NoDup_nodup].
Qed.

Lemma rfm_customers (df : list txn) : map customer (rfm df) = group_keys df.
Proof. unfold rfm. rewrite map_map. simpl. apply map_id. Qed.

Lemma is_customer_true (c : string) (r : txn) :
  is_customer c r = true <-> CustomerID r = Some c.
Proof.
  unfold is_customer. destruct (CustomerID r) as [c'|]; [|split; discriminate].
  rewrite String.eqb_eq. split; congruence.
Qed.

Lemma rfm_recency (df : list txn) (row : rfm_row) :
  In row (rfm df) -> 1 <= Recency row.
Proof.
  unfold rfm. rewrite in_map_iff. intros (c & <- & Hc). simpl.
  apply group_keys_In in Hc. destruct Hc as (r & Hr & Hc).
  set (x := filter (is_customer c) df).
  assert (Hx : In r x) by (apply filter_In; split; [exact Hr|now apply is_customer_true]).
  assert (Hne : map OrderDate x <> []) by (destruct x; [contradiction|discriminate]).
  pose proof (series_max_In _ Hne) as Hmax.
  apply in_map_iff in Hmax. destruct Hmax as (r' & E & Hr').
  apply filter_In in Hr'. destruct Hr' as [Hr' _].
  assert (series_max (map OrderDate x) <= series_max (map OrderDate df)).
  { rewrite <- E. apply series_max_ge, in_map, Hr'. }
  unfold snapshot_date. apply Z.div_le_lower_bound; unfold one_day in *; lia.
Qed.

Lemma nodup_all_same (c : string) (l : list string) :
  l <> [] -> (forall x, In x l -> x = c) -> nodup string_dec l = [c].
Proof.
  induction l as [|x l IH]; [congruence|]. intros _ H.
  assert (x = c) by (apply H; now left). subst x. simpl.
  destruct (in_dec string_dec c l) as [Hin|Hin].
  - apply IH; [destruct l; [contradiction|discriminate]|].
    intros y Hy. apply H. now right.
  - destruct l as [|y l]; [reflexivity|].
    exfalso. apply Hin. left. apply H. right. now left.
Qed.

Lemma group_keys_single (df : list txn) (c : string) :
  df <> [] -> (forall r, In r df -> CustomerID r = Some c) ->
  group_keys df = [c].
Proof.
  intros Hne H. unfold group_keys. rewrite (nodup_all_same c); [reflexivity| |].
  - destruct df as [|r df]; [congruence|].
    unfold customer_ids. simpl. rewrite (H r (or_introl eq_refl)). discriminate.
  - intros x Hx. apply customer_ids_In in Hx. destruct Hx as (r & Hr & Hc).
    rewrite (H r Hr) in Hc. congruence.
Qed.

Lemma quartile_edges_single (v : Z) :
  quartile_edges [v] = [4 * v; 4 * v; 4 * v; 4 * v; 4 * v].
Proof.
  unfold quartile_edges, quantile4. simpl.
  repeat (f_equal; try lia).
Qed.

Lemma qcut_single (v : Z) (labels : list string) :
  qcut [v] labels = Raise (ValueError "Bin edges must be unique").
Proof.
  apply qcut_raises. rewrite quartile_edges_single.
  intros H. apply NoDup_cons_iff in H. destruct H as [H _]. apply H. now left.
Qed.

(** * Facts about the scored table *)

Lemma nth_error_combine (A B : Type) (l1 : list A) (l2 : list B) (i : nat) :
  nth_error (combine l1 l2) i
  = match nth_error l1 i, nth_error l2 i with
    | Some x, Some y => Some (x, y)
    | _, _ => None
    end.
Proof.
  revert l2 i; induction l1 as [|x l1 IH]; intros [|y l2] [|i]; simpl; trivial;
    try (destruct (nth_error l1 i); reflexivity).
Qed.

Lemma map_fst_combine (A B : Type) (l1 : list A) (l2 : list B) :
  (length l1 <= length l2)%nat -> map fst (combine l1 l2) = l1.
Proof.
  revert l2; induction l1 as [|x l1 IH]; intros [|y l2] H; simpl in *;
    trivial; try lia.
  f_equal. apply IH. lia.
Qed.

Lemma rank_first_length (xs : list Z) : length (rank_first xs) = length xs.
Proof. unfold rank_first. now rewrite length_map, length_seq. Qed.

Lemma fm_scores_length (t : list rfm_row) :
  length (fst (fm_scores t)) = length t /\ length (snd (fm_scores t)) = length t.
Proof.
  unfold fm_scores, try_fm_scores.
  destruct (qcut (rank_first (map Frequency t)) fm_labels) as [f|e] eqn:Ef; simpl.
  - destruct (qcut (map Monetary t) fm_labels) as [m|e] eqn:Em; simpl.
    + apply qcut_length in Ef, Em.
      rewrite rank_first_length in Ef. rewrite length_map in Ef, Em. auto.
    + now rewrite length_map.
  - now rewrite length_map.
Qed.

Lemma score_rfm_inv (t : list rfm_row) (s : list scored_row) :
  score_rfm t = Ok s ->
  exists r,
    qcut (map Recency t) r_labels = Ok r
    /\ s = map score_row
             (combine t (combine r (combine (fst (fm_scores t)) (snd (fm_scores t))))).
Proof.
  unfold score_rfm.
  destruct (qcut (map Recency t) r_labels) as [r|e]; simpl; [|discriminate].
  destruct (fm_scores t) as [f m]. intros H; injection H as <-.
  exists r. auto.
Qed.

Lemma metrics_score_row (p : rfm_row * (string * (string * string))) :
  metrics (score_row p) = fst p.
Proof. destruct p as [row [r [f m]]]. reflexivity. Qed.

Lemma score_rfm_metrics (t : list rfm_row) (s : list scored_row) :
  score_rfm t = Ok s -> map metrics s = t.
Proof.
  intros H. destruct (score_rfm_inv t s H) as (r & Hr & ->).
  rewrite map_map. rewrite (map_ext _ _ metrics_score_row).
  apply map_fst_combine.
  destruct (fm_scores_length t) as [Lf Lm].
  apply qcut_length in Hr. rewrite length_map in Hr.
  rewrite !length_combine. lia.
Qed.

(** The record at position [i] of the scored table. *)
Lemma scored_row_at (t : list rfm_row) (s : list scored_row) (i : nat) (sc : scored_row) :
  score_rfm t = Ok s -> nth_error s i = Some sc ->
  let bins := quartile_edges (map Recency t) in
  nth_error t i = Some (metrics sc)
  /\ NoDup bins
  /\ R_Score sc = bin_label bins r_labels (bin_id bins (Recency (metrics sc)))
  /\ nth_error (fst (fm_scores t)) i = Some (F_Score sc)
  /\ nth_error (snd (fm_scores t)) i = Some (M_Score sc)
  /\ RFM_Score sc = (R_Score sc ++ F_Score sc ++ M_Score sc)%string
  /\ Segment sc = segment_customer (RFM_Score sc) (R_Score sc).
Proof.
  intros H Hi. destruct (score_rfm_inv t s H) as (r & Hr & ->).
  apply qcut_inv in Hr. destruct Hr as [Hnd ->].
  rewrite nth_error_map, !nth_error_combine, nth_error_map in Hi.
  rewrite nth_error_map in Hi.
  destruct (nth_error t i) as [row|]; simpl in Hi; [|discriminate].
  destruct (nth_error (fst (fm_scores t)) i) as [f0|]; simpl in Hi; [|discriminate].
  destruct (nth_error (snd (fm_scores t)) i) as [m0|]; simpl in Hi; [|discriminate].
  injection Hi as <-. simpl. auto 10.
Qed.

Lemma try_fm_scores_inv (t : list rfm_row) (fm : list string * list string) :
  try_fm_scores t = Ok fm ->
  fm_scores t = fm
  /\ snd fm = map (fun x => bin_label (quartile_edges (map Monetary t)) fm_labels
                              (bin_id (quartile_edges (map Monetary t)) x))
                (map Monetary t).
Proof.
  intros H. unfold fm_scores. rewrite H. split; [reflexivity|].
  unfold try_fm_scores in H.
  destruct (qcut (rank_first (map Frequency t)) fm_labels) as [f|e]; simpl in H;
    [|discriminate].
  destruct (qcut (map Monetary t) fm_labels) as [m|e] eqn:Em; simpl in H;
    [|discriminate].
  injection H as <-. simpl. now apply qcut_inv in Em.
Qed.

Lemma fm_scores_fallback (t : list rfm_row) (e : exn) :
  try_fm_scores t = Raise e ->
  fm_scores t = (map (fun _ => "1") t, map (fun _ => "1") t).
Proof. intros H. unfold fm_scores. now rewrite H. Qed.

(** The spend score at position [i]: the label of the spend's bin, or "1"
    when the [try] block failed. *)
Lemma m_score_at (t : list rfm_row) (s : list scored_row) (i : nat) (sc : scored_row) :
  score_rfm t = Ok s -> nth_error s i = Some sc ->
  (exists e, try_fm_scores t = Raise e /\ F_Score sc = "1" /\ M_Score sc = "1")
  \/ (exists fm, try_fm_scores t = Ok fm
      /\ M_Score sc
         = bin_label (quartile_edges (map Monetary t)) fm_labels
             (bin_id (quartile_edges (map Monetary t)) (Monetary (metrics sc)))).
Proof.
  intros H Hi.
  destruct (scored_row_at t s i sc H Hi) as (Ht & _ & _ & Hf & Hm & _).
  destruct (try_fm_scores t) as [fm|e] eqn:E.
  - right. exists fm. split; [reflexivity|].
    destruct (try_fm_scores_inv t fm E) as [Efm Em].
    rewrite Efm, Em, !nth_error_map, Ht in Hm. simpl in Hm. congruence.
  - left. exists e. split; [reflexivity|].
    rewrite (fm_scores_fallback t e E) in Hf, Hm. simpl in Hf, Hm.
    rewrite nth_error_map, Ht in Hf, Hm. simpl in Hf, Hm. split; congruence.
Qed.

Lemma segment_customer_rules (score r : string) :
  In (segment_customer score r) ["Champions"; "New Users"; "At Risk"; "Regular"]
  /\ first_match spec_rules score r = Some (segment_customer score r).
Proof.
  unfold segment_customer, first_match, spec_rules.
  destruct (existsb (String.eqb score) ["444"; "434"; "443"; "344"]);
    [split; [simpl; tauto|reflexivity]|].
  destruct (String.eqb r "4"); [split; [simpl; tauto|reflexivity]|].
  destruct (String.eqb r "1"); split; solve [simpl; tauto|reflexivity].
Qed.

Lemma NoDup_five_last (a b c d e : Z) :
  NoDup [a; b; c; d; e] -> a <> e /\ b <> e /\ c <> e /\ d <> e.
Proof.
  intros H. rewrite !NoDup_cons_iff in H. simpl in H. intuition.
Qed.

Lemma r_score_of_min (xs : list Z) (x : Z) :
  In x xs -> (forall y, In y xs -> x <= y) ->
  bin_label (quartile_edges xs) r_labels (bin_id (quartile_edges xs) x) = "4".
Proof.
  intros Hin Hmin.
  assert (Hne : xs <> []) by (destruct xs; [contradiction|congruence]).
  unfold bin_id. change (nth 0 (quartile_edges xs) 0) with (quantile4 xs 0).
  rewrite (quantile4_first xs Hne), (sorted_values_first xs x Hin Hmin).
  rewrite Z.eqb_refl. reflexivity.
Qed.

Lemma r_score_of_max (xs : list Z) (x : Z) :
  In x xs -> (forall y, In y xs -> y <= x) -> NoDup (quartile_edges xs) ->
  bin_label (quartile_edges xs) r_labels (bin_id (quartile_edges xs) x) = "1".
Proof.
  intros Hin Hmax Hnd.
  assert (Hne : xs <> []) by (destruct xs; [contradiction|congruence]).
  pose proof (quantile4_le_max xs x 0 Hne Hmax ltac:(lia)) as H0.
  pose proof (quantile4_le_max xs x 1 Hne Hmax ltac:(lia)) as H1.
  pose proof (quantile4_le_max xs x 2 Hne Hmax ltac:(lia)) as H2.
  pose proof (quantile4_le_max xs x 3 Hne Hmax ltac:(lia)) as H3.
  pose proof (quantile4_last xs Hne) as H4.
  rewrite (sorted_values_last xs x Hin Hmax) in H4.
  unfold quartile_edges in *. cbn [map] in *.
  apply NoDup_five_last in Hnd. destruct Hnd as (N0 & N1 & N2 & N3).
  unfold bin_id, bin_label, count_lt. cbn [nth filter].
  destruct (Z.eqb_spec (4 * x) (quantile4 xs 0)) as [E|_]; [lia|].
  destruct (Z.ltb_spec (quantile4 xs 0) (4 * x)); [|lia].
  destruct (Z.ltb_spec (quantile4 xs 1) (4 * x)); [|lia].
  destruct (Z.ltb_spec (quantile4 xs 2) (4 * x)); [|lia].
  destruct (Z.ltb_spec (quantile4 xs 3) (4 * x)); [|lia].
  destruct (Z.ltb_spec (quantile4 xs 4) (4 * x)); [lia|].
  reflexivity.
Qed.

(** * The claims about the segmentation *)

(** C1 (the code departs from the claim).  Whenever every order of a
    non-empty frame is by one and the same customer, tab 2 raises: the
    recency scores of line 221 are cut outside the [try] block, and the five
    quartile edges of a single recency coincide.  The fallback of lines
    227-228 is never reached. *)
Theorem single_customer_segmentation_raises (filtered_df : list txn) (c : string) :
  filtered_df <> [] ->
  (forall r, In r filtered_df -> CustomerID r = Some c) ->
  tab2 filtered_df = Some (Raise (ValueError "Bin edges must be unique")).
Proof.
  intros Hne H. destruct filtered_df as [|r0 df]; [congruence|].
  unfold tab2, segmentation, rfm.
  rewrite (group_keys_single (r0 :: df) c Hne H).
  cbn [map]. unfold score_rfm. cbn [map Recency].
  rewrite qcut_single. reflexivity.
Qed.

Lemma single_customer_segmentation_raises_witness :
  one_customer <> []
  /\ (forall r, In r one_customer -> CustomerID r = Some "CUST-1001")
  /\ tab2 one_customer = Some (Raise (ValueError "Bin edges must be unique")).
Proof.
  assert (H1 : one_customer <> []) by discriminate.
  assert (H2 : forall r, In r one_customer -> CustomerID r = Some "CUST-1001").
  { intros r [<-|[]]. reflexivity. }
  split; [exact H1|]. split; [exact H2|].
  exact (single_customer_segmentation_raises one_customer "CUST-1001" H1 H2).
Defined.

(** Where the recency scores can be cut, the fallback works as the claim
    says: when the [try] block fails, every customer has the frequency
    score "1" and the spend score "1". *)
Lemma fallback_scores (t : list rfm_row) (s : list scored_row) (e : exn) :
  score_rfm t = Ok s -> try_fm_scores t = Raise e ->
  Forall (fun sc => F_Score sc = "1" /\ M_Score sc = "1") s.
Proof.
  intros H He. apply Forall_forall. intros sc Hin.
  destruct (In_nth_error _ _ Hin) as [i Hi].
  destruct (m_score_at t s i sc H Hi) as [(e' & _ & Hf & Hm)|(fm & Hfm & _)];
    [auto|congruence].
Qed.

(** C5 (the code departs from the claim).  A frame with two orders of one
    customer has no record at all: tab 2 raises (the defect of C1).  On
    every frame for which the segmentation returns, the rest of the claim
    holds: the records are those of the distinct customer identifiers, one
    each, and every label is one of the four, the one the first matching
    rule of the specification gives. *)
Theorem segmentation_one_record_per_customer :
  tab2 one_customer_two_orders = Some (Raise (ValueError "Bin edges must be unique"))
  /\ forall filtered_df s,
       segmentation filtered_df = Ok s ->
       map (fun sc => customer (metrics sc)) s = group_keys filtered_df
       /\ NoDup (group_keys filtered_df)
       /\ (forall c, In c (group_keys filtered_df)
                     <-> exists r, In r filtered_df /\ CustomerID r = Some c)
       /\ Forall (fun sc =>
                    In (Segment sc) ["Champions"; "New Users"; "At Risk"; "Regular"]
                    /\ first_match spec_rules (RFM_Score sc) (R_Score sc)
                       = Some (Segment sc)
                    /\ RFM_Score sc = (R_Score sc ++ F_Score sc ++ M_Score sc)%string)
            s.
Proof.
  split; [reflexivity|].
  intros df s H. unfold segmentation in H. split; [|split; [|split]].
  - rewrite <- rfm_customers, <- (score_rfm_metrics _ _ H). now rewrite map_map.
  - apply group_keys_NoDup.
  - apply group_keys_In.
  - apply Forall_forall. intros sc Hin.
    destruct (In_nth_error _ _ Hin) as [i Hi].
    destruct (scored_row_at _ _ i sc H Hi) as (_ & _ & _ & _ & _ & Hscore & Hseg).
    rewrite Hseg.
    destruct (segment_customer_rules (RFM_Score sc) (R_Score sc)) as [H1 H2].
    auto.
Qed.

(** C6, as stated, fails: five customers with the four distinct recencies
    4, 3, 2, 1 and 1 have two equal quartile edges, and tab 2 raises. *)
Lemma four_distinct_recencies_raise :
  map Recency (rfm five_customers_four_recencies) = [4; 3; 2; 1; 1]
  /\ tab2 five_customers_four_recencies
     = Some (Raise (ValueError "Bin edges must be unique")).
Proof. split; reflexivity. Qed.

(** C6, amended.  Whenever the segmentation returns (the five quartile edges
    of the recencies are distinct), a customer whose recency is the smallest
    has the recency score "4" and a customer whose recency is the largest has
    the recency score "1". *)
Theorem r_score_inverts_recency
  (filtered_df : list txn) (s : list scored_row) (sc : scored_row) :
  segmentation filtered_df = Ok s ->
  In sc s ->
  ((forall sc', In sc' s -> Recency (metrics sc) <= Recency (metrics sc')) ->
   R_Score sc = "4")
  /\ ((forall sc', In sc' s -> Recency (metrics sc') <= Recency (metrics sc)) ->
      R_Score sc = "1").
Proof.
  unfold segmentation. set (t := rfm filtered_df). intros H Hin.
  destruct (In_nth_error _ _ Hin) as [i Hi].
  destruct (scored_row_at t s i sc H Hi) as (Ht & Hnd & Hr & _).
  pose proof (score_rfm_metrics t s H) as Hm.
  assert (Hx : In (Recency (metrics sc)) (map Recency t)).
  { apply in_map. eapply nth_error_In; exact Ht. }
  assert (Hall : forall y, In y (map Recency t) ->
                           exists sc', In sc' s /\ Recency (metrics sc') = y).
  { intros y Hy. apply in_map_iff in Hy. destruct Hy as (row & <- & Hrow).
    rewrite <- Hm in Hrow. apply in_map_iff in Hrow.
    destruct Hrow as (sc' & <- & Hsc'). exists sc'. auto. }
  rewrite Hr. split; intros Hext.
  - apply r_score_of_min; [exact Hx|].
    intros y Hy. destruct (Hall y Hy) as (sc' & Hsc' & <-). now apply Hext.
  - apply r_score_of_max; [exact Hx| |exact Hnd].
    intros y Hy. destruct (Hall y Hy) as (sc' & Hsc' & <-). now apply Hext.
Qed.

Lemma r_score_inverts_recency_witness :
  exists sc,
    segmentation three_customers = Ok three_customers_scored
    /\ In sc three_customers_scored
    /\ customer (metrics sc) = "A"
    /\ ((forall sc', In sc' three_customers_scored ->
                     Recency (metrics sc) <= Recency (metrics sc')) ->
        R_Score sc = "4")
    /\ ((forall sc', In sc' three_customers_scored ->
                     Recency (metrics sc') <= Recency (metrics sc)) ->
        R_Score sc = "1").
Proof.
  eexists. split; [reflexivity|]. split; [left; reflexivity|].
  split; [reflexivity|].
  apply (r_score_inverts_recency three_customers three_customers_scored);
    [reflexivity|left; reflexivity].
Defined.

(** C8, as stated, fails: raising the spend of customer D from 4 to 5,
    nothing else changed, makes two quartile edges of the spends coincide;
    the [try] block fails and the spend score of D falls from "3" to "1". *)
Lemma m_score_falls_on_fallback :
  exists s s' sc sc',
    rfm five_customers_raised = set_monetary 3 5 (rfm five_customers)
    /\ segmentation five_customers = Ok s
    /\ segmentation five_customers_raised = Ok s'
    /\ nth_error s 3 = Some sc /\ nth_error s' 3 = Some sc'
    /\ customer (metrics sc) = "D" /\ customer (metrics sc') = "D"
    /\ M_Score sc = "3" /\ M_Score sc' = "1".
Proof.
  do 4 eexists. repeat split; reflexivity.
Qed.

(** C8, amended.  Raising the spend of one customer, every other metric of
    the per-customer table unchanged, never lowers the spend score of that
    customer, provided the [try] block succeeds on the raised table (no
    fallback to "1"). *)
Theorem m_score_monotone_without_fallback
  (t : list rfm_row) (i : nat) (row : rfm_row) (v : Z)
  (s s' : list scored_row) (sc sc' : scored_row) (fm : list string * list string) :
  nth_error t i = Some row ->
  Monetary row <= v ->
  score_rfm t = Ok s ->
  score_rfm (set_monetary i v t) = Ok s' ->
  try_fm_scores (set_monetary i v t) = Ok fm ->
  nth_error s i = Some sc ->
  nth_error s' i = Some sc' ->
  score_value (M_Score sc) <= score_value (M_Score sc').
Proof.
  intros Ht Hv Hs Hs' Hfm Hi Hi'.
  set (xs := map Monetary t).
  assert (Hlt : (i < length t)%nat) by (apply nth_error_Some; congruence).
  assert (Hlen : (i < length xs)%nat) by (unfold xs; now rewrite length_map).
  assert (Hx : nth i xs 0 = Monetary row).
  { unfold xs. apply nth_error_nth. rewrite nth_error_map, Ht. reflexivity. }
  assert (Hxs' : map Monetary (set_monetary i v t) = update_nth i (fun _ => v) xs).
  { unfold set_monetary, xs. apply map_update_nth. reflexivity. }
  destruct (scored_row_at _ _ i sc Hs Hi) as (Hrow & _).
  destruct (scored_row_at _ _ i sc' Hs' Hi') as (Hrow' & _).
  assert (Hm' : Monetary (metrics sc') = v).
  { unfold set_monetary in Hrow'.
    assert (E : nth i (update_nth i (with_monetary v) t) (metrics sc') = metrics sc')
      by (apply nth_error_nth; exact Hrow').
    rewrite nth_update_nth in E by exact Hlt.
    rewrite <- E. reflexivity. }
  assert (Hin' : In v (update_nth i (fun _ => v) xs)).
  { replace v with (nth i (update_nth i (fun _ => v) xs) 0) at 1.
    - apply nth_In. now rewrite update_nth_length.
    - now rewrite nth_update_nth. }
  destruct (m_score_at _ _ i sc' Hs' Hi') as [(e & He & _)|(fm' & _ & Esc')];
    [congruence|].
  rewrite Esc', Hxs', Hm'.
  rewrite score_value_fm_label by (apply bin_id_bounds; exact Hin').
  pose proof (bin_id_bounds _ _ Hin') as Hb'.
  destruct (m_score_at _ _ i sc Hs Hi) as [(e & _ & _ & Esc)|(fm0 & _ & Esc)].
  - rewrite Esc. change (score_value "1") with 1. lia.
  - assert (Hmrow : metrics sc = row) by congruence.
    rewrite Esc, Hmrow. fold xs. rewrite <- Hx.
    assert (Hin : In (nth i xs 0) xs) by (apply nth_In; exact Hlen).
    rewrite score_value_fm_label by (apply bin_id_bounds; exact Hin).
    pose proof (bin_id_raise xs i v Hlen ltac:(lia)). lia.
Qed.

Lemma m_score_monotone_without_fallback_witness :
  exists row s s' sc sc' fm,
    nth_error (rfm three_customers) 1 = Some row
    /\ Monetary row <= 250
    /\ score_rfm (rfm three_customers) = Ok s
    /\ score_rfm (set_monetary 1 250 (rfm three_customers)) = Ok s'
    /\ try_fm_scores (set_monetary 1 250 (rfm three_customers)) = Ok fm
    /\ nth_error s 1 = Some sc
    /\ nth_error s' 1 = Some sc'
    /\ M_Score sc = "1" /\ M_Score sc' = "2"
    /\ score_value (M_Score sc) <= score_value (M_Score sc').
Proof.
  do 6 eexists.
  split; [reflexivity|]. split; [discriminate|].
  split; [reflexivity|]. split; [reflexivity|]. split; [reflexivity|].
  split; [reflexivity|]. split; [reflexivity|].
  split; [reflexivity|]. split; [reflexivity|].
  eapply (m_score_monotone_without_fallback (rfm three_customers) 1 _ 250);
    first [reflexivity|discriminate].
Defined.

(** C9.  In the per-customer table of a non-empty frame every recency is
    at least one day: the snapshot date is one day after the latest order of
    the frame, and no customer's latest order is later than that. *)
Theorem recency_at_least_one_day (filtered_df : list txn) :
  filtered_df <> [] ->
  Forall (fun row => 1 <= Recency row) (rfm filtered_df).
Proof.
  intros _. apply Forall_forall. apply rfm_recency.
Qed.

Lemma recency_at_least_one_day_witness :
  three_customers <> []
  /\ Forall (fun row => 1 <= Recency row) (rfm three_customers).
Proof.
  assert (H : three_customers <> []) by discriminate.
  split; [exact H|]. exact (recency_at_least_one_day three_customers H).
Defined.

(** * Facts about the weekly bins *)

Lemma week_apply_back (t : Z) :
  exists SF, week_apply (-1) (normalize t) = SF * one_day
             /\ (SF + 4) mod 7 = 0
             /\ SF * one_day + one_day <= t < SF * one_day + 8 * one_day.
Proof.
  unfold week_apply, weekday, normalize.
  assert (Hd : t / one_day * one_day / one_day = t / one_day)
    by (apply Z.div_mul; unfold one_day; lia).
  rewrite Hd. set (D := t / one_day).
  assert (Ht : D * one_day <= t < D * one_day + one_day).
  { unfold D, one_day. Z.to_euclidean_division_equations. lia. }
  destruct (Z.eqb_spec ((D + 3) mod 7) 6) as [E|E].
  - exists (D - 7). split; [unfold one_day; lia|].
    split; [Z.to_euclidean_division_equations; lia|unfold one_day in *; lia].
  - exists (D - (D + 3) mod 7 - 1).
    assert (Hw : 0 <= (D + 3) mod 7 < 6).
    { pose proof (Z.mod_pos_bound (D + 3) 7 ltac:(lia)). lia. }
    rewrite (Z.mod_small (6 - (D + 3) mod 7) 7) by lia.
    simpl (if -1 >? 0 then _ else _).
    split; [unfold one_day; lia|].
    split; [Z.to_euclidean_division_equations; lia|unfold one_day in *; lia].
Qed.

Lemma week_apply_forward (t : Z) :
  exists SL, week_apply 1 (normalize t) = SL * one_day
             /\ (SL + 4) mod 7 = 0
             /\ t < SL * one_day /\ SL * one_day <= t + 7 * one_day.
Proof.
  unfold week_apply, weekday, normalize.
  assert (Hd : t / one_day * one_day / one_day = t / one_day)
    by (apply Z.div_mul; unfold one_day; lia).
  rewrite Hd. set (D := t / one_day).
  assert (Ht : D * one_day <= t < D * one_day + one_day).
  { unfold D, one_day. Z.to_euclidean_division_equations. lia. }
  destruct (Z.eqb_spec ((D + 3) mod 7) 6) as [E|E].
  - exists (D + 7). split; [unfold one_day; lia|].
    split; [Z.to_euclidean_division_equations; lia|unfold one_day in *; lia].
  - exists (D + 6 - (D + 3) mod 7).
    assert (Hw : 0 <= (D + 3) mod 7 < 6).
    { pose proof (Z.mod_pos_bound (D + 3) 7 ltac:(lia)). lia. }
    rewrite (Z.mod_small (6 - (D + 3) mod 7) 7) by lia.
    simpl (if 1 >? 0 then _ else _).
    split; [unfold one_day; lia|].
    split; [Z.to_euclidean_division_equations; lia|unfold one_day in *; lia].
Qed.

Lemma weekly_length (s : Z) (k : nat) : length (weekly s k) = k.
Proof. revert s; induction k; intros s; simpl; auto. Qed.

Lemma weekly_nth (s : Z) (k i : nat) (d : Z) :
  (i < k)%nat -> nth i (weekly s k) d = s + Z.of_nat i * (7 * one_day).
Proof.
  revert s i; induction k as [|k IH]; intros s [|i] H; simpl weekly; simpl nth; try lia.
  rewrite IH by lia. unfold one_day. lia.
Qed.

Lemma weekly_nth_error (s : Z) (k i : nat) (b : Z) :
  nth_error (weekly s k) i = Some b -> b = s + Z.of_nat i * (7 * one_day).
Proof.
  intros H.
  assert (Hi : (i < k)%nat).
  { rewrite <- (weekly_length s k). apply nth_error_Some. congruence. }
  rewrite <- (weekly_nth s k i 0 Hi). symmetry. now apply nth_error_nth.
Qed.

Lemma weekly_In (s : Z) (k : nat) (b : Z) :
  In b (weekly s k) <-> exists i, (i < k)%nat /\ b = s + Z.of_nat i * (7 * one_day).
Proof.
  split.
  - intros H. destruct (In_nth_error _ _ H) as [i Hi]. exists i. split.
    + rewrite <- (weekly_length s k). apply nth_error_Some. congruence.
    + now apply (weekly_nth_error s k).
  - intros (i & Hi & ->). rewrite <- (weekly_nth s k i 0 Hi).
    apply nth_In. now rewrite weekly_length.
Qed.

Lemma weekly_removelast (s : Z) (k : nat) :
  removelast (weekly s (S k)) = weekly s k.
Proof.
  revert s; induction k as [|k IH]; intros s; [reflexivity|].
  change (weekly s (S (S k))) with (s :: weekly (s + 7 * one_day) (S k)).
  change (weekly s (S k)) with (s :: weekly (s + 7 * one_day) k).
  rewrite <- IH. reflexivity.
Qed.

Lemma weekly_pairs (s : Z) (k : nat) :
  combine (weekly s (S k)) (tl (weekly s (S k)))
  = map (fun b => (b - 7 * one_day, b)) (weekly (s + 7 * one_day) k).
Proof.
  revert s; induction k as [|k IH]; intros s; [reflexivity|].
  change (weekly s (S (S k))) with (s :: weekly (s + 7 * one_day) (S k)).
  cbn [tl]. 
  change (weekly (s + 7 * one_day) (S k))
    with ((s + 7 * one_day) :: weekly (s + 7 * one_day + 7 * one_day) k) at 2 3.
  cbn [combine map]. f_equal; [f_equal; unfold one_day; lia|].
  rewrite <- IH. reflexivity.
Qed.

Lemma series_min_le_max (xs : list Z) : xs <> [] -> series_min xs <= series_max xs.
Proof.
  destruct xs as [|x xs]; [congruence|]. intros _.
  pose proof (series_min_le (x :: xs) x (or_introl eq_refl)).
  pose proof (series_max_ge (x :: xs) x (or_introl eq_refl)). lia.
Qed.

Lemma week_binner_shape (ax : list Z) :
  ax <> [] ->
  exists SF K,
    week_binner ax = weekly (SF * one_day) (S K)
    /\ (1 <= K)%nat
    /\ (SF + 4) mod 7 = 0
    /\ SF * one_day + one_day <= series_min ax
    /\ series_max ax <= SF * one_day + Z.of_nat K * (7 * one_day) + one_day - 1.
Proof.
  intros Hne. pose proof (series_min_le_max ax Hne) as Hmm.
  unfold week_binner.
  destruct (week_apply_back (series_min ax)) as (SF & -> & HSF & Hmin1 & Hmin2).
  destruct (week_apply_forward (series_max ax)) as (SL & -> & HSL & Hmax1 & Hmax2).
  set (mn := series_min ax) in *. set (mx := series_max ax) in *.
  assert (Hq : exists q, SL - SF = 7 * q /\ 1 <= q).
  { exists ((SL - SF) / 7). unfold one_day in *.
    Z.to_euclidean_division_equations. lia. }
  destruct Hq as (q & Hq & Hq1).
  assert (Hcount : date_range_weekly (SF * one_day) (SL * one_day)
                   = weekly (SF * one_day) (S (Z.to_nat q))).
  { unfold date_range_weekly. f_equal.
    replace (SL * one_day - SF * one_day) with (q * (7 * one_day))
      by (unfold one_day; lia).
    rewrite Z.div_mul by (unfold one_day; lia). lia. }
  rewrite Hcount. set (M := Z.to_nat q).
  assert (HM : (1 <= M)%nat) by (unfold M; lia).
  rewrite length_map, weekly_length.
  replace (S M - 2)%nat with (M - 1)%nat by lia.
  rewrite (nth_indep _ 0 (0 + one_day - 1))
    by (rewrite length_map, weekly_length; lia).
  rewrite (map_nth (fun t => t + one_day - 1)).
  rewrite weekly_nth by lia.
  destruct (Z.gtb_spec (SF * one_day + Z.of_nat (M - 1) * (7 * one_day) + one_day - 1) mx)
    as [Hdrop|Hkeep].
  - rewrite weekly_removelast.
    assert (2 <= M)%nat.
    { destruct (Nat.eq_dec M 1) as [E|E]; [|lia].
      rewrite E in Hdrop. unfold one_day in *. simpl in Hdrop. lia. }
    exists SF, (M - 1)%nat. replace (S (M - 1)) with M by lia.
    repeat split; try assumption; try lia.
  - exists SF, M. repeat split; try assumption.
    assert (Z.of_nat M = q) by (unfold M; lia).
    unfold one_day in *. lia.
Qed.

Lemma sales_over_time_weekly (filtered_df : list txn) :
  filtered_df <> [] ->
  exists SF K,
    sales_over_time filtered_df
    = map (fun b => (b, bin_sum filtered_df (b - 6 * one_day - 1) (b + one_day - 1)))
        (weekly (SF * one_day + 7 * one_day) K)
    /\ (1 <= K)%nat
    /\ (SF + 4) mod 7 = 0
    /\ SF * one_day + one_day <= series_min (map OrderDate filtered_df)
    /\ series_max (map OrderDate filtered_df)
       <= SF * one_day + Z.of_nat K * (7 * one_day) + one_day - 1.
Proof.
  intros Hne.
  assert (Hax : map OrderDate filtered_df <> [])
    by (destruct filtered_df; [congruence|discriminate]).
  destruct (week_binner_shape _ Hax) as (SF & K & Hb & HK & HSF & Hmin & Hmax).
  exists SF, K. split; [|auto].
  destruct filtered_df as [|r0 df]; [congruence|].
  unfold sales_over_time. rewrite Hb, weekly_pairs, map_map.
  apply map_ext. intros b. cbn [fst snd]. f_equal. f_equal. unfold one_day. lia.
Qed.

(** * The claim about the revenue trend *)

(** C7, as stated, fails: of two orders three weeks apart, the trend has
    four entries, and the two weeks in between, in which nothing was sold,
    are entries with the sum 0.  (The labels are the Sundays that end the
    weeks.) *)
Lemma trend_has_zero_entries_for_empty_weeks :
  sales_over_time two_sundays
  = [ (jan_1_2023, 100);
      (jan_1_2023 + 7 * one_day, 0);
      (jan_1_2023 + 14 * one_day, 0);
      (jan_1_2023 + 21 * one_day, 7) ]
  /\ forall r, In r two_sundays ->
               ~ (jan_1_2023 + one_day <= OrderDate r < jan_1_2023 + 15 * one_day).
Proof.
  split; [reflexivity|].
  intros r [<-|[<-|[]]]; unfold order, jan_1_2023, one_day; simpl; lia.
Qed.

(** C7, amended.  For a non-empty frame the trend is a sequence of pairs
    (label, sum) in ascending order of the labels, which are consecutive
    Sundays at midnight, one week apart; the sum of an entry is the total of
    the sales from the Monday before its label to the end of the label's
    day, 0 when the week has no order; and the week of every order of the
    frame is among the entries.  So the trend covers every calendar week from
    the first order to the last, the empty ones included. *)
Theorem sales_over_time_covers_every_week (filtered_df : list txn) :
  filtered_df <> [] ->
  let trend := sales_over_time filtered_df in
  (forall i a b,
      nth_error trend i = Some a -> nth_error trend (S i) = Some b ->
      fst b = fst a + 7 * one_day)
  /\ Forall (fun p =>
               weekday (fst p) = 6
               /\ normalize (fst p) = fst p
               /\ snd p = bin_sum filtered_df (fst p - 6 * one_day - 1)
                            (fst p + one_day - 1))
       trend
  /\ (forall r, In r filtered_df ->
        exists p, In p trend
                  /\ fst p - 6 * one_day <= OrderDate r < fst p + one_day).
Proof.
  intros Hne trend.
  destruct (sales_over_time_weekly filtered_df Hne)
    as (SF & K & Ht & HK & HSF & Hmin & Hmax).
  unfold trend. rewrite Ht. clear trend Ht.
  set (g := fun b => (b, bin_sum filtered_df (b - 6 * one_day - 1) (b + one_day - 1))).
  split; [|split].
  - intros i a b Ha Hb. rewrite nth_error_map in Ha, Hb.
    destruct (nth_error (weekly (SF * one_day + 7 * one_day) K) i) as [x|] eqn:Ex;
      [|discriminate].
    destruct (nth_error (weekly (SF * one_day + 7 * one_day) K) (S i)) as [y|] eqn:Ey;
      [|discriminate].
    injection Ha as <-. injection Hb as <-. cbn [g fst].
    apply weekly_nth_error in Ex, Ey. rewrite Ex, Ey. unfold one_day. lia.
  - apply Forall_forall. intros p Hp. apply in_map_iff in Hp.
    destruct Hp as (b & <- & Hb). cbn [g fst snd].
    apply weekly_In in Hb. destruct Hb as (i & Hi & ->).
    assert (E : SF * one_day + 7 * one_day + Z.of_nat i * (7 * one_day)
                = (SF + 7 + 7 * Z.of_nat i) * one_day) by (unfold one_day; lia).
    rewrite E. unfold weekday, normalize.
    rewrite Z.div_mul by (unfold one_day; lia).
    split; [|split; reflexivity].
    Z.to_euclidean_division_equations. lia.
  - intros r Hr.
    pose proof (series_min_le _ _ (in_map OrderDate _ _ Hr)) as Hlo.
    pose proof (series_max_ge _ _ (in_map OrderDate _ _ Hr)) as Hhi.
    set (t := OrderDate r) in *.
    set (u := t - SF * one_day - one_day).
    set (q := u / (7 * one_day)).
    assert (Hq : 0 <= q < Z.of_nat K
                 /\ q * (7 * one_day) <= u < q * (7 * one_day) + 7 * one_day).
    { unfold q, u, one_day in *. Z.to_euclidean_division_equations. lia. }
    destruct Hq as [Hq1 Hq2].
    exists (g (SF * one_day + 7 * one_day + Z.of_nat (Z.to_nat q) * (7 * one_day))).
    split.
    + apply in_map. apply weekly_In. exists (Z.to_nat q). split; [lia|reflexivity].
    + cbn [g fst]. rewrite Z2Nat.id by lia. unfold u, one_day in *. lia.
Qed.

Lemma sales_over_time_covers_every_week_witness :
  two_sundays <> []
  /\ let trend := sales_over_time two_sundays in
     (forall i a b,
         nth_error trend i = Some a -> nth_error trend (S i) = Some b ->
         fst b = fst a + 7 * one_day)
     /\ Forall (fun p =>
                  weekday (fst p) = 6
                  /\ normalize (fst p) = fst p
                  /\ snd p = bin_sum two_sundays (fst p - 6 * one_day - 1)
                               (fst p + one_day - 1))
          trend
     /\ (forall r, In r two_sundays ->
           exists p, In p trend
                     /\ fst p - 6 * one_day <= OrderDate r < fst p + one_day).
Proof.
  assert (H : two_sundays <> []) by discriminate.
  split; [exact H|]. exact (sales_over_time_covers_every_week two_sundays H).
Defined.

(** * Further properties: loading, cleaning and the demo data *)

(** X1.  [load_data] never raises.  It hands back [None] and reports the
    exception when the file cannot be read or lacks the date or the sales
    column (the KeyError of [clean_data] is caught here); otherwise it
    hands back the cleaned frame and reports nothing. *)
Theorem load_data_catches_every_exception
  (parse_datetime : list (option string) -> string -> option Z)
  (parse_number : string -> option Z)
  (file : Type) (read_csv : file -> result DataFrame) (f : file) :
  match read_csv f with
  | Raise e =>
      load_data parse_datetime parse_number read_csv f
      = {| frame := None; reported := Some e |}
  | Ok df =>
      if (has_col "OrderDate" df && has_col "TotalSales" df)%bool
      then exists out,
          clean_data parse_datetime parse_number df = Ok out
          /\ load_data parse_datetime parse_number read_csv f
             = {| frame := Some out; reported := None |}
      else exists missing,
          load_data parse_datetime parse_number read_csv f
          = {| frame := None; reported := Some (KeyError missing) |}
  end.
Proof.
  unfold load_data. destruct (read_csv f) as [df|e]; [|reflexivity].
  cbn [bind].
  destruct (has_col "OrderDate" df) eqn:Ed; cbn [andb].
  - destruct (has_col "TotalSales" df) eqn:Es.
    + destruct (clean_data_ok parse_datetime parse_number df Ed Es) as [out H].
      exists out. now rewrite H.
    + destruct (clean_data_raises parse_datetime parse_number df (or_intror Es))
        as [k H].
      exists k. now rewrite H.
  - destruct (clean_data_raises parse_datetime parse_number df (or_introl Ed))
      as [k H].
    exists k. now rewrite H.
Qed.

Lemma map_fst_select_rows (m : list bool) (df : DataFrame) :
  map fst (select_rows m df) = map fst df.
Proof. unfold select_rows. rewrite map_map. reflexivity. Qed.

Lemma map_fst_set_col (name : string) (c : column) (df : DataFrame) :
  map fst (set_col name c df) = map fst df.
Proof.
  induction df as [|[n c0] df IH]; simpl; trivial.
  destruct (String.eqb n name); simpl; congruence.
Qed.

Lemma map_fst_update_col (name : string) (f : column -> column) (df : DataFrame) :
  map fst (update_col name f df) = map fst df.
Proof.
  unfold update_col. destruct (get_col name df); trivial. apply map_fst_set_col.
Qed.

Lemma mask_select_length_le (A : Type) (m : list bool) (xs : list A) :
  (length (mask_select m xs) <= length xs)%nat.
Proof.
  revert xs; induction m as [|b m IH]; intros [|x xs]; simpl; try lia.
  specialize (IH xs). destruct b; simpl; lia.
Qed.

Lemma nrows_select_rows_le (m : list bool) (df : DataFrame) :
  (nrows (select_rows m df) <= nrows df)%nat.
Proof.
  destruct df as [|[n c] df]; simpl; [lia|].
  unfold col_length. rewrite cells_select_col. apply mask_select_length_le.
Qed.

(** X2.  What [clean_data] never does: it never renames, reorders, adds or
    removes a column, never adds a row, and never changes a value outside
    the columns OrderDate, TotalSales and Quantity; of every other column it
    only leaves rows out (twice: the repeated rows, then the rows without a
    date or a sales amount). *)
Theorem clean_data_keeps_columns
  (parse_datetime : list (option string) -> string -> option Z)
  (parse_number : string -> option Z) (df out : DataFrame) :
  clean_data parse_datetime parse_number df = Ok out ->
  map fst out = map fst df
  /\ (nrows out <= nrows df)%nat
  /\ exists m1 m2,
       forall name,
         name <> "OrderDate" -> name <> "TotalSales" -> name <> "Quantity" ->
         get_col name out
         = option_map (fun c => select_col m2 (select_col m1 c)) (get_col name df).
Proof.
  intros H. destruct (clean_data_inv _ _ _ _ H) as (ds & xs & _ & _ & ->).
  set (D := coerce_columns parse_datetime parse_number (drop_duplicates df)).
  set (m2 := zip_and (map is_some ds) (zip_and (map is_some xs) (repeat true (nrows D)))).
  split; [|split].
  - rewrite map_fst_select_rows. unfold D. rewrite coerce_columns_update.
    rewrite !map_fst_update_col. apply map_fst_select_rows.
  - etransitivity; [apply nrows_select_rows_le|].
    unfold D. rewrite nrows_coerce_columns. apply nrows_select_rows_le.
  - exists (map negb (duplicated df)), m2. intros name H1 H2 H3.
    rewrite get_col_select_rows. unfold D. rewrite coerce_columns_update.
    rewrite !get_col_update_col_neq by assumption.
    unfold drop_duplicates. rewrite get_col_select_rows.
    destruct (get_col name df); reflexivity.
Qed.

Lemma clean_data_keeps_columns_witness :
  clean_data_example frame_raw_csv = Ok frame_raw_csv_cleaned
  /\ map fst frame_raw_csv_cleaned = map fst frame_raw_csv
  /\ (nrows frame_raw_csv_cleaned <= nrows frame_raw_csv)%nat
  /\ exists m1 m2,
       forall name,
         name <> "OrderDate" -> name <> "TotalSales" -> name <> "Quantity" ->
         get_col name frame_raw_csv_cleaned
         = option_map (fun c => select_col m2 (select_col m1 c))
             (get_col name frame_raw_csv).
Proof.
  split; [reflexivity|].
  apply (clean_data_keeps_columns iso_date integer_literal frame_raw_csv).
  reflexivity.
Defined.

Lemma txn_rows_some (cs : list (option string)) (ds xs : list (option Z)) :
  all_some ds -> all_some xs ->
  length ds = length cs -> length xs = length cs ->
  exists rows,
    txn_rows ds cs xs = Some rows
    /\ length rows = length cs
    /\ map CustomerID rows = cs
    /\ map (fun r => Some (OrderDate r)) rows = ds
    /\ map (fun r => Some (TotalSales r)) rows = xs.
Proof.
  revert ds xs; induction cs as [|c cs IH]; intros [|d ds] [|x xs] Hd Hx Ld Lx;
    simpl in *; try discriminate.
  - exists []. auto.
  - apply Forall_cons_iff in Hd, Hx. destruct Hd as [Hd0 Hd], Hx as [Hx0 Hx].
    destruct d as [d|]; [|discriminate]. destruct x as [x|]; [|discriminate].
    destruct (IH ds xs Hd Hx ltac:(lia) ltac:(lia)) as (rows & -> & L & C & D & X).
    eexists. split; [reflexivity|]. simpl. rewrite L, C, D, X. auto.
Qed.

(** X3.  A cleaned frame whose customer column is text can always be read as
    transactions: one per row, with the dates, customers and amounts of the
    frame.  So the segmentation and the trend never meet a missing date or
    amount. *)
Theorem cleaned_frame_has_transactions
  (parse_datetime : list (option string) -> string -> option Z)
  (parse_number : string -> option Z) (df out : DataFrame)
  (cs : list (option string)) :
  wf df ->
  clean_data parse_datetime parse_number df = Ok out ->
  get_col "CustomerID" out = Some (ObjectCol cs) ->
  exists rows,
    transactions out = Some rows
    /\ length rows = nrows out
    /\ map CustomerID rows = cs
    /\ get_col "OrderDate" out = Some (DatetimeCol (map (fun r => Some (OrderDate r)) rows))
    /\ get_col "TotalSales" out = Some (NumberCol (map (fun r => Some (TotalSales r)) rows)).
Proof.
  intros Hwf H Hc.
  destruct (clean_data_typed _ _ _ _ H) as (ds & xs & Hd & Hds & Hs & Hxs & _).
  pose proof (clean_data_wf _ _ _ _ Hwf H) as Hwf'.
  pose proof (get_col_Forall (fun c => col_length c = nrows out) _ _ _ Hwf' Hd) as Ld.
  pose proof (get_col_Forall (fun c => col_length c = nrows out) _ _ _ Hwf' Hs) as Ls.
  pose proof (get_col_Forall (fun c => col_length c = nrows out) _ _ _ Hwf' Hc) as Lc.
  unfold col_length in Ld, Ls, Lc. simpl in Ld, Ls, Lc. rewrite length_map in Ld, Ls, Lc.
  destruct (txn_rows_some cs ds xs Hds Hxs ltac:(lia) ltac:(lia))
    as (rows & Hr & L & C & D & X).
  exists rows. unfold transactions. rewrite Hd, Hc, Hs, D, X.
  repeat split; trivial; lia.
Qed.

Lemma cleaned_frame_has_transactions_witness :
  wf frame_raw_csv
  /\ clean_data_example frame_raw_csv = Ok frame_raw_csv_cleaned
  /\ get_col "CustomerID" frame_raw_csv_cleaned
     = Some (ObjectCol [Some "CUST-1001"; Some "CUST-1002"])
  /\ exists rows,
       transactions frame_raw_csv_cleaned = Some rows
       /\ length rows = nrows frame_raw_csv_cleaned
       /\ map CustomerID rows = [Some "CUST-1001"; Some "CUST-1002"]
       /\ get_col "OrderDate" frame_raw_csv_cleaned
          = Some (DatetimeCol (map (fun r => Some (OrderDate r)) rows))
       /\ get_col "TotalSales" frame_raw_csv_cleaned
          = Some (NumberCol (map (fun r => Some (TotalSales r)) rows)).
Proof.
  assert (Hwf : wf frame_raw_csv) by (repeat constructor).
  split; [exact Hwf|]. split; [reflexivity|]. split; [reflexivity|].
  apply (cleaned_frame_has_transactions iso_date integer_literal frame_raw_csv
           frame_raw_csv_cleaned _ Hwf); reflexivity.
Defined.

Lemma generate_row_valid (d : draw) :
  valid_draw d ->
  exists row price,
    generate_row d = Ok row
    /\ In (mock_product row) products
    /\ dict_get prices (mock_product row) = Ok price
    /\ mock_quantity row = quantity d
    /\ mock_sales row = price * mock_quantity row
    /\ 45 <= mock_sales row <= 1050
    /\ mock_date row = jan_1_2023 + Z.of_nat (date_index d) * one_day.
Proof.
  intros (Hdate & Hprod & Hqty & Hcust). unfold generate_row.
  destruct (product_index d) as [|[|[|[|[|i]]]]]; try lia; cbn [nth products];
    match goal with
    | |- context [dict_get prices ?p] =>
        let v := eval vm_compute in (dict_get prices p) in
        change (dict_get prices p) with v
    end;
    cbn [bind]; eexists; eexists; (split; [reflexivity|]);
    cbn [mock_product mock_quantity mock_sales mock_date];
    (split; [simpl; tauto|]); (split; [reflexivity|]); (split; [reflexivity|]);
    (split; [reflexivity|]); (split; [lia|reflexivity]).
Qed.

(** X4.  For random choices within their ranges the demo generator never
    raises (every product it can pick has a price) and makes one row per
    choice; in every row the product is one of the catalogue, the quantity is
    1, 2 or 3, the sales amount is the unit price times the quantity and so
    lies between 45 and 1050, and the date is a midnight of 2023. *)
Theorem generate_mock_data_rows (draws : list draw) :
  Forall valid_draw draws ->
  exists data,
    generate_rows draws = Ok data
    /\ generate_mock_data draws = Ok (frame_of_rows data)
    /\ length data = length draws
    /\ Forall (fun row =>
                 In (mock_product row) products
                 /\ 1 <= mock_quantity row <= 3
                 /\ (exists price,
                        dict_get prices (mock_product row) = Ok price
                        /\ mock_sales row = price * mock_quantity row)
                 /\ 45 <= mock_sales row <= 1050
                 /\ jan_1_2023 <= mock_date row <= jan_1_2023 + 364 * one_day
                 /\ normalize (mock_date row) = mock_date row)
         data.
Proof.
  intros H.
  assert (G : exists data,
             generate_rows draws = Ok data
             /\ length data = length draws
             /\ Forall (fun row =>
                          In (mock_product row) products
                          /\ 1 <= mock_quantity row <= 3
                          /\ (exists price,
                                 dict_get prices (mock_product row) = Ok price
                                 /\ mock_sales row = price * mock_quantity row)
                          /\ 45 <= mock_sales row <= 1050
                          /\ jan_1_2023 <= mock_date row <= jan_1_2023 + 364 * one_day
                          /\ normalize (mock_date row) = mock_date row)
                  data).
  { induction H as [|d draws Hd _ IH].
    - exists []. repeat split; constructor.
    - destruct IH as (data & E & L & F).
      destruct (generate_row_valid d Hd)
        as (row & price & Er & Hin & Hp & Hq & Hs & Hb & Hdate).
      exists (row :: data). cbn [generate_rows]. rewrite Er, E. cbn [bind].
      split; [reflexivity|]. split; [simpl; lia|].
      constructor; [|exact F].
      destruct Hd as (Hdi & _ & Hqty & _).
      split; [exact Hin|]. split; [lia|]. split; [exists price; auto|].
      split; [exact Hb|]. rewrite Hdate. split.
      + unfold one_day. lia.
      + unfold normalize, jan_1_2023.
        replace (19358 * one_day + Z.of_nat (date_index d) * one_day)
          with ((19358 + Z.of_nat (date_index d)) * one_day) by lia.
        now rewrite Z.div_mul by (unfold one_day; lia). }
  destruct G as (data & E & L & F). exists data.
  unfold generate_mock_data. rewrite E. cbn [bind]. auto.
Qed.

Lemma generate_mock_data_rows_witness :
  Forall valid_draw example_draws
  /\ exists data,
       generate_rows example_draws = Ok data
       /\ generate_mock_data example_draws = Ok (frame_of_rows data)
       /\ length data = length example_draws
       /\ Forall (fun row =>
                    In (mock_product row) products
                    /\ 1 <= mock_quantity row <= 3
                    /\ (exists price,
                           dict_get prices (mock_product row) = Ok price
                           /\ mock_sales row = price * mock_quantity row)
                    /\ 45 <= mock_sales row <= 1050
                    /\ jan_1_2023 <= mock_date row <= jan_1_2023 + 364 * one_day
                    /\ normalize (mock_date row) = mock_date row)
            data.
Proof.
  assert (H : Forall valid_draw example_draws)
    by (repeat constructor; simpl; lia).
  split; [exact H|]. exact (generate_mock_data_rows example_draws H).
Defined.

Lemma all_some_map_Some (A B : Type) (f : A -> B) (l : list A) :
  all_some (map (fun x => Some (f x)) l).
Proof. unfold all_some. induction l; simpl; constructor; auto. Qed.

Lemma frame_of_rows_wf (data : list mock_row) : wf (frame_of_rows data).
Proof.
  destruct data as [|r data]; [constructor|].
  unfold wf, frame_of_rows, nrows, col_length, cells.
  repeat constructor; cbn [snd]; now rewrite !length_map.
Qed.

(** X5.  Cleaning the demo data (lines 135-136) never raises and drops no
    row for a missing value: whatever the parsers do, all it does is remove
    the rows that repeat an earlier one.  This needs at least one generated
    row, as the frame of no rows has no columns. *)
Theorem clean_data_on_mock_data
  (parse_datetime : list (option string) -> string -> option Z)
  (parse_number : string -> option Z) (draws : list draw) :
  Forall valid_draw draws ->
  draws <> [] ->
  exists df,
    generate_mock_data draws = Ok df
    /\ nrows df = length draws
    /\ clean_data parse_datetime parse_number df = Ok (drop_duplicates df).
Proof.
  intros H Hne.
  destruct (generate_mock_data_rows draws H) as (data & _ & E & L & _).
  exists (frame_of_rows data). split; [exact E|].
  destruct data as [|r data]; [destruct draws; [congruence|discriminate]|].
  split.
  - unfold nrows, frame_of_rows, col_length, cells. rewrite !length_map. exact L.
  - eapply clean_data_cleaned.
    + apply frame_of_rows_wf.
    + reflexivity.
    + apply (all_some_map_Some _ _ mock_date).
    + reflexivity.
    + apply (all_some_map_Some _ _ mock_sales).
    + reflexivity.
Qed.

Lemma clean_data_on_mock_data_witness :
  Forall valid_draw example_draws
  /\ example_draws <> []
  /\ exists df,
       generate_mock_data example_draws = Ok df
       /\ nrows df = length example_draws
       /\ clean_data iso_date integer_literal df = Ok (drop_duplicates df).
Proof.
  assert (H : Forall valid_draw example_draws)
    by (repeat constructor; simpl; lia).
  assert (Hne : example_draws <> []) by discriminate.
  split; [exact H|]. split; [exact Hne|].
  exact (clean_data_on_mock_data iso_date integer_literal example_draws H Hne).
Defined.

(** * Further properties: the date filter and the KPIs *)

Lemma default_range_keeps (df : list txn) (r : txn) :
  In r df ->
  ((to_datetime_date (fst (default_range df)) <=? OrderDate r)
   && (OrderDate r <=? to_datetime_date (snd (default_range df))))%bool
  = (OrderDate r <=? normalize (max_date df)).
Proof.
  intros Hr. unfold default_range, to_datetime_date, date_of. cbn [fst snd].
  pose proof (series_min_le _ _ (in_map OrderDate _ _ Hr)) as Hmin.
  fold (min_date df) in Hmin. fold (normalize (max_date df)).
  assert (min_date df / one_day * one_day <= min_date df).
  { unfold one_day. Z.to_euclidean_division_equations. lia. }
  destruct (Z.leb_spec (min_date df / one_day * one_day) (OrderDate r)); [|lia].
  reflexivity.
Qed.

(** X6.  With the range the date widget starts with (the dates of the
    earliest and the latest order), the filter keeps exactly the orders that
    are not later than midnight of the last day: the widget hands back
    calendar dates, and line 158 compares with their midnights. *)
Theorem default_filter_cuts_last_day (df : list txn) :
  filter_dates df (fst (default_range df)) (snd (default_range df))
  = filter (fun r => OrderDate r <=? normalize (max_date df)) df.
Proof.
  unfold filter_dates. apply filter_ext_in. intros r Hr.
  now apply default_range_keeps.
Qed.

Lemma filter_all (A : Type) (p : A -> bool) (l : list A) :
  (forall x, In x l -> p x = true) -> filter p l = l.
Proof.
  induction l as [|x l IH]; intros H; simpl; trivial.
  rewrite (H x (or_introl eq_refl)). f_equal. apply IH. intros; apply H; now right.
Qed.

Lemma filter_none (A : Type) (p : A -> bool) (l : list A) :
  (forall x, In x l -> p x = false) -> filter p l = [].
Proof.
  induction l as [|x l IH]; intros H; simpl; trivial.
  rewrite (H x (or_introl eq_refl)). apply IH. intros; apply H; now right.
Qed.

Lemma max_date_In (df : list txn) :
  df <> [] -> exists r, In r df /\ OrderDate r = max_date df.
Proof.
  intros Hne.
  assert (H : map OrderDate df <> []) by (destruct df; [congruence|discriminate]).
  apply series_max_In in H. apply in_map_iff in H.
  destruct H as (r & E & Hr). exists r. auto.
Qed.

(** X7.  When every order date is a midnight (dates without a time of day,
    as in the demo data), the range the widget starts with keeps every
    order. *)
Theorem default_filter_keeps_midnight_orders (df : list txn) :
  (forall r, In r df -> normalize (OrderDate r) = OrderDate r) ->
  filter_dates df (fst (default_range df)) (snd (default_range df)) = df.
Proof.
  intros Hmid. unfold filter_dates. apply filter_all. intros r Hr.
  rewrite (default_range_keeps df r Hr).
  assert (Hne : df <> []) by (destruct df; [contradiction|discriminate]).
  destruct (max_date_In df Hne) as (r' & Hr' & E).
  rewrite <- E, (Hmid r' Hr'), E.
  apply Z.leb_le. apply series_max_ge. now apply in_map.
Qed.

Lemma default_filter_keeps_midnight_orders_witness :
  (forall r, In r three_customers -> normalize (OrderDate r) = OrderDate r)
  /\ filter_dates three_customers (fst (default_range three_customers))
       (snd (default_range three_customers))
     = three_customers.
Proof.
  assert (H : forall r, In r three_customers -> normalize (OrderDate r) = OrderDate r).
  { intros r Hr. repeat (destruct Hr as [<-|Hr]; [reflexivity|]). destruct Hr. }
  split; [exact H|]. exact (default_filter_keeps_midnight_orders three_customers H).
Defined.

(** X8.  When all orders are of one day and none of them is at midnight, the
    range the widget starts with keeps no order at all: the filtered frame is
    empty, tab 2 is skipped and the trend has no entry. *)
Theorem default_filter_empties_single_day (df : list txn) (day : Z) :
  (forall r, In r df ->
             date_of (OrderDate r) = day /\ OrderDate r <> to_datetime_date day) ->
  let filtered_df :=
    filter_dates df (fst (default_range df)) (snd (default_range df)) in
  filtered_df = [] /\ tab2 filtered_df = None /\ sales_over_time filtered_df = [].
Proof.
  intros H filtered_df.
  assert (E : filtered_df = []).
  { unfold filtered_df, filter_dates. apply filter_none. intros r Hr.
    rewrite (default_range_keeps df r Hr).
    assert (Hne : df <> []) by (destruct df; [contradiction|discriminate]).
    destruct (max_date_In df Hne) as (r' & Hr' & E).
    destruct (H r Hr) as [Hd Hn]. destruct (H r' Hr') as [Hd' _].
    apply Z.leb_gt. unfold normalize. rewrite <- E.
    unfold date_of, to_datetime_date in *. rewrite Hd'.
    assert (day * one_day <= OrderDate r).
    { rewrite <- Hd. unfold one_day. Z.to_euclidean_division_equations. lia. }
    lia. }
  rewrite E. auto.
Qed.

Lemma default_filter_empties_single_day_witness :
  (forall r, In r one_day_with_times ->
             date_of (OrderDate r) = 19358
             /\ OrderDate r <> to_datetime_date 19358)
  /\ let filtered_df :=
       filter_dates one_day_with_times (fst (default_range one_day_with_times))
         (snd (default_range one_day_with_times)) in
     filtered_df = [] /\ tab2 filtered_df = None /\ sales_over_time filtered_df = [].
Proof.
  assert (H : forall r, In r one_day_with_times ->
                        date_of (OrderDate r) = 19358
                        /\ OrderDate r <> to_datetime_date 19358).
  { intros r Hr.
    repeat (destruct Hr as [<-|Hr]; [split; [reflexivity|discriminate]|]).
    destruct Hr. }
  split; [exact H|]. exact (default_filter_empties_single_day one_day_with_times 19358 H).
Defined.

Lemma series_sum_app (l1 l2 : list Z) :
  series_sum (l1 ++ l2) = series_sum l1 + series_sum l2.
Proof. induction l1 as [|x l1 IH]; simpl; [reflexivity|]. rewrite IH. lia. Qed.







(** X10.  The recency of every customer is at most the number of whole days
    between the earliest and the latest order plus one, and a customer who
    placed an order at the latest order date has the recency 1. *)
Theorem recency_range (filtered_df : list txn) :
  (forall row, In row (rfm filtered_df) ->
               Recency row <= (max_date filtered_df - min_date filtered_df) / one_day + 1)
  /\ (forall r c,
         In r filtered_df -> OrderDate r = max_date filtered_df ->
         CustomerID r = Some c ->
         exists row, In row (rfm filtered_df) /\ customer row = c /\ Recency row = 1).
Proof.
  split.
  - intros row Hrow. unfold rfm in Hrow. apply in_map_iff in Hrow.
    destruct Hrow as (c & <- & Hc). cbn [Recency].
    apply group_keys_In in Hc. destruct Hc as (r & Hr & Hc).
    set (x := filter (is_customer c) filtered_df).
    assert (Hx : In r x)
      by (apply filter_In; split; [exact Hr|now apply is_customer_true]).
    assert (Hne : map OrderDate x <> []) by (destruct x; [contradiction|discriminate]).
    pose proof (series_max_In _ Hne) as Hmax.
    apply in_map_iff in Hmax. destruct Hmax as (r' & E & Hr').
    apply filter_In in Hr'. destruct Hr' as [Hr' _].
    pose proof (series_min_le _ _ (in_map OrderDate _ _ Hr')) as Hlo.
    rewrite E in Hlo. unfold snapshot_date, max_date, min_date.
    set (gmax := series_max (map OrderDate x)) in *.
    set (mx := series_max (map OrderDate filtered_df)).
    set (mn := series_min (map OrderDate filtered_df)) in *.
    unfold one_day. Z.to_euclidean_division_equations. lia.
  - intros r c Hr Hd Hc.
    exists {| customer := c;
              Recency := (snapshot_date filtered_df
                          - series_max (map OrderDate (filter (is_customer c) filtered_df)))
                         / one_day;
              Frequency := Z.of_nat (length (filter (is_customer c) filtered_df));
              Monetary := series_sum (map TotalSales (filter (is_customer c) filtered_df)) |}.
    split; [|split; [reflexivity|]].
    + unfold rfm. apply in_map_iff. exists c. split; [reflexivity|].
      apply group_keys_In. exists r. auto.
    + cbn [Recency].
      set (x := filter (is_customer c) filtered_df).
      assert (Hx : In r x)
        by (apply filter_In; split; [exact Hr|now apply is_customer_true]).
      pose proof (series_max_ge _ _ (in_map OrderDate _ _ Hx)) as H1.
      assert (Hne : map OrderDate x <> []) by (destruct x; [contradiction|discriminate]).
      pose proof (series_max_In _ Hne) as Hmax.
      apply in_map_iff in Hmax. destruct Hmax as (r' & E & Hr').
      apply filter_In in Hr'. destruct Hr' as [Hr' _].
      pose proof (series_max_ge _ _ (in_map OrderDate _ _ Hr')) as H2.
      rewrite E in H2. unfold max_date in Hd. unfold snapshot_date.
      replace (series_max (map OrderDate x)) with (series_max (map OrderDate filtered_df))
        by lia.
      replace (series_max (map OrderDate filtered_df) + one_day
               - series_max (map OrderDate filtered_df)) with (1 * one_day) by lia.
      apply Z.div_mul. unfold one_day. lia.
Qed.

(** * Further properties: the revenue trend *)






Lemma week_binner_head (ax : list Z) :
  ax <> [] ->
  hd 0 (week_binner ax) = week_apply (-1) (normalize (series_min ax)).
Proof.
  intros Hne.
  destruct (week_binner_shape ax Hne) as (SF & K & Hb & HK & _).
  assert (Hlen : (2 <= length (week_binner ax))%nat)
    by (rewrite Hb, weekly_length; lia).
  clear Hb. unfold week_binner in *.
  set (first := week_apply (-1) (normalize (series_min ax))) in *.
  set (last := week_apply 1 (normalize (series_max ax))) in *.
  unfold date_range_weekly in *.
  destruct (Z.to_nat ((last - first) / (7 * one_day) + 1)) as [|[|n]].
  - destruct (_ >? _); simpl in Hlen; lia.
  - destruct (_ >? _); simpl in Hlen; lia.
  - destruct (_ >? _); [|reflexivity].
    rewrite weekly_removelast. reflexivity.
Qed.

(** X12.  The trend of a non-empty frame starts with the week of the
    earliest order: its first label is the Sunday that ends that week, so no
    empty week precedes the first order. *)
Theorem trend_starts_with_first_week (filtered_df : list txn) :
  filtered_df <> [] ->
  exists label total rest,
    sales_over_time filtered_df = (label, total) :: rest
    /\ weekday label = 6
    /\ label - 6 * one_day <= min_date filtered_df < label + one_day.
Proof.
  intros Hne.
  assert (Hax : map OrderDate filtered_df <> [])
    by (destruct filtered_df; [congruence|discriminate]).
  destruct (week_binner_shape _ Hax) as (SF & K & Hb & HK & HSF & Hmin & _).
  pose proof (week_binner_head _ Hax) as Hh. rewrite Hb in Hh. cbn [weekly hd] in Hh.
  destruct (week_apply_back (series_min (map OrderDate filtered_df)))
    as (SF' & E & _ & _ & Hlt).
  rewrite <- Hh in E.
  assert (SF' = SF) by (unfold one_day in E; lia). subst SF'.
  destruct filtered_df as [|r0 df]; [congruence|].
  unfold sales_over_time. rewrite Hb, weekly_pairs.
  destruct K as [|K]; [lia|]. cbn [weekly map fst snd].
  eexists. eexists. eexists. split; [reflexivity|].
  unfold min_date. split.
  - unfold weekday.
    replace (SF * one_day + 7 * one_day) with ((SF + 7) * one_day) by lia.
    rewrite Z.div_mul by (unfold one_day; lia).
    Z.to_euclidean_division_equations. lia.
  - unfold one_day in *. lia.
Qed.

Lemma trend_starts_with_first_week_witness :
  two_sundays <> []
  /\ exists label total rest,
       sales_over_time two_sundays = (label, total) :: rest
       /\ weekday label = 6
       /\ label - 6 * one_day <= min_date two_sundays < label + one_day.
Proof.
  assert (H : two_sundays <> []) by discriminate.
  split; [exact H|]. exact (trend_starts_with_first_week two_sundays H).
Defined.

(** * Further properties: the top products *)

Section SortedBy.

Variable A : Type.
Variable leb : A -> A -> bool.
Hypothesis leb_total : forall x y, leb x y = false -> leb y x = true.
Hypothesis leb_trans : forall x y z, leb x y = true -> leb y z = true -> leb x z = true.

Lemma insert_sorted_sorted (x : A) (l : list A) :
  StronglySorted (fun a b => leb a b = true) l ->
  StronglySorted (fun a b => leb a b = true) (insert_sorted leb x l).
Proof.
  induction 1 as [|y l Hl IH Hy]; simpl.
  - repeat constructor.
  - destruct (leb x y) eqn:E.
    + constructor; [now constructor|].
      constructor; [exact E|].
      eapply Forall_impl; [|exact Hy]. simpl. intros a Ha. eapply leb_trans; eassumption.
    + constructor; [exact IH|].
      eapply Permutation_Forall; [symmetry; apply insert_sorted_perm|].
      constructor; [now apply leb_total|exact Hy].
Qed.

Lemma sort_by_sorted (l : list A) :
  StronglySorted (fun a b => leb a b = true) (sort_by leb l).
Proof.
  induction l as [|x l IH]; simpl; [constructor|now apply insert_sorted_sorted].
Qed.

End SortedBy.

Lemma firstn_In_list (A : Type) (n : nat) (l : list A) (x : A) :
  In x (firstn n l) -> In x l.
Proof.
  revert l; induction n as [|n IH]; intros [|a l]; simpl; try tauto.
  intros [H|H]; auto.
Qed.

Lemma NoDup_firstn_list (A : Type) (n : nat) (l : list A) :
  NoDup l -> NoDup (firstn n l).
Proof.
  intros H. revert n; induction H as [|x l Hx Hl IH]; intros [|n]; simpl;
    try constructor.
  - intros Hin. apply firstn_In_list in Hin. contradiction.
  - apply IH.
Qed.

Lemma StronglySorted_weaken (A : Type) (R R' : A -> A -> Prop) (l : list A) :
  (forall a b, R a b -> R' a b) -> StronglySorted R l -> StronglySorted R' l.
Proof.
  intros H. induction 1 as [|a l Hl IH Ha]; constructor; trivial.
  eapply Forall_impl; [|exact Ha]. apply H.
Qed.

Lemma StronglySorted_app_cross (A : Type) (R : A -> A -> Prop) (l1 l2 : list A) :
  StronglySorted R (l1 ++ l2) ->
  forall x y, In x l1 -> In y l2 -> R x y.
Proof.
  induction l1 as [|a l1 IH]; intros Hs x y Hx Hy; [contradiction|].
  simpl in Hs. apply StronglySorted_inv in Hs. destruct Hs as [Hs Ha].
  destruct Hx as [<-|Hx].
  - rewrite Forall_forall in Ha. apply Ha. apply in_or_app. now right.
  - now apply IH.
Qed.

Lemma StronglySorted_firstn (A : Type) (R : A -> A -> Prop) (n : nat) (l : list A) :
  StronglySorted R l -> StronglySorted R (firstn n l).
Proof.
  intros Hs. revert n; induction Hs as [|a l Hl IH Ha]; intros [|n]; simpl;
    try constructor.
  - apply IH.
  - rewrite Forall_forall in *. intros x Hx. apply Ha.
    eapply firstn_In_list; eauto.
Qed.

Lemma product_keys_In (lines : list (option string * Z)) (p : string) :
  In p (product_keys lines) <-> exists amount, In (Some p, amount) lines.
Proof.
  unfold product_keys. rewrite in_flat_map. split.
  - intros ([k v] & Hl & Hp). simpl in Hp. destruct k as [k|]; [|contradiction].
    destruct Hp as [->|[]]. exists v. exact Hl.
  - intros (v & Hl). exists (Some p, v). split; [exact Hl|now left].
Qed.

(** X13.  The top products are really the largest: the list has five
    entries, or all products when there are fewer; each entry is a product
    with the sum of its sales, and no product is listed twice; the entries
    are in descending order of that sum; and no product left out has a
    larger sum than a listed one.  Lines without a product are in no
    entry. *)
Theorem top_products_are_the_largest (lines : list (option string * Z)) :
  let totals := product_totals lines in
  let top := top_products lines in
  length top = Nat.min 5 (length totals)
  /\ NoDup (map fst totals)
  /\ (forall p total,
         In (p, total) totals
         <-> (exists amount, In (Some p, amount) lines)
             /\ total = series_sum (map snd (filter (is_product p) lines)))
  /\ (forall e, In e top -> In e totals)
  /\ NoDup (map fst top)
  /\ StronglySorted (fun a b => snd b <= snd a) top
  /\ (forall e e', In e top -> In e' totals -> ~ In e' top -> snd e' <= snd e).
Proof.
  intros totals top.
  set (leb := fun a b : string * Z => snd b <=? snd a).
  assert (Hsorted : StronglySorted (fun a b => leb a b = true) (sort_by leb totals)).
  { apply sort_by_sorted; unfold leb.
    - intros x y H. apply Z.leb_gt in H. apply Z.leb_le. lia.
    - intros x y z H1 H2. apply Z.leb_le in H1, H2. apply Z.leb_le. lia. }
  assert (Hperm : Permutation (sort_by leb totals) totals) by apply sort_by_perm.
  assert (Htop : top = firstn 5 (sort_by leb totals)) by reflexivity.
  assert (Hnd : NoDup (map fst totals)).
  { unfold totals, product_totals. rewrite map_map. cbn [fst]. rewrite map_id.
    eapply Permutation_NoDup; [symmetry; apply sort_by_perm|apply NoDup_nodup]. }
  split; [|split; [|split; [|split; [|split; [|split]]]]].
  - rewrite Htop, length_firstn, (Permutation_length Hperm). reflexivity.
  - exact Hnd.
  - intros p total. unfold totals, product_totals. rewrite in_map_iff. split.
    + intros (k & E & Hk). injection E as -> <-.
      apply sort_by_In, nodup_In, product_keys_In in Hk. auto.
    + intros [Hk ->]. exists p. split; [reflexivity|].
      apply sort_by_In, nodup_In, product_keys_In. exact Hk.
  - intros e He. rewrite Htop in He. apply firstn_In_list in He.
    eapply Permutation_in; eassumption.
  - rewrite Htop, <- firstn_map. apply NoDup_firstn_list.
    eapply Permutation_NoDup; [|exact Hnd].
    symmetry. apply Permutation_map. exact Hperm.
  - rewrite Htop. apply StronglySorted_firstn.
    eapply StronglySorted_weaken; [|exact Hsorted].
    unfold leb. intros a b H. now apply Z.leb_le.
  - intros e e' He He' Hn. rewrite Htop in He, Hn.
    assert (Hin : In e' (sort_by leb totals))
      by (eapply Permutation_in; [symmetry; exact Hperm|exact He']).
    rewrite <- (firstn_skipn 5 (sort_by leb totals)) in Hin, Hsorted.
    apply in_app_or in Hin. destruct Hin as [Hin|Hin]; [contradiction|].
    pose proof (StronglySorted_app_cross _ _ _ _ Hsorted e e' He Hin) as H.
    unfold leb in H. now apply Z.leb_le.
Qed.

Example top_products_example :
  top_products product_lines_example = [("Y", 350); ("X", 100); ("Z", 100)].
Proof. reflexivity. Qed.

(** * Further properties: scores and labels *)

Lemma try_fm_scores_inv_f (t : list rfm_row) (fm : list string * list string) :
  try_fm_scores t = Ok fm ->
  let ranks := rank_first (map Frequency t) in
  fst fm = map (fun x => bin_label (quartile_edges ranks) fm_labels
                           (bin_id (quartile_edges ranks) x)) ranks.
Proof.
  intros H ranks. unfold try_fm_scores in H. fold ranks in H.
  destruct (qcut ranks fm_labels) as [f|e] eqn:Ef; simpl in H; [|discriminate].
  destruct (qcut (map Monetary t) fm_labels) as [m|e]; simpl in H; [|discriminate].
  injection H as <-. simpl. now apply qcut_inv in Ef.
Qed.

Lemma bin_label_fm (xs : list Z) (id : nat) :
  (1 <= id <= 4)%nat ->
  In (bin_label (quartile_edges xs) fm_labels id) ["1"; "2"; "3"; "4"].
Proof.
  intros H. unfold bin_label. rewrite quartile_edges_length.
  destruct id as [|[|[|[|[|id]]]]]; try lia; simpl; tauto.
Qed.

Lemma bin_label_r (xs : list Z) (id : nat) :
  (1 <= id <= 4)%nat ->
  In (bin_label (quartile_edges xs) r_labels id) ["1"; "2"; "3"; "4"].
Proof.
  intros H. unfold bin_label. rewrite quartile_edges_length.
  destruct id as [|[|[|[|[|id]]]]]; try lia; simpl; tauto.
Qed.

Lemma scored_row_labels (t : list rfm_row) (s : list scored_row) (i : nat)
  (sc : scored_row) :
  score_rfm t = Ok s -> nth_error s i = Some sc ->
  In (R_Score sc) ["1"; "2"; "3"; "4"]
  /\ In (F_Score sc) ["1"; "2"; "3"; "4"]
  /\ In (M_Score sc) ["1"; "2"; "3"; "4"].
Proof.
  intros H Hi.
  destruct (scored_row_at t s i sc H Hi) as (Ht & _ & Hr & Hf & _).
  split; [|split].
  - rewrite Hr. apply bin_label_r, bin_id_bounds.
    apply in_map. eapply nth_error_In; exact Ht.
  - destruct (try_fm_scores t) as [fm|e] eqn:E.
    + destruct (try_fm_scores_inv t fm E) as [Efm _].
      pose proof (try_fm_scores_inv_f t fm E) as Ef. cbv zeta in Ef.
      rewrite Efm, Ef, nth_error_map in Hf.
      destruct (nth_error (rank_first (map Frequency t)) i) as [x|] eqn:Ex;
        [|discriminate].
      injection Hf as <-. apply bin_label_fm, bin_id_bounds.
      eapply nth_error_In; exact Ex.
    + rewrite (fm_scores_fallback t e E) in Hf. cbn [fst] in Hf.
      rewrite nth_error_map, Ht in Hf. injection Hf as <-. simpl. tauto.
  - destruct (m_score_at t s i sc H Hi) as [(e & _ & _ & ->)|(fm & _ & ->)].
    + simpl. tauto.
    + apply bin_label_fm, bin_id_bounds.
      apply in_map. eapply nth_error_In; exact Ht.
Qed.

(** X14.  When the scoring returns, every recency, frequency and spend score
    is one of "1", "2", "3", "4": no customer is left without a bin, with or
    without the fallback. *)
Theorem scores_are_quartile_labels (t : list rfm_row) (s : list scored_row) :
  score_rfm t = Ok s ->
  Forall (fun sc =>
            In (R_Score sc) ["1"; "2"; "3"; "4"]
            /\ In (F_Score sc) ["1"; "2"; "3"; "4"]
            /\ In (M_Score sc) ["1"; "2"; "3"; "4"])
    s.
Proof.
  intros H. apply Forall_forall. intros sc Hin.
  destruct (In_nth_error _ _ Hin) as [i Hi].
  exact (scored_row_labels t s i sc H Hi).
Qed.

Lemma scores_are_quartile_labels_witness :
  score_rfm (rfm three_customers) = Ok three_customers_scored
  /\ Forall (fun sc =>
               In (R_Score sc) ["1"; "2"; "3"; "4"]
               /\ In (F_Score sc) ["1"; "2"; "3"; "4"]
               /\ In (M_Score sc) ["1"; "2"; "3"; "4"])
       three_customers_scored.
Proof.
  split; [reflexivity|].
  apply (scores_are_quartile_labels (rfm three_customers)). reflexivity.
Defined.

Lemma segment_customer_of_labels (r f m : string) :
  In r ["1"; "2"; "3"; "4"] -> In f ["1"; "2"; "3"; "4"] -> In m ["1"; "2"; "3"; "4"] ->
  let label := segment_customer (r ++ f ++ m) r in
  (label = "At Risk" <-> r = "1")
  /\ (label = "Champions"
      <-> In (r, f, m) [("4", "4", "4"); ("4", "3", "4"); ("4", "4", "3"); ("3", "4", "4")])
  /\ (label = "New Users" -> r = "4")
  /\ (label = "Regular" -> r = "2" \/ r = "3").
Proof.
  intros Hr Hf Hm.
  repeat (destruct Hr as [<-|Hr]; [|]); try destruct Hr;
    repeat (destruct Hf as [<-|Hf]; [|]); try destruct Hf;
    repeat (destruct Hm as [<-|Hm]; [|]); try destruct Hm;
    cbv; intuition congruence.
Qed.

(** X15.  What the labels say about the scores, for every scored customer:
    "At Risk" is exactly the recency score "1", whatever the other scores;
    "Champions" is exactly one of the score triples 444, 434, 443, 344;
    "New Users" have the recency score "4" and "Regular" ones "2" or "3". *)
Theorem segment_labels_by_scores (t : list rfm_row) (s : list scored_row) :
  score_rfm t = Ok s ->
  Forall (fun sc =>
            (Segment sc = "At Risk" <-> R_Score sc = "1")
            /\ (Segment sc = "Champions"
                <-> In (R_Score sc, F_Score sc, M_Score sc)
                      [("4", "4", "4"); ("4", "3", "4"); ("4", "4", "3"); ("3", "4", "4")])
            /\ (Segment sc = "New Users" -> R_Score sc = "4")
            /\ (Segment sc = "Regular" -> R_Score sc = "2" \/ R_Score sc = "3"))
    s.
Proof.
  intros H. apply Forall_forall. intros sc Hin.
  destruct (In_nth_error _ _ Hin) as [i Hi].
  destruct (scored_row_labels t s i sc H Hi) as (Hr & Hf & Hm).
  destruct (scored_row_at t s i sc H Hi) as (_ & _ & _ & _ & _ & Hscore & Hseg).
  rewrite Hseg, Hscore.
  exact (segment_customer_of_labels _ _ _ Hr Hf Hm).
Qed.

Lemma segment_labels_by_scores_witness :
  score_rfm (rfm three_customers) = Ok three_customers_scored
  /\ Forall (fun sc =>
               (Segment sc = "At Risk" <-> R_Score sc = "1")
               /\ (Segment sc = "Champions"
                   <-> In (R_Score sc, F_Score sc, M_Score sc)
                         [("4", "4", "4"); ("4", "3", "4"); ("4", "4", "3"); ("3", "4", "4")])
               /\ (Segment sc = "New Users" -> R_Score sc = "4")
               /\ (Segment sc = "Regular" -> R_Score sc = "2" \/ R_Score sc = "3"))
       three_customers_scored.
Proof.
  split; [reflexivity|].
  apply (segment_labels_by_scores (rfm three_customers)). reflexivity.
Defined.

(** X16.  In the simplified view nobody is a champion: when the [try] block
    fails, every customer has the frequency and spend score "1", and the
    label is "New Users" for the recency score "4", "At Risk" for "1" and
    "Regular" otherwise. *)
Theorem fallback_has_no_champions (t : list rfm_row) (s : list scored_row) (e : exn) :
  score_rfm t = Ok s ->
  try_fm_scores t = Raise e ->
  Forall (fun sc =>
            F_Score sc = "1" /\ M_Score sc = "1"
            /\ Segment sc <> "Champions"
            /\ Segment sc
               = (if String.eqb (R_Score sc) "4" then "New Users"
                  else if String.eqb (R_Score sc) "1" then "At Risk"
                  else "Regular"))
    s.
Proof.
  intros H He. apply Forall_forall. intros sc Hin.
  destruct (In_nth_error _ _ Hin) as [i Hi].
  destruct (scored_row_labels t s i sc H Hi) as (Hr & _ & _).
  destruct (scored_row_at t s i sc H Hi) as (_ & _ & _ & _ & _ & Hscore & Hseg).
  destruct (m_score_at t s i sc H Hi) as [(e' & _ & Hf & Hm)|(fm & Hfm & _)];
    [|congruence].
  rewrite Hseg, Hscore, Hf, Hm.
  split; [reflexivity|]. split; [reflexivity|].
  repeat (destruct Hr as [<-|Hr]; [split; [discriminate|reflexivity]|]).
  destruct Hr.
Qed.

Lemma fallback_has_no_champions_witness :
  exists s e,
    score_rfm (rfm five_customers_raised) = Ok s
    /\ try_fm_scores (rfm five_customers_raised) = Raise e
    /\ Forall (fun sc =>
                 F_Score sc = "1" /\ M_Score sc = "1"
                 /\ Segment sc <> "Champions"
                 /\ Segment sc
                    = (if String.eqb (R_Score sc) "4" then "New Users"
                       else if String.eqb (R_Score sc) "1" then "At Risk"
                       else "Regular"))
         s.
Proof.
  eexists. eexists. split; [reflexivity|]. split; [reflexivity|].
  eapply (fallback_has_no_champions (rfm five_customers_raised)); reflexivity.
Defined.

(** * Further properties: the frequency cut *)

Lemma count_eq_cons (v y : Z) (l : list Z) :
  count_eq v (y :: l) = ((if (v =? y)%Z then 1 else 0) + count_eq v l)%nat.
Proof. unfold count_eq. simpl. now destruct (v =? y). Qed.

Lemma count_lt_eq_le (v w : Z) (l : list Z) :
  v < w -> (count_lt v l + count_eq v l <= count_lt w l)%nat.
Proof.
  intros H. induction l as [|y l IH]; [reflexivity|].
  rewrite !count_lt_cons, count_eq_cons.
  destruct (Z.ltb_spec y v), (Z.ltb_spec y w), (Z.eqb_spec v y); lia.
Qed.

Lemma count_lt_eq_length (v : Z) (l : list Z) :
  (count_lt v l + count_eq v l <= length l)%nat.
Proof.
  induction l as [|y l IH]; [reflexivity|].
  rewrite count_lt_cons, count_eq_cons. simpl length.
  destruct (Z.ltb_spec y v), (Z.eqb_spec v y); lia.
Qed.

Lemma count_eq_firstn_lt (l : list Z) (i k : nat) :
  (i < k)%nat -> (i < length l)%nat ->
  (count_eq (nth i l 0%Z) (firstn i l) + 1
   <= count_eq (nth i l 0%Z) (firstn k l))%nat.
Proof.
  revert i k; induction l as [|y l IH]; intros i k Hik Hi; simpl in Hi; [lia|].
  destruct k as [|k]; [lia|]. destruct i as [|i].
  - cbn [nth firstn]. rewrite count_eq_cons, Z.eqb_refl.
    unfold count_eq at 1. simpl. lia.
  - cbn [nth firstn]. rewrite !count_eq_cons.
    specialize (IH i k ltac:(lia) ltac:(lia)). lia.
Qed.

Lemma count_eq_firstn_le (v : Z) (l : list Z) (k : nat) :
  (count_eq v (firstn k l) <= count_eq v l)%nat.
Proof.
  revert k; induction l as [|y l IH]; intros [|k]; cbn [firstn];
    rewrite ?count_eq_cons; unfold count_eq at 1; simpl; try lia.
  specialize (IH k). fold (count_eq v (firstn k l)).
  destruct (v =? y); simpl; fold (count_eq v (firstn k l)); lia.
Qed.

Lemma count_lt_firstn_rest (l : list Z) (i : nat) :
  (i < length l)%nat ->
  (count_lt (nth i l 0%Z) l + count_eq (nth i l 0%Z) (firstn i l) + 1 <= length l)%nat.
Proof.
  revert i; induction l as [|y l IH]; intros i Hi; simpl in Hi; [lia|].
  destruct i as [|i].
  - cbn [nth firstn]. rewrite count_lt_cons, Z.ltb_irrefl.
    unfold count_eq. simpl. pose proof (count_lt_le_length y l). lia.
  - cbn [nth firstn]. rewrite count_lt_cons, count_eq_cons. simpl length.
    specialize (IH i ltac:(lia)).
    destruct (Z.ltb_spec y (nth i l 0)), (Z.eqb_spec (nth i l 0) y); lia.
Qed.

(** The rank of the value at position [i], as [rank_first] computes it. *)
Lemma rank_first_nth (xs : list Z) (i : nat) :
  (i < length xs)%nat ->
  nth i (rank_first xs) 0
  = 1 + Z.of_nat (count_lt (nth i xs 0) xs)
    + Z.of_nat (count_eq (nth i xs 0) (firstn i xs)).
Proof.
  intros Hi.
  set (f := fun i0 : nat =>
              1 + Z.of_nat (count_lt (nth i0 xs 0) xs)
              + Z.of_nat (length (filter (Z.eqb (nth i0 xs 0)) (firstn i0 xs)))).
  change (rank_first xs) with (map f (seq 0 (length xs))).
  rewrite (nth_indep _ 0 (f 0%nat)) by (rewrite length_map, length_seq; exact Hi).
  rewrite map_nth, seq_nth by exact Hi. reflexivity.
Qed.

Lemma rank_first_bounds (xs : list Z) (i : nat) :
  (i < length xs)%nat ->
  1 <= nth i (rank_first xs) 0 <= Z.of_nat (length xs).
Proof.
  intros Hi. rewrite rank_first_nth by exact Hi.
  pose proof (count_lt_firstn_rest xs i Hi). lia.
Qed.

Lemma rank_first_lt (xs : list Z) (i k : nat) :
  (i < k)%nat -> (k < length xs)%nat ->
  nth i (rank_first xs) 0 <> nth k (rank_first xs) 0.
Proof.
  intros Hik Hk. rewrite !rank_first_nth by lia.
  set (v := nth i xs 0). set (w := nth k xs 0).
  pose proof (count_eq_firstn_lt xs i k Hik ltac:(lia)) as Hik'. fold v in Hik'.
  pose proof (count_eq_firstn_le v xs k) as Hv.
  destruct (Z.lt_trichotomy v w) as [H|[H|H]].
  - pose proof (count_lt_eq_le v w xs H). lia.
  - rewrite <- H. lia.
  - pose proof (count_lt_eq_le w v xs H).
    pose proof (count_eq_firstn_lt xs k (S k) ltac:(lia) Hk) as Hk'. fold w in Hk'.
    pose proof (count_eq_firstn_le w xs (S k)). lia.
Qed.

Lemma rank_first_NoDup (xs : list Z) : NoDup (rank_first xs).
Proof.
  apply (NoDup_nth (rank_first xs) 0). rewrite rank_first_length.
  intros i k Hi Hk E.
  destruct (Nat.lt_trichotomy i k) as [H|[H|H]]; [|exact H|].
  - exfalso. now apply (rank_first_lt xs i k H Hk).
  - exfalso. symmetry in E. now apply (rank_first_lt xs k i H Hi).
Qed.

Lemma one_to_length (n : nat) : length (one_to n) = n.
Proof. unfold one_to. now rewrite length_map, length_seq. Qed.

Lemma rank_first_perm (xs : list Z) :
  Permutation (rank_first xs) (one_to (length xs)).
Proof.
  apply NoDup_Permutation_bis.
  - apply rank_first_NoDup.
  - rewrite one_to_length, rank_first_length. lia.
  - intros r Hr. destruct (In_nth _ _ 0 Hr) as (i & Hi & <-).
    rewrite rank_first_length in Hi.
    pose proof (rank_first_bounds xs i Hi) as Hb.
    unfold one_to. apply in_map_iff.
    exists (Z.to_nat (nth i (rank_first xs) 0 - 1)). split; [lia|].
    apply in_seq. lia.
Qed.

Lemma count_lt_app (x : Z) (l1 l2 : list Z) :
  count_lt x (l1 ++ l2) = (count_lt x l1 + count_lt x l2)%nat.
Proof. unfold count_lt. now rewrite filter_app, length_app. Qed.

Lemma count_lt_one_to (n : nat) (x : Z) :
  1 <= x -> count_lt x (one_to n) = Z.to_nat (Z.min (Z.of_nat n) (x - 1)).
Proof.
  intros Hx. induction n as [|n IH];
    [unfold one_to, count_lt; cbn [seq map filter length]; lia|].
  unfold one_to in *. rewrite seq_S, map_app, count_lt_app, IH.
  cbn [map Nat.add]. rewrite count_lt_cons.
  unfold count_lt at 1. cbn [filter length].
  destruct (Z.ltb_spec (Z.of_nat n + 1) x); lia.
Qed.

Lemma sorted_ranks_nth (xs : list Z) (j : nat) :
  (j < length xs)%nat ->
  nth j (sort_by Z.leb (rank_first xs)) 0 = Z.of_nat j + 1.
Proof.
  intros Hj.
  assert (Hl : (j < length (sort_by Z.leb (rank_first xs)))%nat)
    by (rewrite sort_by_length, rank_first_length; exact Hj).
  assert (Hc : forall x, 1 <= x ->
                 count_lt x (sort_by Z.leb (rank_first xs))
                 = Z.to_nat (Z.min (Z.of_nat (length xs)) (x - 1))).
  { intros x Hx.
    rewrite (count_lt_perm x _ _ (sort_by_perm _ Z.leb (rank_first xs))).
    rewrite (count_lt_perm x _ _ (rank_first_perm xs)).
    now apply count_lt_one_to. }
  pose proof (sorted_nth_lt_count _ (Z.of_nat j + 1) j
                (sort_by_Z_sorted (rank_first xs)) Hl) as H1.
  pose proof (sorted_nth_lt_count _ (Z.of_nat j + 2) j
                (sort_by_Z_sorted (rank_first xs)) Hl) as H2.
  rewrite Hc in H1, H2 by lia. lia.
Qed.

Lemma quantile4_ranks (xs : list Z) (k : Z) :
  (1 <= length xs)%nat -> 0 <= k <= 4 ->
  quantile4 (rank_first xs) k = k * (Z.of_nat (length xs) - 1) + 4.
Proof.
  intros Hn Hk. rewrite quantile4_unfold, rank_first_length.
  destruct (quantile_index_bounds (length xs) k Hn Hk) as (Hj & Hg & Hj').
  set (j := quantile_index (length xs) k) in *.
  set (pos := k * (Z.of_nat (length xs) - 1)) in *.
  assert (Hpos : pos = 4 * Z.of_nat j + pos mod 4).
  { unfold j, quantile_index. fold pos.
    assert (0 <= pos) by (unfold pos; nia).
    rewrite Z2Nat.id by (apply Z.div_pos; lia).
    apply Z.div_mod. lia. }
  rewrite !sorted_ranks_nth by lia.
  destruct (Z.eq_dec (pos mod 4) 0) as [E|E].
  - rewrite E in *. lia.
  - replace (Nat.min (S j) (length xs - 1)) with (S j) by lia. lia.
Qed.

Lemma quartile_edges_ranks (xs : list Z) :
  (2 <= length xs)%nat -> NoDup (quartile_edges (rank_first xs)).
Proof.
  intros Hn. unfold quartile_edges. cbn [map].
  rewrite !quantile4_ranks by lia.
  rewrite !NoDup_cons_iff. cbn [In].
  repeat split; try (apply NoDup_nil); intros H; repeat destruct H as [H|H]; lia.
Qed.

Lemma qcut_returns (xs : list Z) (labels : list string) :
  NoDup (quartile_edges xs) -> exists r, qcut xs labels = Ok r.
Proof.
  intros H. unfold qcut. rewrite (nodup_fixed_point Z.eq_dec H), Nat.ltb_irrefl.
  eexists; reflexivity.
Qed.

(** X17.  With at least two customers the frequency cut of line 223 never
    fails: the ranks it bins are 1, ..., n without ties, so their quartile
    edges are distinct.  The [try] block then fails, and the fallback to "1"
    sets in, exactly when two quartile edges of the spends coincide. *)
Theorem frequency_cut_never_fails (t : list rfm_row) :
  (2 <= length t)%nat ->
  Permutation (rank_first (map Frequency t)) (one_to (length t))
  /\ (exists f, qcut (rank_first (map Frequency t)) fm_labels = Ok f)
  /\ ((exists e, try_fm_scores t = Raise e)
      <-> ~ NoDup (quartile_edges (map Monetary t))).
Proof.
  intros Hn.
  assert (Hf : exists f, qcut (rank_first (map Frequency t)) fm_labels = Ok f).
  { apply qcut_returns, quartile_edges_ranks. now rewrite length_map. }
  split; [|split; [exact Hf|]].
  - rewrite <- (length_map Frequency t). apply rank_first_perm.
  - destruct Hf as [f Hf]. unfold try_fm_scores. rewrite Hf. cbn [bind].
    split.
    + intros [e He] Hnd.
      destruct (qcut_returns (map Monetary t) fm_labels Hnd) as [m Hm].
      rewrite Hm in He. discriminate.
    + intros Hnd. rewrite (qcut_raises _ fm_labels Hnd). eexists; reflexivity.
Qed.

Lemma frequency_cut_never_fails_witness :
  (2 <= length (rfm three_customers))%nat
  /\ Permutation (rank_first (map Frequency (rfm three_customers)))
       (one_to (length (rfm three_customers)))
  /\ (exists f, qcut (rank_first (map Frequency (rfm three_customers))) fm_labels = Ok f)
  /\ ((exists e, try_fm_scores (rfm three_customers) = Raise e)
      <-> ~ NoDup (quartile_edges (map Monetary (rfm three_customers)))).
Proof.
  assert (H : (2 <= length (rfm three_customers))%nat) by (vm_compute; lia).
  split; [exact H|]. exact (frequency_cut_never_fails (rfm three_customers) H).
Defined.
